(** * Lowering a libclang AST into Binary Ninja types

    A shallow embedding of [ast_handlers.py] and [pre_process.py]: the
    dispatcher [define_type], its handlers, and the top-level pass [pp].

    - The libclang AST is a table of cursors and types addressed by handles;
      every attribute the handlers read is a field of the table's rows.
      [Cursor.enum_value], [Type.argument_types()] and
      [Type.is_function_variadic()] raise [AssertionError] where the
      binding's assertion on the kind fails.  [Cursor.underlying_typedef_type]
      is read as the binding answers it for a declaration cursor, which is
      what the dispatcher hands to the handlers that read it.
    - The Binary Ninja view is the name-to-type map it keeps, plus the log.
    - The handlers run in a state-and-exception monad over the view; Python's
      [None] result is [None], a raised exception is [Raises].
    - [bv.parse_type_string], the refusal of [bv.define_user_type] and the
      truth value of a type object belong to Binary Ninja: they are the
      fields of a [BinaryNinja] record every handler takes, and the theorems
      hold for all of them.
    - [xxhash.xxh64_hexdigest] is written out ([XXH64]). *)

From Stdlib Require Import ZArith List String Ascii Bool Lia.
From stdpp Require Import base option gmap strings list fin_maps.

Open Scope string_scope.
Open Scope Z_scope.
Import ListNotations.

(* ===================================================================== *)
(** * Python string helpers *)
(* ===================================================================== *)

Module PyStr.

(** [bool(s)] of a Python string: the empty string is false. *)
Definition truthy (s : string) : bool :=
  match s with EmptyString => false | String _ _ => true end.

Fixpoint startswith (p s : string) : bool :=
  match p, s with
  | EmptyString, _ => true
  | String a p', String b s' => if Ascii.eqb a b then startswith p' s' else false
  | String _ _, EmptyString => false
  end.

(** [p in s] for strings: [p] occurs in [s] as a substring. *)
Fixpoint contains (p s : string) : bool :=
  if startswith p s then true
  else match s with
       | EmptyString => false
       | String _ s' => contains p s'
       end.

(** [s.endswith(p)] *)
Fixpoint endswith (p s : string) : bool :=
  if String.eqb p s then true
  else match s with
       | EmptyString => false
       | String _ s' => endswith p s'
       end.

(** [s[:-1]] *)
Fixpoint drop_last (s : string) : string :=
  match s with
  | EmptyString => EmptyString
  | String _ EmptyString => EmptyString
  | String c s' => String c (drop_last s')
  end.

(** [x in (a, b, ...)] for a tuple or list of strings. *)
Definition mem (x : string) (l : list string) : bool :=
  existsb (String.eqb x) l.

(** The characters [str.split()] treats as separators, for ASCII. *)
Definition is_space (c : ascii) : bool :=
  let n := nat_of_ascii c in
  ((9 <=? n) && (n <=? 13) || (28 <=? n) && (n <=? 32))%nat.

Fixpoint split_aux (cur : string) (s : string) : list string :=
  match s with
  | EmptyString =>
      match cur with EmptyString => [] | _ => [cur] end
  | String c s' =>
      if is_space c
      then match cur with
           | EmptyString => split_aux EmptyString s'
           | _ => cur :: split_aux EmptyString s'
           end
      else split_aux (cur +:+ String c EmptyString) s'
  end.

(** [s.split()]: the maximal runs of non-space characters. *)
Definition split (s : string) : list string := split_aux EmptyString s.

(** [s.replace(old, new)] for a non-empty [old]: [skip] counts the
    characters of a match still to be dropped. *)
Fixpoint replace_aux (old new : string) (skip : nat) (s : string) : string :=
  match s with
  | EmptyString => EmptyString
  | String c s' =>
      match skip with
      | S k => replace_aux old new k s'
      | O =>
          if startswith old s
          then new +:+ replace_aux old new (Nat.pred (String.length old)) s'
          else String c (replace_aux old new O s')
      end
  end.

Definition replace (old new s : string) : string := replace_aux old new O s.

End PyStr.

(* ===================================================================== *)
(** * [xxhash.xxh64_hexdigest]

    The hash [define_anonymous_type] names its result with: XXH64 with
    seed 0 over the bytes of the string, printed as sixteen lower-case
    hexadecimal digits, most significant first.  All arithmetic is modulo
    2^64. *)
(* ===================================================================== *)

Module XXH64.

Definition wrap (x : Z) : Z := x mod 2 ^ 64.

Definition PRIME64_1 : Z := 0x9E3779B185EBCA87.
Definition PRIME64_2 : Z := 0xC2B2AE3D27D4EB4F.
Definition PRIME64_3 : Z := 0x165667B19E3779F9.
Definition PRIME64_4 : Z := 0x85EBCA77C2B2AE63.
Definition PRIME64_5 : Z := 0x27D4EB2F165667C5.

Definition rotl (x r : Z) : Z :=
  wrap (Z.lor (Z.shiftl x r) (Z.shiftr x (64 - r))).

Definition round (acc input : Z) : Z :=
  wrap (rotl (wrap (acc + input * PRIME64_2)) 31 * PRIME64_1).

Definition merge_round (acc val : Z) : Z :=
  wrap (Z.lxor acc (round 0 val) * PRIME64_1 + PRIME64_4).

(** Little-endian read of a run of bytes. *)
Definition read_le (bs : list Z) : Z :=
  fold_right (fun b acc => b + 256 * acc) 0 bs.

Definition lane (k : nat) (bs : list Z) : Z :=
  read_le (firstn 8 (skipn (8 * k) bs)).

(** The 32-byte stripes; what is left over is returned with the lanes. *)
Fixpoint stripes (fuel : nat) (bs : list Z) (v : Z * Z * Z * Z)
  : (Z * Z * Z * Z) * list Z :=
  match fuel with
  | O => (v, bs)
  | S fuel' =>
      if (32 <=? length bs)%nat
      then let '(v1, v2, v3, v4) := v in
           stripes fuel' (skipn 32 bs)
             (round v1 (lane 0 bs), round v2 (lane 1 bs),
              round v3 (lane 2 bs), round v4 (lane 3 bs))
      else (v, bs)
  end.

Fixpoint tail8 (fuel : nat) (bs : list Z) (h : Z) : Z * list Z :=
  match fuel with
  | O => (h, bs)
  | S fuel' =>
      if (8 <=? length bs)%nat
      then let k1 := round 0 (read_le (firstn 8 bs)) in
           tail8 fuel' (skipn 8 bs)
             (wrap (rotl (Z.lxor h k1) 27 * PRIME64_1 + PRIME64_4))
      else (h, bs)
  end.

Definition tail4 (bs : list Z) (h : Z) : Z * list Z :=
  if (4 <=? length bs)%nat
  then (wrap (rotl (Z.lxor h (wrap (read_le (firstn 4 bs) * PRIME64_1))) 23
              * PRIME64_2 + PRIME64_3), skipn 4 bs)
  else (h, bs).

Definition tail1 (bs : list Z) (h : Z) : Z :=
  fold_left (fun h b => wrap (rotl (Z.lxor h (wrap (b * PRIME64_5))) 11 * PRIME64_1))
            bs h.

Definition avalanche (h : Z) : Z :=
  let h := Z.lxor h (Z.shiftr h 33) in
  let h := wrap (h * PRIME64_2) in
  let h := Z.lxor h (Z.shiftr h 29) in
  let h := wrap (h * PRIME64_3) in
  Z.lxor h (Z.shiftr h 32).

Definition digest (bs : list Z) : Z :=
  let n := length bs in
  let '(h, rest) :=
    if (32 <=? n)%nat
    then let '((v1, v2, v3, v4), rest) :=
           stripes n bs (wrap (PRIME64_1 + PRIME64_2), PRIME64_2, 0,
                         wrap (0 - PRIME64_1)) in
         let h := wrap (rotl v1 1 + rotl v2 7 + rotl v3 12 + rotl v4 18) in
         (merge_round (merge_round (merge_round (merge_round h v1) v2) v3) v4,
          rest)
    else (PRIME64_5, bs) in
  let h := wrap (h + Z.of_nat n) in
  let '(h, rest) := tail8 n rest h in
  let '(h, rest) := tail4 rest h in
  avalanche (tail1 rest h).

Definition hex_digit (d : Z) : ascii :=
  ascii_of_nat (Z.to_nat (if d <? 10 then 48 + d else 87 + d)).

Fixpoint hex_be (digits : nat) (h : Z) : string :=
  match digits with
  | O => EmptyString
  | S k => String (hex_digit (Z.land (Z.shiftr h (4 * Z.of_nat k)) 15)) (hex_be k h)
  end.

Definition bytes_of (s : string) : list Z :=
  map (fun c => Z.of_nat (nat_of_ascii c)) (list_ascii_of_string s).

Definition xxh64_hexdigest (s : string) : string :=
  hex_be 16 (digest (bytes_of s)).

End XXH64.

(* ===================================================================== *)
(** * The libclang AST, as the handlers see it *)
(* ===================================================================== *)

(** [clang.cindex.CursorKind], the members the dispatcher tells apart. *)
Inductive CursorKind :=
| TYPEDEF_DECL | PARM_DECL | VAR_DECL | FUNCTION_DECL | ENUM_DECL
| STRUCT_DECL | FIELD_DECL | UNION_DECL | ENUM_CONSTANT_DECL
| NO_DECL_FOUND | TRANSLATION_UNIT | OTHER_CURSOR_KIND.

(** [clang.cindex.TypeKind]. *)
Inductive TypeKind :=
| INVALID
| BOOL | CHAR16 | CHAR32 | CHAR_S | CHAR_U | DOUBLE | FLOAT | FLOAT128
| HALF | INT | UINT | INT128 | LONG | LONGLONG | LONGDOUBLE | SCHAR | SHORT
| ULONG | UCHAR | ULONGLONG | USHORT | VOID | WCHAR
| POINTER | CONSTANTARRAY | INCOMPLETEARRAY | FUNCTIONPROTO | FUNCTIONNOPROTO
| TYPEDEF | ELABORATED | RECORD | ENUM | COMPLEX | OTHER_TYPE_KIND.

Inductive TokenKind := PUNCTUATION | KEYWORD | IDENTIFIER | LITERAL | COMMENT.

#[global] Instance CursorKind_eq_dec : EqDecision CursorKind.
Proof. solve_decision. Defined.

#[global] Instance TypeKind_eq_dec : EqDecision TypeKind.
Proof. solve_decision. Defined.

#[global] Instance TokenKind_eq_dec : EqDecision TokenKind.
Proof. solve_decision. Defined.

Definition CursorKind_eqb (a b : CursorKind) : bool := bool_decide (a = b).
Definition TypeKind_eqb (a b : TypeKind) : bool := bool_decide (a = b).
Definition TokenKind_eqb (a b : TokenKind) : bool := bool_decide (a = b).

(** Cursors and types are handles into the translation unit. *)
Definition Cursor := nat.
Definition CType := nat.

Bind Scope nat_scope with Cursor CType.

Record Token := { tok_kind : TokenKind; tok_spelling : string }.

(** What a [Cursor] answers. *)
Record CursorData := {
  c_kind : CursorKind;
  c_spelling : string;
  c_type : CType;
  c_is_anonymous : bool;
  c_is_definition : bool;
  c_semantic_parent : Cursor;
  c_underlying_typedef_type : CType;
  c_get_definition : Cursor;
  c_get_children : list Cursor;
  c_get_arguments : list Cursor;
  c_get_tokens : list Token;
  c_enum_value : Z
}.

(** What a [Type] answers. *)
Record TypeData := {
  t_kind : TypeKind;
  t_spelling : string;
  t_get_pointee : CType;
  t_get_declaration : Cursor;
  t_get_array_element_type : CType;
  t_get_array_size : Z;
  t_get_result : CType;
  t_argument_types : list CType;
  t_is_function_variadic : bool;
  t_get_fields : list Cursor;
  t_get_size : Z;
  t_get_align : Z;
  t_get_named_type : CType
}.

Record TranslationUnit := {
  cursors : Cursor -> CursorData;
  ctypes : CType -> TypeData;
  tu_cursor : Cursor            (* [tu.cursor], the root *)
}.

(* ===================================================================== *)
(** * Binary Ninja types and the view *)
(* ===================================================================== *)

(** [bv.platform.*_calling_convention] *)
Inductive CallingConvention :=
| default_calling_convention | cdecl_calling_convention
| fastcall_calling_convention | stdcall_calling_convention.

Inductive StructureType := StructStructureType | UnionStructureType.

(** [bn.Type].  [bv.arch] is fixed for a view and left out of [TPointer]
    and [TEnumeration].  [TBase] and [TNamedReference] are what a parser
    can answer for a primitive and for a name. *)
#[warnings="-register-all"]
Inductive BnType :=
| TBase (name : string)
| TNamedReference (name : string)
| TPointer (target : BnType)
| TArray (element : BnType) (count : Z)
| TFunction (ret : BnType) (params : list (BnType * string))
            (calling_convention : option CallingConvention)
            (variable_arguments : bool)
| TStructure (width alignment : option Z) (members : list (BnType * string))
             (variant : StructureType)
| TEnumeration (members : list (string * Z)).

(** [bn.Structure]: the builder the handlers fill.  A width or alignment
    never assigned stays [None] (the library's default). *)
Record Structure := {
  s_width : option Z;
  s_alignment : option Z;
  s_members : list (BnType * string);
  s_type : StructureType
}.

(** [bn.Structure()] *)
Definition Structure_new : Structure :=
  {| s_width := None; s_alignment := None; s_members := [];
     s_type := StructStructureType |}.

(** [bn.Type.structure_type(s)] *)
Definition structure_type (s : Structure) : BnType :=
  TStructure (s_width s) (s_alignment s) (s_members s) (s_type s).

(** Python exceptions the handlers meet; [str(e)] is the message. *)
Inductive Exception :=
| SyntaxError (msg : string)
| TypeError (msg : string)
| AttributeError (msg : string)
| UnboundLocalError (msg : string)
| AssertionError (msg : string)
| OtherException (msg : string).

Definition str_of_exception (e : Exception) : string :=
  match e with
  | SyntaxError m | TypeError m | AttributeError m
  | UnboundLocalError m | AssertionError m | OtherException m => m
  end.

(** A log call: the leading text of its format string and the spellings
    interpolated into it (kinds and exception texts are not recorded). *)
Inductive LogRecord :=
| Debug (text : string) (args : list string)
| Info (text : string) (args : list string).

(** The view: its named types and the log written so far (oldest first). *)
Record BinaryView := {
  types : gmap string BnType;
  log : list LogRecord
}.

(** What is Binary Ninja's own: the type parser (it sees the view's types),
    the error, if any, with which [define_user_type] refuses a definition,
    and the truth value Python gives a type object. *)
Record BinaryNinja := {
  bn_parse_type_string : gmap string BnType -> string -> Exception + (BnType * string);
  bn_define_user_type_error : gmap string BnType -> string -> BnType -> option Exception;
  bn_truth : BnType -> bool
}.

(* ===================================================================== *)
(** * The monad of the handlers *)
(* ===================================================================== *)

Inductive Outcome (A : Type) :=
| Returns (a : A) (bv : BinaryView)
| Raises (e : Exception) (bv : BinaryView)
| OutOfFuel.

Arguments Returns {A} a bv.
Arguments Raises {A} e bv.
Arguments OutOfFuel {A}.

Definition Py (A : Type) : Type := BinaryView -> Outcome A.

Definition ret {A} (a : A) : Py A := fun bv => Returns a bv.

Definition bind {A B} (m : Py A) (k : A -> Py B) : Py B :=
  fun bv => match m bv with
            | Returns a bv' => k a bv'
            | Raises e bv' => Raises e bv'
            | OutOfFuel => OutOfFuel
            end.

Definition raise {A} (e : Exception) : Py A := fun bv => Raises e bv.

Definition out_of_fuel {A} : Py A := fun _ => OutOfFuel.

(** [try: m  except ... as e: h e]; the handler decides what it catches
    by re-raising the rest. *)
Definition try_except {A} (m : Py A) (h : Exception -> Py A) : Py A :=
  fun bv => match m bv with
            | Raises e bv' => h e bv'
            | r => r
            end.

Notation "'let*' x ':=' m 'in' k" := (bind m (fun x => k))
  (at level 10, x name, m at level 100, k at level 200).
Notation "'let*' ' p ':=' m 'in' k" := (bind m (fun x => match x with p => k end))
  (at level 10, p pattern, m at level 100, k at level 200).
Notation "m '>>' k" := (bind m (fun _ => k))
  (at level 100, k at level 200, right associativity).

(** The value a handler gives back: a [(name, type)] pair or [None]. *)
Definition Result := option (string * BnType).

(** [a, b = r]: unpacking [None] is a [TypeError]. *)
Definition unpack (r : Result) : Py (string * BnType) :=
  match r with
  | Some p => ret p
  | None => raise (TypeError "cannot unpack non-iterable NoneType object")
  end.

Fixpoint for_list {A B} (body : A -> Py B) (l : list A) : Py (list B) :=
  match l with
  | [] => ret []
  | x :: l' => let* y := body x in let* ys := for_list body l' in ret (y :: ys)
  end.

Definition log_debug (text : string) (args : list string) : Py unit :=
  fun bv => Returns tt {| types := types bv; log := log bv ++ [Debug text args] |}.

Definition log_info (text : string) (args : list string) : Py unit :=
  fun bv => Returns tt {| types := types bv; log := log bv ++ [Info text args] |}.

(* ===================================================================== *)
(** * [ast_handlers.py] *)
(* ===================================================================== *)

(** libclang's base types, as [check_if_base_type] lists them. *)
Definition base_types : list TypeKind :=
  [BOOL; CHAR16; CHAR32; CHAR_S; CHAR_U; DOUBLE; FLOAT; FLOAT128;
   HALF; INT; UINT; INT128; LONG; LONGLONG; LONGDOUBLE; SCHAR; SHORT;
   ULONG; UCHAR; ULONGLONG; USHORT; VOID; WCHAR].

Definition compiler_directives : list string :=
  ["__unaligned"; "__attribute__((stdcall))"].

Definition INCOMPLETE_ARRAY_ARBITRARY_SIZE : Z := 0x1000.

(** [f'[{INCOMPLETE_ARRAY_ARBITRARY_SIZE}]'] *)
Definition INCOMPLETE_ARRAY_ARBITRARY_SIZE_brackets : string := "[4096]".

Definition void_types : list string :=
  ["const void"; "const volatile void"; "volatile void"; "__unaligned void";
   "const __unaligned void"].

(** [s = 'void' if s in void_types else s], the rewrite several handlers
    apply before parsing. *)
Definition void_if_void_type (s : string) : string :=
  if PyStr.mem s void_types then "void" else s.

Definition remove_compiler_directives (type_str : string) : string :=
  fold_left (fun sanitized_str str_token =>
               if PyStr.mem str_token compiler_directives then sanitized_str
               else sanitized_str +:+ str_token +:+ " ")
            (PyStr.split type_str) "".

(** The synthesized name of an anonymous type. *)
Definition anon_name (type_spelling : string) : string :=
  "anon_" +:+ XXH64.xxh64_hexdigest type_spelling.

Section Handlers.

Variable tu : TranslationUnit.
Variable bn : BinaryNinja.

(** ** Attributes of cursors and types *)

Definition kind (n : Cursor) : CursorKind := c_kind (cursors tu n).
Definition spelling (n : Cursor) : string := c_spelling (cursors tu n).
Definition type (n : Cursor) : CType := c_type (cursors tu n).
Definition is_anonymous (n : Cursor) : bool := c_is_anonymous (cursors tu n).
Definition is_definition (n : Cursor) : bool := c_is_definition (cursors tu n).
Definition semantic_parent (n : Cursor) : Cursor := c_semantic_parent (cursors tu n).
Definition underlying_typedef_type (n : Cursor) : CType :=
  c_underlying_typedef_type (cursors tu n).
Definition get_definition (n : Cursor) : Cursor := c_get_definition (cursors tu n).
Definition get_children (n : Cursor) : list Cursor := c_get_children (cursors tu n).
Definition get_arguments (n : Cursor) : list Cursor := c_get_arguments (cursors tu n).
Definition get_tokens (n : Cursor) : list Token := c_get_tokens (cursors tu n).

Definition tkind (t : CType) : TypeKind := t_kind (ctypes tu t).
Definition tspelling (t : CType) : string := t_spelling (ctypes tu t).
Definition get_pointee (t : CType) : CType := t_get_pointee (ctypes tu t).
Definition get_declaration (t : CType) : Cursor := t_get_declaration (ctypes tu t).
Definition get_array_element_type (t : CType) : CType :=
  t_get_array_element_type (ctypes tu t).
Definition get_array_size (t : CType) : Z := t_get_array_size (ctypes tu t).
Definition get_result (t : CType) : CType := t_get_result (ctypes tu t).
Definition get_fields (t : CType) : list Cursor := t_get_fields (ctypes tu t).
Definition get_size (t : CType) : Z := t_get_size (ctypes tu t).
Definition get_align (t : CType) : Z := t_get_align (ctypes tu t).
Definition get_named_type (t : CType) : CType := t_get_named_type (ctypes tu t).

(** What libclang itself answers ([conf.lib.clang_...]). *)
Definition clang_getEnumConstantDeclValue (n : Cursor) : Z :=
  c_enum_value (cursors tu n).
Definition clang_getArgTypes (t : CType) : list CType :=
  t_argument_types (ctypes tu t).
Definition clang_isFunctionTypeVariadic (t : CType) : bool :=
  t_is_function_variadic (ctypes tu t).

(** Three attributes of [clang.cindex] check what they are asked of
    before they answer: [Cursor.enum_value] starts with
    [assert self.kind == CursorKind.ENUM_CONSTANT_DECL], and
    [Type.argument_types()] and [Type.is_function_variadic()] with
    [assert self.kind == TypeKind.FUNCTIONPROTO]. *)
Definition py_assert (condition : bool) : Py unit :=
  if condition then ret tt else raise (AssertionError "").

Definition enum_value (n : Cursor) : Py Z :=
  py_assert (CursorKind_eqb (kind n) ENUM_CONSTANT_DECL) >>
  ret (clang_getEnumConstantDeclValue n).

Definition argument_types (t : CType) : Py (list CType) :=
  py_assert (TypeKind_eqb (tkind t) FUNCTIONPROTO) >>
  ret (clang_getArgTypes t).

Definition is_function_variadic (t : CType) : Py bool :=
  py_assert (TypeKind_eqb (tkind t) FUNCTIONPROTO) >>
  ret (clang_isFunctionTypeVariadic t).

(** ** The view's operations

    Where Python tests a looked-up type for truth ([if not var_type:]), the
    handlers below match on the lookup: [None] is false, and a type object
    is as true as [bn_truth] says. *)

Definition get_type_by_name (name : string) : Py (option BnType) :=
  fun bv => Returns (types bv !! name) bv.

Definition define_user_type (name : string) (t : BnType) : Py unit :=
  fun bv =>
    match bn_define_user_type_error bn (types bv) name t with
    | Some e => Raises e bv
    | None => Returns tt {| types := <[name := t]> (types bv); log := log bv |}
    end.

Definition parse_type_string (s : string) : Py (BnType * string) :=
  fun bv =>
    match bn_parse_type_string bn (types bv) s with
    | inl e => Raises e bv
    | inr r => Returns r bv
    end.

(** ** [check_if_base_type] *)

(** [type.kind in base_types] *)
Definition kind_in_base_types (t : CType) : bool :=
  existsb (TypeKind_eqb (tkind t)) base_types.

Definition check_if_base_type (t : CType) : Py bool :=
  if kind_in_base_types t
  then log_debug "check_if_base_type: is a base type." [tspelling t] >> ret true
  else ret false.

(** ** [is_recursive_field] *)

Definition is_recursive_field (field : Cursor) : Py bool :=
  log_debug "is_recursive_field: Processing field"
            [tspelling (type field); spelling field] >>
  if TypeKind_eqb (tkind (type field)) POINTER
  then let pointee_type := get_pointee (type field) in
       if String.eqb (tspelling pointee_type)
                     (tspelling (type (semantic_parent field)))
       then ret true
       else ret false
  else ret false.

(** ** [define_anonymous_type] *)

Definition define_anonymous_type (define_type : Cursor -> Py Result)
           (node : Cursor) : Py Result :=
  log_debug "define_anonymous_type: Processing" [tspelling (type node)] >>
  let struct_name := anon_name (tspelling (type node)) in
  let* members :=
    for_list
      (fun field =>
         let* bn_field_type := get_type_by_name (spelling field) in
         let* '(field_name, bn_field_type) :=
           match bn_field_type with
           | Some t =>
               if bn_truth bn t then ret (spelling field, t)
               else let* r := define_type (get_definition field) in unpack r
           | None => let* r := define_type (get_definition field) in unpack r
           end in
         log_debug "define_anonymous_type: Appending field -" [field_name] >>
         ret (bn_field_type, field_name))
      (get_fields (type node)) in
  let is_union :=
    TypeKind_eqb (tkind (type node)) ELABORATED
    && CursorKind_eqb (kind (get_declaration (get_named_type (type node))))
                      UNION_DECL in
  let struct :=
    {| s_width := Some (get_size (type node));
       s_alignment := Some (get_align (type node));
       s_members := members;
       s_type := if is_union then UnionStructureType else StructStructureType |} in
  ret (Some (struct_name, structure_type struct)).

(** ** [function_decl] *)

(** One parameter of a prototype reached through a typedef. *)
Definition function_decl_typedef_param (define_type : Cursor -> Py Result)
           (param_type : CType) : Py (BnType * string) :=
  log_debug "function_decl: Processing parameter type -" [tspelling param_type] >>
  if TypeKind_eqb (tkind param_type) INCOMPLETEARRAY then
    let element := get_array_element_type param_type in
    let* is_base := check_if_base_type element in
    let* '(arr_var_type, var_name) :=
      if is_base then parse_type_string (tspelling element)
      else if TypeKind_eqb (tkind element) POINTER then
        let* r := define_type (get_declaration (get_pointee element)) in
        let* '(pointee_name, pointee_type) := unpack r in
        ret (TPointer pointee_type, "")
      else
        let* r := define_type (get_declaration element) in
        let* '(var_name, arr_var_type) := unpack r in
        ret (arr_var_type, var_name) in
    ret (TArray arr_var_type INCOMPLETE_ARRAY_ARBITRARY_SIZE, var_name)
  else
    parse_type_string (remove_compiler_directives (tspelling param_type)).

(** One parameter of a prototype reached through a pointer. *)
Definition function_decl_pointee_param (param_type : CType) : Py (BnType * string) :=
  log_debug "function_decl: Processing pointee parameter type -"
            [tspelling param_type] >>
  let param_type_string := remove_compiler_directives (tspelling param_type) in
  let param_type_string :=
    if TypeKind_eqb (tkind param_type) INCOMPLETEARRAY
    then PyStr.replace "[]" INCOMPLETE_ARRAY_ARBITRARY_SIZE_brackets param_type_string
    else param_type_string in
  parse_type_string param_type_string.

(** One formal parameter of a declaration. *)
Definition function_decl_param (define_type : Cursor -> Py Result)
           (param : Cursor) : Py (BnType * string) :=
  log_debug "function_decl: Processing parameter -"
            [tspelling (type param); spelling param] >>
  let* r := define_type param in
  let* '(var_name, var_type) := unpack r in
  log_debug "function_decl: Successfully Processed parameter -"
            [tspelling (type param); spelling param] >>
  ret (var_type, var_name).

(** The keyword scan for the calling convention: the last one wins. *)
Definition scan_calling_convention (tokens : list Token) : CallingConvention :=
  fold_left
    (fun cc token =>
       if TokenKind_eqb (tok_kind token) KEYWORD then
         if String.eqb (tok_spelling token) "__cdecl" then cdecl_calling_convention
         else if String.eqb (tok_spelling token) "__fastcall"
              then fastcall_calling_convention
         else if String.eqb (tok_spelling token) "__stdcall"
              then stdcall_calling_convention
         else cc
       else cc)
    tokens default_calling_convention.

Definition function_decl (define_type : Cursor -> Py Result)
           (node : Cursor) : Py Result :=
  log_debug "function_decl: Processing function" [spelling node] >>
  let* '(func_params, node_result_type, variable_arguments) :=
    if CursorKind_eqb (kind node) TYPEDEF_DECL then
      let proto :=
        if TypeKind_eqb (tkind (type node)) TYPEDEF then
          if TypeKind_eqb (tkind (underlying_typedef_type node)) POINTER
          then get_pointee (underlying_typedef_type node)
          else underlying_typedef_type node
        else type node in
      let* arg_types := argument_types proto in
      let node_result_type := get_result proto in
      let* variable_arguments := is_function_variadic proto in
      let* func_params :=
        for_list (function_decl_typedef_param define_type) arg_types in
      ret (func_params, node_result_type, variable_arguments)
    else if TypeKind_eqb (tkind (type node)) POINTER then
      let proto := get_pointee (type node) in
      let* arg_types := argument_types proto in
      let node_result_type := get_result proto in
      let* variable_arguments := is_function_variadic proto in
      let* func_params := for_list function_decl_pointee_param arg_types in
      ret (func_params, node_result_type, variable_arguments)
    else if TypeKind_eqb (tkind (type node)) FUNCTIONNOPROTO then
      ret ([], get_result (type node), false)
    else
      let node_result_type := get_result (type node) in
      let* variable_arguments := is_function_variadic (type node) in
      let* func_params :=
        for_list (function_decl_param define_type) (get_arguments node) in
      ret (func_params, node_result_type, variable_arguments) in
  let* '(func_return_val_type, ret_name) :=
    parse_type_string (remove_compiler_directives (tspelling node_result_type)) in
  let function_calling_convention := scan_calling_convention (get_tokens node) in
  let function_type :=
    TFunction func_return_val_type func_params
              (Some function_calling_convention) variable_arguments in
  try_except
    (define_user_type (spelling node) function_type >>
     log_debug "function_decl: Successfully processed function" [spelling node] >>
     ret (Some (spelling node, function_type)))
    (fun e =>
       log_debug "function_decl: Failed Processing function" [spelling node] >>
       ret None).

(** ** [functionproto_type] *)

Definition functionproto_type (define_type : Cursor -> Py Result)
           (node : Cursor) : Py Result :=
  if CursorKind_eqb (kind node) TYPEDEF_DECL
     || CursorKind_eqb (kind node) PARM_DECL
     || negb (is_definition node)
  then log_debug "functionproto_type: Processing" [spelling node] >>
       function_decl define_type node
  else log_debug "functionproto_type: contains full function implementation. skipping."
                 [spelling node] >>
       ret None.

(** ** [pointer_type] *)

(** The [while current_pointer_type.kind == TypeKind.POINTER] walk: the
    count reached and the first type that is not a pointer. *)
Fixpoint nested_pointer_walk (fuel : nat) (nested_pointer_count : nat)
         (current_pointer_type : CType) : option (nat * CType) :=
  if TypeKind_eqb (tkind current_pointer_type) POINTER then
    match fuel with
    | O => None
    | S fuel' =>
        nested_pointer_walk fuel' (S nested_pointer_count)
                            (get_pointee current_pointer_type)
    end
  else Some (nested_pointer_count, current_pointer_type).

(** The pointee when it is itself a pointer with no declaration. *)
Definition pointer_to_pointer (fuel : nat) (define_type : Cursor -> Py Result)
           (pointee_type : CType) : Py BnType :=
  let inner := get_pointee pointee_type in
  let* is_base := check_if_base_type inner in
  if is_base then
    let* '(bn_pointee_type, bn_pointee_name) :=
      parse_type_string (void_if_void_type (tspelling inner)) in
    ret bn_pointee_type
  else if TypeKind_eqb (tkind inner) POINTER then
    match nested_pointer_walk fuel 1 inner with
    | None => out_of_fuel
    | Some (nested_pointer_count, current_pointer_type) =>
        let* is_base := check_if_base_type current_pointer_type in
        let* bn_pointee_type :=
          if is_base then
            let* '(bn_pointee_type, bn_pointee_name) :=
              parse_type_string (tspelling current_pointer_type) in
            ret bn_pointee_type
          else
            (* [define_type(current_pointer_type, bv)] hands a [Type] to
               the dispatcher, whose first line reads [node.type]. *)
            raise (AttributeError "'Type' object has no attribute 'type'") in
        let temp_bn_pointer_type :=
          Nat.iter nested_pointer_count TPointer (TPointer bn_pointee_type) in
        ret (TPointer temp_bn_pointer_type)
    end
  else if CursorKind_eqb (kind (get_declaration inner)) NO_DECL_FOUND then
    let* '(bn_pointee_type, bn_pointee_name) :=
      parse_type_string (tspelling pointee_type) in
    ret bn_pointee_type
  else
    let* r := define_type (get_declaration inner) in
    let* '(bn_pointee_name, bn_pointee_type) := unpack r in
    ret bn_pointee_type.

(** The [pointer] the branches of [pointer_type] build. *)
Definition pointer_type_pointer (fuel : nat) (define_type : Cursor -> Py Result)
           (node : Cursor) (pointee_type : CType) : Py BnType :=
  let* is_base := check_if_base_type pointee_type in
  if is_base then
    let pointee_type_spelling := void_if_void_type (tspelling pointee_type) in
    log_debug "pointer_type: Parsing type string:" [pointee_type_spelling] >>
    let* '(bn_pointee_type, name) := parse_type_string pointee_type_spelling in
    ret (TPointer bn_pointee_type)
  else
    let pointee_node := get_declaration pointee_type in
    if CursorKind_eqb (kind pointee_node) NO_DECL_FOUND then
      log_debug "pointer_type: No declaration found for:" [tspelling pointee_type] >>
      if TypeKind_eqb (tkind pointee_type) FUNCTIONPROTO then
        let* r := function_decl define_type node in
        let* '(bn_pointee_name, bn_pointee_type) := unpack r in
        ret (TPointer bn_pointee_type)
      else if TypeKind_eqb (tkind pointee_type) FUNCTIONNOPROTO then
        let pointee_result_type := get_result pointee_type in
        let* is_base := check_if_base_type pointee_result_type in
        let* bn_result_type :=
          if is_base then
            let* '(bn_result_type, bn_result_name) :=
              parse_type_string (void_if_void_type (tspelling pointee_result_type)) in
            ret bn_result_type
          else
            let* r := define_type (get_declaration (get_result pointee_type)) in
            let* '(bn_result_name, bn_result_type) := unpack r in
            ret bn_result_type in
        ret (TPointer (TFunction bn_result_type [] None false))
      else if TypeKind_eqb (tkind pointee_type) POINTER then
        let* bn_pointee_type := pointer_to_pointer fuel define_type pointee_type in
        ret (TPointer bn_pointee_type)
      else
        let* '(bn_pointee_type, bn_pointee_name) :=
          parse_type_string (tspelling (underlying_typedef_type node)) in
        ret (TPointer bn_pointee_type)
    else
      let* bn_pointee_type := get_type_by_name (spelling pointee_node) in
      match bn_pointee_type with
      | None =>
          let* r := define_type pointee_node in
          let* '(bn_pointee_name, bn_pointee_type) := unpack r in
          ret (TPointer bn_pointee_type)
      | Some bn_pointee_type => ret (TPointer bn_pointee_type)
      end.

Definition pointer_type (fuel : nat) (define_type : Cursor -> Py Result)
           (node : Cursor) : Py Result :=
  log_debug "pointer_type:" [tspelling (type node); spelling node] >>
  let* pointee_type :=
    if TypeKind_eqb (tkind (type node)) TYPEDEF
    then ret (Some (get_pointee (underlying_typedef_type node)))
    else if TypeKind_eqb (tkind (type node)) POINTER
    then ret (Some (get_pointee (type node)))
    else log_debug "pointer_type: Unhandled node type:" [] >> ret None in
  match pointee_type with
  | None => ret None
  | Some pointee_type =>
      let* pointer := pointer_type_pointer fuel define_type node pointee_type in
      define_user_type (spelling node) pointer >>
      log_debug "pointer_type: Successfully defined :" [spelling node] >>
      ret (Some (spelling node, pointer))
  end.

(** ** [constantarray_type] *)

(** A call [define_type(x, bv)] where [x] may still be [None]. *)
Definition define_type_or_None (define_type : Cursor -> Py Result)
           (node : option Cursor) : Py Result :=
  match node with
  | Some n => define_type n
  | None => raise (AttributeError "'NoneType' object has no attribute 'type'")
  end.

(** The [array] of [constantarray_type] when the element type is neither
    registered, anonymous nor a base type. *)
Definition constantarray_type_declared (define_type : Cursor -> Py Result)
           (node : Cursor) : Py BnType :=
  let element_type := get_array_element_type (type node) in
  let* '(array, element_type_node) :=
    if TypeKind_eqb (tkind element_type) POINTER then
      let* is_base := check_if_base_type (get_pointee element_type) in
      if is_base then
        let* '(bn_element_type, bn_element_name) :=
          parse_type_string (tspelling (get_pointee element_type)) in
        let pointer := TPointer bn_element_type in
        ret (Some (TArray pointer (get_array_size (type node))), None)
      else ret (None, Some (get_declaration (get_pointee element_type)))
    else if TypeKind_eqb (tkind element_type) CONSTANTARRAY then
      let* is_base := check_if_base_type (get_array_element_type element_type) in
      if is_base then
        let* '(bn_element_type, bn_element_name) :=
          parse_type_string (tspelling (get_array_element_type element_type)) in
        let temp_array := TArray bn_element_type (get_array_size element_type) in
        ret (Some (TArray temp_array (get_array_size (type node))), None)
      else
        ret (None, Some (get_declaration (get_array_element_type element_type)))
    else ret (None, Some (get_declaration element_type)) in
  match array with
  | Some a =>
      if bn_truth bn a then ret a
      else
        let* r := define_type_or_None define_type element_type_node in
        let* '(bn_element_name, bn_element_type) := unpack r in
        ret (TArray bn_element_type (get_array_size (type node)))
  | None =>
      let* r := define_type_or_None define_type element_type_node in
      let* '(bn_element_name, bn_element_type) := unpack r in
      ret (TArray bn_element_type (get_array_size (type node)))
  end.

(** The [array] of [constantarray_type] when the element type's spelling
    names no (true) type of the view. *)
Definition constantarray_type_unregistered (define_type : Cursor -> Py Result)
           (node : Cursor) : Py BnType :=
  let element_type := get_array_element_type (type node) in
  if is_anonymous (get_declaration (get_array_element_type (type node))) then
    let element_type_node := get_declaration (get_array_element_type (type node)) in
    let* r := define_anonymous_type define_type element_type_node in
    let* '(anonymous_name, bn_anonymous_type) := unpack r in
    log_debug "constantarray_type: Successfully proccessed anonymous type:" [] >>
    ret (TArray bn_anonymous_type (get_array_size (type node)))
  else
    let* is_base := check_if_base_type element_type in
    if is_base then
      let* '(var_type, name) := parse_type_string (tspelling element_type) in
      ret (TArray var_type (get_array_size (type node)))
    else constantarray_type_declared define_type node.

Definition constantarray_type (define_type : Cursor -> Py Result)
           (node : Cursor) : Py Result :=
  log_debug "constantarray_type:" [tspelling (type node); spelling node] >>
  let element_type := get_array_element_type (type node) in
  log_debug "constantarray_type: element_type:" [tspelling element_type] >>
  let* bn_element_type := get_type_by_name (tspelling element_type) in
  let* array :=
    match bn_element_type with
    | Some t =>
        if bn_truth bn t then
          log_debug "constantarray_type: already defined in the binaryView."
                    [tspelling element_type] >>
          ret (TArray t (get_array_size (type node)))
        else constantarray_type_unregistered define_type node
    | None => constantarray_type_unregistered define_type node
    end in
  define_user_type (spelling node) array >>
  log_debug "constantarray_type: Successfully defined:"
            [tspelling (type node); spelling node] >>
  ret (Some (spelling node, array)).

(** ** [incompletearray_type] *)

Definition incompletearray_type (define_type : Cursor -> Py Result)
           (node : Cursor) : Py Result :=
  log_debug "incompletearray_type: Processing"
            [tspelling (type node); spelling node] >>
  let bn_array_element_type := get_array_element_type (type node) in
  let* is_base := check_if_base_type bn_array_element_type in
  let* var_type :=
    if is_base then
      let* '(var_type, var_name) :=
        parse_type_string (tspelling bn_array_element_type) in
      ret var_type
    else if TypeKind_eqb (tkind bn_array_element_type) POINTER then
      let* is_base := check_if_base_type (get_pointee bn_array_element_type) in
      let* pointee_var_type :=
        if is_base then
          let* '(pointee_var_type, pointee_var_name) :=
            parse_type_string
              (void_if_void_type (tspelling (get_pointee bn_array_element_type))) in
          ret pointee_var_type
        else
          let* r :=
            define_type (get_declaration (get_pointee bn_array_element_type)) in
          let* '(pointee_var_name, pointee_var_type) := unpack r in
          ret pointee_var_type in
      ret (TPointer pointee_var_type)
    else
      let* r := define_type (get_declaration bn_array_element_type) in
      let* '(var_name, var_type) := unpack r in
      ret var_type in
  let array := TArray var_type INCOMPLETE_ARRAY_ARBITRARY_SIZE in
  ret (Some (spelling node, array)).

(** ** [typedef_decl] *)

(** The recovery of [typedef_decl] after [parse_type_string] raised [e]
    on the sanitized underlying type: what [(var_type, name)] is bound to
    afterwards, if anything. *)
Definition typedef_decl_recover (node : Cursor)
           (underlying_typedef_type_string : string) (e : Exception)
  : Py (option (BnType * string)) :=
  match e with
  | SyntaxError msg =>
      if PyStr.contains "syntax error" msg then
        if PyStr.endswith "_t" (spelling node) then
          let altered_spelling := PyStr.drop_last (spelling node) +:+ "T" in
          let* r := parse_type_string
                      (underlying_typedef_type_string +:+ " " +:+ altered_spelling) in
          ret (Some r)
        else if PyStr.contains "is not defined" msg then
          (* [bv.define_user_type(underlying_typedef_type_string)]: the
             call leaves out the type argument. *)
          raise (TypeError
            "define_user_type() missing 1 required positional argument: 'type_obj'")
        else
          log_debug "typedef_decl: Failed to parse"
                    [tspelling (underlying_typedef_type node); spelling node] >>
          ret None
      else ret None
  | _ => raise e
  end.

(** The last [try] of [typedef_decl]; [None] stands for the two locals
    never having been assigned. *)
Definition typedef_decl_define (node : Cursor) (bound : option (BnType * string))
  : Py Result :=
  try_except
    (match bound with
     | None =>
         raise (UnboundLocalError "local variable 'name' referenced before assignment")
     | Some (var_type, name) =>
         define_user_type name var_type >>
         log_debug "typedef_decl: Successfully processed"
                   [tspelling (underlying_typedef_type node); spelling node] >>
         ret (Some (name, var_type))
     end)
    (fun e =>
       log_debug "typedef_decl: Failed Processing"
                 [tspelling (underlying_typedef_type node); spelling node] >>
       ret None).

(** [typedef_decl] once the name is known not to be defined yet. *)
Definition typedef_decl_undefined (node : Cursor) : Py Result :=
  if negb (PyStr.truthy (tspelling (underlying_typedef_type node))) then
    let* bound :=
      try_except
        (let* r := parse_type_string
                     (tspelling (type node) +:+ " " +:+ spelling node) in
         ret (Some r))
        (fun e =>
           log_debug "typedef_decl: Failed to parse"
                     [tspelling (type node); spelling node] >>
           ret None) in
    typedef_decl_define node bound
  else
    let underlying_typedef_type_string :=
      remove_compiler_directives (tspelling (underlying_typedef_type node)) in
    let* bound :=
      try_except
        (let* '(var_type, name) := parse_type_string underlying_typedef_type_string in
         let name := spelling node in
         log_debug "typedef_decl: Successfully parsed"
                   [underlying_typedef_type_string; spelling node] >>
         ret (Some (var_type, name)))
        (typedef_decl_recover node underlying_typedef_type_string) in
    typedef_decl_define node bound.

Definition typedef_decl (node : Cursor) : Py Result :=
  log_debug "typedef_decl:"
            [tspelling (underlying_typedef_type node); spelling node] >>
  let* defined :=
    if PyStr.truthy (spelling node) then get_type_by_name (spelling node)
    else ret None in
  match defined with
  | Some t =>
      if bn_truth bn t then
        log_debug "typedef_decl: Type already defined" [] >>
        ret (Some (spelling node, t))
      else typedef_decl_undefined node
  | None => typedef_decl_undefined node
  end.

(** ** [var_decl] *)

Definition var_decl (node : Cursor) : Py Result :=
  log_debug "var_decl: Processing var"
            [tspelling (underlying_typedef_type node); spelling node] >>
  let* '(var_type, name) :=
    parse_type_string (tspelling (type node) +:+ " " +:+ spelling node) in
  try_except
    (define_user_type name var_type >>
     log_debug "var_decl: Successfully processed var"
               [tspelling (underlying_typedef_type node); spelling node] >>
     ret (Some (name, var_type)))
    (fun e =>
       log_debug "var_decl: Failed Processing var"
                 [tspelling (underlying_typedef_type node); spelling node] >>
       ret None).

(** ** [enum_decl] *)

Definition enum_decl (node : Cursor) : Py Result :=
  log_debug "enum_decl: Processing enum" [tspelling (type node); spelling node] >>
  let* enum :=
    for_list
      (fun enum_member =>
         let* value := enum_value enum_member in
         ret (spelling enum_member, value))
      (get_children node) in
  try_except
    (let enum_name :=
       if PyStr.truthy (spelling node) then spelling node
       else tspelling (type node) in
     define_user_type enum_name (TEnumeration enum) >>
     log_debug "enum_decl: Successfully processed enum" [spelling node] >>
     ret (Some (spelling node, TEnumeration enum)))
    (fun e =>
       log_debug "enum_decl: Failed Processing enum" [spelling node] >>
       ret None).

(** ** [struct_decl] *)

(** The body of the loop over the fields: the member it appends. *)
Definition struct_decl_field (define_type : Cursor -> Py Result)
           (field : Cursor) : Py (BnType * string) :=
  log_debug "struct_decl: Processing struct field" [spelling field] >>
  let* recursive := is_recursive_field field in
  let* member :=
    if recursive then
      let forward_decl_struct := Structure_new in
      let forward_decl_struct_name :=
        spelling (get_declaration (get_pointee (type field))) in
      define_user_type forward_decl_struct_name
                       (structure_type forward_decl_struct) >>
      let* t := get_type_by_name forward_decl_struct_name in
      match t with
      | Some t => ret (t, forward_decl_struct_name)
      | None => raise (TypeError "Structure.append: None is not a type")
      end
    else
      let* var_type := get_type_by_name (spelling field) in
      match var_type with
      | Some t =>
          if bn_truth bn t then ret (t, spelling field)
          else
            let* r := define_type (get_definition field) in
            let* '(var_name, var_type) := unpack r in
            ret (var_type, spelling field)
      | None =>
          let* r := define_type (get_definition field) in
          let* '(var_name, var_type) := unpack r in
          ret (var_type, spelling field)
      end in
  log_debug "struct_decl: Successfully processed  struct field" [spelling field] >>
  ret member.

Definition struct_decl (define_type : Cursor -> Py Result)
           (node : Cursor) : Py Result :=
  let struct_name :=
    if PyStr.truthy (spelling node) then spelling node
    else tspelling (type node) in
  log_debug "struct_decl: Processing struct" [spelling node] >>
  define_user_type struct_name (structure_type Structure_new) >>
  let* members :=
    if is_definition node
    then for_list (struct_decl_field define_type) (get_fields (type node))
    else ret [] in
  let struct :=
    {| s_width := Some (get_size (type node));
       s_alignment := Some (get_align (type node));
       s_members := members;
       s_type := if CursorKind_eqb (kind node) UNION_DECL
                 then UnionStructureType else StructStructureType |} in
  try_except
    (define_user_type struct_name (structure_type struct) >>
     log_debug "struct_decl: Successfully processed struct" [struct_name] >>
     ret (Some (struct_name, structure_type struct)))
    (fun e =>
       log_debug "struct_decl: Failed Processing struct" [struct_name] >>
       ret None).

(** ** [field_decl] *)

Definition field_decl (define_type : Cursor -> Py Result)
           (node : Cursor) : Py Result :=
  log_debug "field_decl: Processing" [tspelling (type node); spelling node] >>
  try_except
    (let* recursive := is_recursive_field node in
     if negb recursive then
       let* is_base := check_if_base_type (type node) in
       let* '(field_name, field_type) :=
         if is_base then
           let* '(field_type, field_name) :=
             parse_type_string (tspelling (type node) +:+ " " +:+ spelling node) in
           ret (field_name, field_type)
         else
           let* r := define_type node in
           unpack r in
       ret (Some (field_name, field_type))
     else
       log_debug "field_decl: Unhandled recursive field"
                 [tspelling (type node); spelling node] >>
       ret None)
    (fun e =>
       log_debug "field_decl: Failed Processing field"
                 [tspelling (type node); spelling node] >>
       ret None).

(** ** [define_type] *)

(** One activation of the dispatcher; [define_type] stands for the
    recursive calls. *)
Definition define_type_body (fuel : nat) (define_type : Cursor -> Py Result)
           (node : Cursor) : Py Result :=
  log_debug "define_type: Dispatch for" [tspelling (type node); spelling node] >>
  let* current_type :=
    if PyStr.truthy (spelling node) then get_type_by_name (tspelling (type node))
    else ret None in
  match current_type with
  | Some current_type =>
      log_debug "define_type: type already defined, skipping re-definition."
                [spelling node] >>
      ret (Some (spelling node, current_type))
  | None =>
      let* is_base := check_if_base_type (type node) in
      if is_base then
        let* '(var_type, var_name) :=
          parse_type_string (tspelling (type node) +:+ " " +:+ spelling node) in
        ret (Some (var_name, var_type))
      else if is_anonymous node then define_anonymous_type define_type node
      else if TypeKind_eqb (tkind (type node)) ELABORATED then
        define_type (get_declaration (type node))
      else if TypeKind_eqb (tkind (type node)) CONSTANTARRAY then
        constantarray_type define_type node
      else if TypeKind_eqb (tkind (type node)) INCOMPLETEARRAY then
        incompletearray_type define_type node
      else if TypeKind_eqb (tkind (type node)) FUNCTIONPROTO then
        functionproto_type define_type node
      else if TypeKind_eqb (tkind (type node)) POINTER then
        pointer_type fuel define_type node
      else if CursorKind_eqb (kind node) TYPEDEF_DECL then
        if TypeKind_eqb (tkind (type node)) TYPEDEF
           && TypeKind_eqb (tkind (underlying_typedef_type node)) FUNCTIONPROTO
        then function_decl define_type node
        else if TypeKind_eqb (tkind (type node)) TYPEDEF
                && TypeKind_eqb (tkind (underlying_typedef_type node)) POINTER
        then pointer_type fuel define_type node
        else typedef_decl node
      else if CursorKind_eqb (kind node) PARM_DECL then
        if TypeKind_eqb (tkind (type node)) TYPEDEF then typedef_decl node
        else log_debug "define_type: Unhandled case -" [] >> ret None
      else if CursorKind_eqb (kind node) VAR_DECL then var_decl node
      else if CursorKind_eqb (kind node) FUNCTION_DECL then
        function_decl define_type node
      else if CursorKind_eqb (kind node) ENUM_DECL then enum_decl node
      else if CursorKind_eqb (kind node) STRUCT_DECL then struct_decl define_type node
      else if CursorKind_eqb (kind node) FIELD_DECL then field_decl define_type node
      else if CursorKind_eqb (kind node) UNION_DECL then struct_decl define_type node
      else log_info "no handler for cursorKind" [] >> ret None
  end.

(** The dispatcher.  [fuel] bounds the depth of the recursion (and the
    length of a pointer chain walked); spending it all is [OutOfFuel],
    which no [except] clause sees. *)
Fixpoint define_type (fuel : nat) (node : Cursor) : Py Result :=
  match fuel with
  | O => out_of_fuel
  | S fuel' => define_type_body fuel' (define_type fuel') node
  end.

End Handlers.

(* ===================================================================== *)
(** * [pre_process.py] *)
(* ===================================================================== *)

(** The per-library configuration module ([Libraries/ntdll/ntdll_dll.py]),
    as far as [pre_define_types] reads it. *)
Record Library := {
  pre_load_definition : list (string * string);
  forward_declarations_struct : list string;
  forward_declarations_typedef : list string
}.

Definition ntdll : Library :=
  {| pre_load_definition := [("bool", "_Bool")];
     forward_declarations_struct :=
       ["_RTL_CRITICAL_SECTION"; "_RTL_CRITICAL_SECTION_DEBUG"; "IRpcChannelBuffer"];
     forward_declarations_typedef :=
       ["_RTL_CRITICAL_SECTION_DEBUG* PRTL_CRITICAL_SECTION_DEBUG"] |}.

Section PreProcess.

Variable tu : TranslationUnit.
Variable bn : BinaryNinja.

Definition pre_define_types (library : Library) : Py unit :=
  for_list
    (fun '(var_type, var_name) =>
       let* '(t, n) := parse_type_string bn (var_type +:+ " " +:+ var_name) in
       define_user_type bn n t)
    (pre_load_definition library) >>
  for_list
    (fun forward_decl_struct =>
       define_user_type bn forward_decl_struct (structure_type Structure_new))
    (forward_declarations_struct library) >>
  for_list
    (fun forward_decl_typedef =>
       let* '(var_type, var_name) :=
         parse_type_string bn (forward_decl_typedef +:+ ";") in
       define_user_type bn var_name var_type)
    (forward_declarations_typedef library) >>
  ret tt.

(** The first loop of [pp]: every top-level node goes to [define_type];
    what it returns is dropped. *)
Definition pp_define (fuel : nat) (nodes : list Cursor) : Py unit :=
  for_list
    (fun node =>
       log_debug "DEFINING NODE:" [spelling tu node; tspelling tu (type tu node)] >>
       define_type tu bn fuel node)
    nodes >>
  ret tt.

(** The second loop of [pp]: the named types that go to the library. *)
Definition pp_export (nodes : list Cursor) : Py (list (string * BnType)) :=
  let* exported :=
    for_list
      (fun node =>
         log_debug "EXPORTING NODE:" [spelling tu node; tspelling tu (type tu node)] >>
         let* var_type := get_type_by_name (spelling tu node) in
         match var_type with
         | Some t => ret [(spelling tu node, t)]
         | None => ret []
         end)
      nodes in
  ret (concat exported).

(** [pp], from the parsed translation unit on; its value is the content
    of the type library it writes. *)
Definition pp (fuel : nat) : Py (list (string * BnType)) :=
  pre_define_types ntdll >>
  let root_node := tu_cursor tu in
  pp_define fuel (get_children tu root_node) >>
  pp_export (get_children tu root_node).

End PreProcess.

(* ===================================================================== *)
(** * Building translation units for closed examples *)
(* ===================================================================== *)

Module Build.

(** What libclang answers where there is nothing: the null cursor
    ([NO_DECL_FOUND]) and the invalid type, both at handle 0. *)
Definition no_decl : CursorData :=
  {| c_kind := NO_DECL_FOUND; c_spelling := ""; c_type := O;
     c_is_anonymous := false; c_is_definition := false;
     c_semantic_parent := O; c_underlying_typedef_type := O;
     c_get_definition := O; c_get_children := []; c_get_arguments := [];
     c_get_tokens := []; c_enum_value := 0 |}.

Definition invalid_type : TypeData :=
  {| t_kind := INVALID; t_spelling := ""; t_get_pointee := O;
     t_get_declaration := O; t_get_array_element_type := O;
     t_get_array_size := -1; t_get_result := O; t_argument_types := [];
     t_is_function_variadic := false; t_get_fields := [];
     t_get_size := -1; t_get_align := -1; t_get_named_type := O |}.

(** A declaration cursor with the given kind, name and type. *)
Definition decl (k : CursorKind) (name : string) (t : CType) (self : Cursor)
  : CursorData :=
  {| c_kind := k; c_spelling := name; c_type := t;
     c_is_anonymous := false; c_is_definition := true;
     c_semantic_parent := O; c_underlying_typedef_type := O;
     c_get_definition := self; c_get_children := []; c_get_arguments := [];
     c_get_tokens := []; c_enum_value := 0 |}.

(** A field of the record declared at [parent]. *)
Definition field (name : string) (t : CType) (parent self : Cursor) : CursorData :=
  {| c_kind := FIELD_DECL; c_spelling := name; c_type := t;
     c_is_anonymous := false; c_is_definition := true;
     c_semantic_parent := parent; c_underlying_typedef_type := O;
     c_get_definition := self; c_get_children := []; c_get_arguments := [];
     c_get_tokens := []; c_enum_value := 0 |}.

(** A type with no declaration, no pointee and no element. *)
Definition plain (k : TypeKind) (text : string) : TypeData :=
  {| t_kind := k; t_spelling := text; t_get_pointee := O;
     t_get_declaration := O; t_get_array_element_type := O;
     t_get_array_size := -1; t_get_result := O; t_argument_types := [];
     t_is_function_variadic := false; t_get_fields := [];
     t_get_size := -1; t_get_align := -1; t_get_named_type := O |}.

Definition pointer_to (text : string) (pointee : CType) : TypeData :=
  {| t_kind := POINTER; t_spelling := text; t_get_pointee := pointee;
     t_get_declaration := O; t_get_array_element_type := O;
     t_get_array_size := -1; t_get_result := O; t_argument_types := [];
     t_is_function_variadic := false; t_get_fields := [];
     t_get_size := 8; t_get_align := 8; t_get_named_type := O |}.

Definition array_of (k : TypeKind) (text : string) (element : CType) (n : Z)
  : TypeData :=
  {| t_kind := k; t_spelling := text; t_get_pointee := O;
     t_get_declaration := O; t_get_array_element_type := element;
     t_get_array_size := n; t_get_result := O; t_argument_types := [];
     t_is_function_variadic := false; t_get_fields := [];
     t_get_size := -1; t_get_align := -1; t_get_named_type := O |}.

(** A record (or enum) type declared at [d] with the given fields. *)
Definition record_type (k : TypeKind) (text : string) (d : Cursor)
           (fields : list Cursor) (size align : Z) (self : CType) : TypeData :=
  {| t_kind := k; t_spelling := text; t_get_pointee := O;
     t_get_declaration := d; t_get_array_element_type := O;
     t_get_array_size := -1; t_get_result := O; t_argument_types := [];
     t_is_function_variadic := false; t_get_fields := fields;
     t_get_size := size; t_get_align := align; t_get_named_type := self |}.

(** A stand-in for Binary Ninja in closed examples: the parser knows
    [int], [char] and [void], alone or followed by one name, and answers
    a syntax error for anything else; every definition is accepted;
    every type object is true. *)
Definition example_parse (known : gmap string BnType) (s : string)
  : Exception + (BnType * string) :=
  match PyStr.split s with
  | [ty] =>
      if PyStr.mem ty ["int"; "char"; "void"] then inr (TBase ty, "")
      else inl (SyntaxError ("syntax error: type '" +:+ ty +:+ "' is not defined"))
  | [ty; name] =>
      if PyStr.mem ty ["int"; "char"; "void"] then inr (TBase ty, name)
      else inl (SyntaxError ("syntax error: type '" +:+ ty +:+ "' is not defined"))
  | _ => inl (SyntaxError "syntax error")
  end.

Definition example_bn : BinaryNinja :=
  {| bn_parse_type_string := example_parse;
     bn_define_user_type_error := fun _ _ _ => None;
     bn_truth := fun _ => true |}.

(** A second stand-in whose parser takes any one or two words as a
    reference to the first, named by the second. *)
Definition accepting_parse (known : gmap string BnType) (s : string)
  : Exception + (BnType * string) :=
  match PyStr.split s with
  | [ty] => inr (TNamedReference ty, "")
  | [ty; name] => inr (TNamedReference ty, name)
  | _ => inl (SyntaxError "syntax error")
  end.

Definition accepting_bn : BinaryNinja :=
  {| bn_parse_type_string := accepting_parse;
     bn_define_user_type_error := fun _ _ _ => None;
     bn_truth := fun _ => true |}.

Definition empty_view : BinaryView := {| types := ∅; log := [] |}.

End Build.

(* ===================================================================== *)
(** * Observing a run *)
(* ===================================================================== *)

(** The view after some more log records. *)
Definition logged (bv : BinaryView) (records : list LogRecord) : BinaryView :=
  {| types := types bv; log := log bv ++ records |}.

(** The view when [pp] hands [node] to the dispatcher. *)
Definition defining (tu : TranslationUnit) (bv : BinaryView) (node : Cursor)
  : BinaryView :=
  logged bv [Debug "DEFINING NODE:" [spelling tu node; tspelling tu (type tu node)]].

(** What a run gave back or raised. *)
Definition result_of {A} (o : Outcome A) : option (A + Exception) :=
  match o with
  | Returns a _ => Some (inl a)
  | Raises e _ => Some (inr e)
  | OutOfFuel => None
  end.

(** The type the view holds under [name] when the run ends. *)
Definition registered_after {A} (o : Outcome A) (name : string) : option BnType :=
  match o with
  | Returns _ bv | Raises _ bv => types bv !! name
  | OutOfFuel => None
  end.

(** The view when the run ends. *)
Definition view_after {A} (o : Outcome A) : BinaryView :=
  match o with
  | Returns _ bv | Raises _ bv => bv
  | OutOfFuel => {| types := ∅; log := [] |}
  end.

(** The log when the run ends. *)
Definition log_after {A} (o : Outcome A) : list LogRecord :=
  match o with
  | Returns _ bv | Raises _ bv => log bv
  | OutOfFuel => []
  end.

(** How often a handler logged [text]. *)
Definition count_debug (text : string) (l : list LogRecord) : nat :=
  length (List.filter (fun r => match r with
                           | Debug t _ => String.eqb t text
                           | Info _ _ => false
                           end) l).

(* ===================================================================== *)
(** * Translation units used in closed examples *)
(* ===================================================================== *)

(** [struct _RTL_CRITICAL_SECTION { int LockCount; };] met after the
    pre-pass seeded an empty structure under its name. *)
Module CriticalSection.
Import Build.

Definition cursor_table (c : Cursor) : CursorData :=
  match c with
  | 1%nat => decl STRUCT_DECL "_RTL_CRITICAL_SECTION" 1 1
  | 2%nat => field "LockCount" 2 1 2
  | _ => no_decl
  end.

Definition type_table (t : CType) : TypeData :=
  match t with
  | 1%nat => record_type RECORD "struct _RTL_CRITICAL_SECTION" 1 [2%nat] 4 4 1
  | 2%nat => plain INT "int"
  | _ => invalid_type
  end.

Definition tu : TranslationUnit :=
  {| cursors := cursor_table; ctypes := type_table; tu_cursor := 0 |}.

(** The view as [pre_define_types] leaves this name. *)
Definition seeded : BinaryView :=
  {| types := {[ "_RTL_CRITICAL_SECTION" := structure_type Structure_new ]};
     log := [] |}.

Definition full : BnType :=
  TStructure (Some 4) (Some 4) [(TBase "int", "LockCount")] StructStructureType.

End CriticalSection.

(** A parameter [PVOID DllHandle] where [PVOID] is already defined. *)
Module DllHandle.
Import Build.

Definition cursor_table (c : Cursor) : CursorData :=
  match c with
  | 1%nat => decl PARM_DECL "DllHandle" 1 1
  | _ => no_decl
  end.

Definition type_table (t : CType) : TypeData :=
  match t with
  | 1%nat => plain TYPEDEF "PVOID"
  | _ => invalid_type
  end.

Definition tu : TranslationUnit :=
  {| cursors := cursor_table; ctypes := type_table; tu_cursor := 0 |}.

Definition view : BinaryView :=
  {| types := {[ "PVOID" := TPointer (TBase "void") ]}; log := [] |}.

End DllHandle.

(** [enum { Red, Green = 5 };] with no name of its own, and the same
    enumeration declared packed,
    [enum __attribute__((packed)) { Red, Green = 5 };], where the
    attribute is a child of the declaration beside the enumerators. *)
Module UnnamedEnum.
Import Build.

Definition constant (name : string) (value : Z) : CursorData :=
  {| c_kind := ENUM_CONSTANT_DECL; c_spelling := name; c_type := 1;
     c_is_anonymous := false; c_is_definition := true;
     c_semantic_parent := 1; c_underlying_typedef_type := 0;
     c_get_definition := 0; c_get_children := []; c_get_arguments := [];
     c_get_tokens := []; c_enum_value := value |}.

Definition cursor_table (c : Cursor) : CursorData :=
  match c with
  | 1%nat =>
      {| c_kind := ENUM_DECL; c_spelling := ""; c_type := 1;
         c_is_anonymous := false; c_is_definition := true;
         c_semantic_parent := 0; c_underlying_typedef_type := 0;
         c_get_definition := 1; c_get_children := [2%nat; 3%nat];
         c_get_arguments := []; c_get_tokens := []; c_enum_value := 0 |}
  | 2%nat => constant "Red" 0
  | 3%nat => constant "Green" 5
  | 4%nat =>
      {| c_kind := ENUM_DECL; c_spelling := ""; c_type := 2;
         c_is_anonymous := false; c_is_definition := true;
         c_semantic_parent := 0; c_underlying_typedef_type := 0;
         c_get_definition := 4; c_get_children := [5%nat; 2%nat; 3%nat];
         c_get_arguments := []; c_get_tokens := []; c_enum_value := 0 |}
  | 5%nat => decl OTHER_CURSOR_KIND "" 0 5
  | _ => no_decl
  end.

Definition type_table (t : CType) : TypeData :=
  match t with
  | 1%nat => record_type ENUM "enum (unnamed at colors.h:1:1)" 1 [] 4 4 1
  | 2%nat => record_type ENUM "enum (unnamed at colors.h:3:1)" 4 [] 1 1 2
  | _ => invalid_type
  end.

Definition tu : TranslationUnit :=
  {| cursors := cursor_table; ctypes := type_table; tu_cursor := 0 |}.

End UnnamedEnum.

(** [typedef FOO BAR;] and [typedef FOO foo_t;] where nothing defines
    [FOO]. *)
Module UndefinedTypedef.
Import Build.

Definition typedef (name : string) (t : CType) (self : Cursor) : CursorData :=
  {| c_kind := TYPEDEF_DECL; c_spelling := name; c_type := t;
     c_is_anonymous := false; c_is_definition := true;
     c_semantic_parent := 0; c_underlying_typedef_type := 3;
     c_get_definition := self; c_get_children := []; c_get_arguments := [];
     c_get_tokens := []; c_enum_value := 0 |}.

Definition cursor_table (c : Cursor) : CursorData :=
  match c with
  | 1%nat => typedef "BAR" 1 1
  | 2%nat => typedef "foo_t" 2 2
  | _ => no_decl
  end.

Definition type_table (t : CType) : TypeData :=
  match t with
  | 1%nat => plain TYPEDEF "BAR"
  | 2%nat => plain TYPEDEF "foo_t"
  | 3%nat => plain OTHER_TYPE_KIND "FOO"
  | _ => invalid_type
  end.

Definition tu : TranslationUnit :=
  {| cursors := cursor_table; ctypes := type_table; tu_cursor := 0 |}.

End UndefinedTypedef.

(** [struct _NODE { int val; struct _NODE *next; };] and
    [struct _LINK { struct _LINK *next; };] *)
Module SelfReference.
Import Build.

Definition cursor_table (c : Cursor) : CursorData :=
  match c with
  | 1%nat => decl STRUCT_DECL "_NODE" 1 1
  | 2%nat => field "val" 2 1 2
  | 3%nat => field "next" 3 1 3
  | 4%nat => decl STRUCT_DECL "_LINK" 5 4
  | 5%nat => field "next" 6 4 5
  | _ => no_decl
  end.

Definition type_table (t : CType) : TypeData :=
  match t with
  | 1%nat => record_type RECORD "struct _NODE" 1 [2%nat; 3%nat] 16 8 1
  | 2%nat => plain INT "int"
  | 3%nat => pointer_to "struct _NODE *" 4
  | 4%nat => record_type ELABORATED "struct _NODE" 1 [2%nat; 3%nat] 16 8 1
  | 5%nat => record_type RECORD "struct _LINK" 4 [5%nat] 8 8 5
  | 6%nat => pointer_to "struct _LINK *" 7
  | 7%nat => record_type ELABORATED "struct _LINK" 4 [5%nat] 8 8 5
  | _ => invalid_type
  end.

Definition tu : TranslationUnit :=
  {| cursors := cursor_table; ctypes := type_table; tu_cursor := 0 |}.

Definition placeholder : BnType := structure_type Structure_new.

End SelfReference.

(** A handler's result is registered: the view holds the returned type
    under the returned name ([None] registers nothing). *)
Definition registered_result (r : Result) (bv : BinaryView) : Prop :=
  match r with
  | Some (name, t) => types bv !! name = Some t
  | None => True
  end.

(** [int x;], [int xs[];], [int *p[];], [int **a[];], [int m[2][3];],
    [int a3[2][3][4];], [int ****q;], [int **r;], and [struct S *nodes[];]
    with [struct S { };] *)
Module Declarators.
Import Build.

Definition cursor_table (c : Cursor) : CursorData :=
  match c with
  | 1%nat => decl VAR_DECL "x" 1 1
  | 2%nat => decl VAR_DECL "xs" 2 2
  | 3%nat => decl VAR_DECL "p" 3 3
  | 4%nat => decl VAR_DECL "a" 5 4
  | 5%nat => decl VAR_DECL "m" 9 5
  | 6%nat => decl VAR_DECL "a3" 11 6
  | 7%nat => decl VAR_DECL "q" 13 7
  | 8%nat => decl VAR_DECL "r" 6 8
  | 10%nat => decl VAR_DECL "nodes" 14 10
  | 11%nat => decl STRUCT_DECL "S" 16 11
  | _ => no_decl
  end.

Definition type_table (t : CType) : TypeData :=
  match t with
  | 1%nat => plain INT "int"
  | 2%nat => array_of INCOMPLETEARRAY "int []" 1 (-1)
  | 3%nat => array_of INCOMPLETEARRAY "int *[]" 4 (-1)
  | 4%nat => pointer_to "int *" 1
  | 5%nat => array_of INCOMPLETEARRAY "int **[]" 6 (-1)
  | 6%nat => pointer_to "int **" 4
  | 7%nat => array_of CONSTANTARRAY "int [4]" 1 4
  | 8%nat => array_of CONSTANTARRAY "int [3]" 1 3
  | 9%nat => array_of CONSTANTARRAY "int [2][3]" 8 2
  | 10%nat => array_of CONSTANTARRAY "int [3][4]" 7 3
  | 11%nat => array_of CONSTANTARRAY "int [2][3][4]" 10 2
  | 12%nat => pointer_to "int ***" 6
  | 13%nat => pointer_to "int ****" 12
  | 14%nat => array_of INCOMPLETEARRAY "struct S *[]" 15 (-1)
  | 15%nat => pointer_to "struct S *" 16
  | 16%nat => record_type RECORD "struct S" 11 [] 0 1 16
  | _ => invalid_type
  end.

Definition tu : TranslationUnit :=
  {| cursors := cursor_table; ctypes := type_table; tu_cursor := 0 |}.

End Declarators.

(** [t] is [depth] pointer levels above [base]: [T *...*] with [depth]
    stars, as libclang chains the pointer types. *)
Fixpoint pointer_chain (tu : TranslationUnit) (depth : nat) (t base : CType) : Prop :=
  match depth with
  | O => t = base
  | S depth' =>
      tkind tu t = POINTER /\ pointer_chain tu depth' (get_pointee tu t) base
  end.

(** A header with two top-level declarations, [int a3[2][3][4];] and
    [int m[2][3];], in this order. *)
Module TopLevel.
Import Build.

Definition cursor_table (c : Cursor) : CursorData :=
  match c with
  | 9%nat =>
      {| c_kind := TRANSLATION_UNIT; c_spelling := "ntdll.h"; c_type := 0;
         c_is_anonymous := false; c_is_definition := false;
         c_semantic_parent := 0; c_underlying_typedef_type := 0;
         c_get_definition := 0; c_get_children := [6%nat; 5%nat];
         c_get_arguments := []; c_get_tokens := []; c_enum_value := 0 |}
  | _ => Declarators.cursor_table c
  end.

Definition tu : TranslationUnit :=
  {| cursors := cursor_table; ctypes := Declarators.type_table; tu_cursor := 9 |}.

(** The view when [pre_define_types] is done. *)
Definition prepared : BinaryView :=
  view_after (pre_define_types accepting_bn ntdll empty_view).

End TopLevel.

(** Two anonymous structures, [struct { int a; }] and [struct { char b; }],
    declared in two headers; libclang spells an anonymous type by where it
    is declared. *)
Module Anonymous.
Import Build.

Definition spelling1 : string :=
  "struct (unnamed struct at /h/in/ntdefs01/include/shared/minwin/ttypesabc/winnt_internal.h:412:9)".

Definition spelling2 : string :=
  "struct (unnamed struct at /h/in/23whh4aq/include/shared/minwin/to2okrwnr/winnt_internal.h:412:9)".

Definition anonymous_struct (t : CType) (self : Cursor) : CursorData :=
  {| c_kind := STRUCT_DECL; c_spelling := ""; c_type := t;
     c_is_anonymous := true; c_is_definition := true;
     c_semantic_parent := 0; c_underlying_typedef_type := 0;
     c_get_definition := self; c_get_children := []; c_get_arguments := [];
     c_get_tokens := []; c_enum_value := 0 |}.

Definition cursor_table (c : Cursor) : CursorData :=
  match c with
  | 1%nat => anonymous_struct 1 1
  | 2%nat => anonymous_struct 2 2
  | 3%nat => field "a" 3 1 3
  | 4%nat => field "b" 4 2 4
  | _ => no_decl
  end.

Definition type_table (t : CType) : TypeData :=
  match t with
  | 1%nat => record_type RECORD spelling1 1 [3%nat] 4 4 1
  | 2%nat => record_type RECORD spelling2 2 [4%nat] 1 1 2
  | 3%nat => plain INT "int"
  | 4%nat => plain CHAR_S "char"
  | _ => invalid_type
  end.

Definition tu : TranslationUnit :=
  {| cursors := cursor_table; ctypes := type_table; tu_cursor := 0 |}.

End Anonymous.

(** [struct B;], [struct C { int v; };] and
    [struct A { struct B *C; struct C c2; };]: a member of [A] is named
    like the tag of [struct C]. *)
Module MemberNamedLikeTag.
Import Build.

Definition cursor_table (c : Cursor) : CursorData :=
  match c with
  | 1%nat => decl STRUCT_DECL "C" 1 1
  | 2%nat => field "v" 2 1 2
  | 3%nat => decl STRUCT_DECL "A" 3 3
  | 4%nat => field "C" 4 3 4
  | 5%nat => field "c2" 6 3 5
  | 6%nat =>
      {| c_kind := STRUCT_DECL; c_spelling := "B"; c_type := 7;
         c_is_anonymous := false; c_is_definition := false;
         c_semantic_parent := 0; c_underlying_typedef_type := 0;
         c_get_definition := 0; c_get_children := []; c_get_arguments := [];
         c_get_tokens := []; c_enum_value := 0 |}
  | _ => no_decl
  end.

Definition type_table (t : CType) : TypeData :=
  match t with
  | 1%nat => record_type RECORD "struct C" 1 [2%nat] 4 4 1
  | 2%nat => plain INT "int"
  | 3%nat => record_type RECORD "struct A" 3 [4%nat; 5%nat] 16 8 3
  | 4%nat => pointer_to "struct B *" 5
  | 5%nat => record_type ELABORATED "struct B" 6 [] (-2) (-2) 7
  | 6%nat => record_type ELABORATED "struct C" 1 [2%nat] 4 4 1
  | 7%nat => record_type RECORD "struct B" 6 [] (-2) (-2) 7
  | _ => invalid_type
  end.

Definition tu : TranslationUnit :=
  {| cursors := cursor_table; ctypes := type_table; tu_cursor := 0 |}.

Definition B_declared : BnType :=
  TStructure (Some (-2)) (Some (-2)) [] StructStructureType.

Definition C_defined : BnType :=
  TStructure (Some 4) (Some 4) [(TBase "int", "v")] StructStructureType.

End MemberNamedLikeTag.

(* ===================================================================== *)
(** * Notions used to state further properties *)
(* ===================================================================== *)

(** Every name the view [bv] holds is still held where the run [o] ends
    (entries may be replaced, none is dropped). *)
Definition outcome_keeps_names {A} (bv : BinaryView) (o : Outcome A) : Prop :=
  match o with
  | Returns _ bv' | Raises _ bv' =>
      forall name, is_Some (types bv !! name) -> is_Some (types bv' !! name)
  | OutOfFuel => True
  end.

Definition keeps_names {A} (m : Py A) : Prop :=
  forall bv, outcome_keeps_names bv (m bv).

(** What the run returned, [default] when it did not return. *)
Definition returned_or {A} (o : Outcome A) (default : A) : A :=
  match o with
  | Returns a _ => a
  | _ => default
  end.

(** A word as [str.split()] gives it: not empty, no separator in it. *)
Fixpoint no_space (s : string) : bool :=
  match s with
  | EmptyString => true
  | String c s' => negb (PyStr.is_space c) && no_space s'
  end.

Definition is_word (s : string) : Prop := s <> "" /\ no_space s = true.

(** The words, each followed by one blank. *)
Fixpoint join_with_trailing_space (words : list string) : string :=
  match words with
  | [] => ""
  | w :: words' => w +:+ " " +:+ join_with_trailing_space words'
  end.

(** [token not in compiler_directives] *)
Definition not_a_directive (token : string) : bool :=
  negb (PyStr.mem token compiler_directives).

(** The token is one of the three calling-convention keywords the scan of
    [function_decl] looks for. *)
Definition is_convention_keyword (token : Token) : bool :=
  TokenKind_eqb (tok_kind token) KEYWORD
  && PyStr.mem (tok_spelling token) ["__cdecl"; "__fastcall"; "__stdcall"].

(** [int f(PVOID DllHandle, DWORD Reason, ...);], [long g();] (no
    prototype) and [void h(int n) { }] (an implementation), with
    [__stdcall] on [f]; and [FN myfunc;], a function declared through a
    typedef [FN] of its type. *)
Module Functions.
Import Build.

Definition function (name : string) (t : CType) (arguments : list Cursor)
           (tokens : list Token) (definition : bool) (self : Cursor) : CursorData :=
  {| c_kind := FUNCTION_DECL; c_spelling := name; c_type := t;
     c_is_anonymous := false; c_is_definition := definition;
     c_semantic_parent := 0; c_underlying_typedef_type := 0;
     c_get_definition := self; c_get_children := arguments;
     c_get_arguments := arguments; c_get_tokens := tokens; c_enum_value := 0 |}.

Definition function_type (k : TypeKind) (text : string) (result : CType)
           (arguments : list CType) (variadic : bool) : TypeData :=
  {| t_kind := k; t_spelling := text; t_get_pointee := 0;
     t_get_declaration := 0; t_get_array_element_type := 0;
     t_get_array_size := -1; t_get_result := result;
     t_argument_types := arguments; t_is_function_variadic := variadic;
     t_get_fields := []; t_get_size := 1; t_get_align := 4;
     t_get_named_type := 0 |}.

Definition cursor_table (c : Cursor) : CursorData :=
  match c with
  | 1%nat =>
      function "f" 1 [2%nat; 3%nat]
               [ {| tok_kind := KEYWORD; tok_spelling := "int" |};
                 {| tok_kind := KEYWORD; tok_spelling := "__stdcall" |};
                 {| tok_kind := IDENTIFIER; tok_spelling := "f" |} ] false 1
  | 2%nat => decl PARM_DECL "DllHandle" 3 2
  | 3%nat => decl PARM_DECL "Reason" 4 3
  | 4%nat => function "g" 5 [] [] false 4
  | 5%nat => function "h" 7 [6%nat] [] true 5
  | 6%nat => decl PARM_DECL "n" 2 6
  | 7%nat => function "myfunc" 9 [] [] false 7
  | _ => no_decl
  end.

Definition type_table (t : CType) : TypeData :=
  match t with
  | 1%nat => function_type FUNCTIONPROTO "int (PVOID, DWORD, ...)" 2 [3%nat; 4%nat] true
  | 2%nat => plain INT "int"
  | 3%nat => plain TYPEDEF "PVOID"
  | 4%nat => plain TYPEDEF "DWORD"
  | 5%nat => function_type FUNCTIONNOPROTO "long ()" 6 [] false
  | 6%nat => plain LONG "long"
  | 7%nat => function_type FUNCTIONPROTO "void (int)" 8 [2%nat] false
  | 8%nat => plain VOID "void"
  | 9%nat => plain TYPEDEF "FN"
  | _ => invalid_type
  end.

Definition tu : TranslationUnit :=
  {| cursors := cursor_table; ctypes := type_table; tu_cursor := 0 |}.

(** A view in which [PVOID] and [DWORD] are defined. *)
Definition view : BinaryView :=
  {| types := <["PVOID" := TPointer (TBase "void")]>
                (<["DWORD" := TBase "unsigned long"]> ∅);
     log := [] |}.

(** The type a parameter of [f] has in [view]. *)
Definition parameter_type (p : Cursor) : BnType :=
  match p with
  | 2%nat => TPointer (TBase "void")
  | _ => TBase "unsigned long"
  end.

End Functions.

(** [typedef int INT32;], [typedef __unaligned FOO size_t;], a typedef
    libclang gives no underlying spelling for, and a typedef of a type
    the parser chokes on. *)
Module Typedefs.
Import Build.

Definition typedef (name : string) (t underlying : CType) (self : Cursor)
  : CursorData :=
  {| c_kind := TYPEDEF_DECL; c_spelling := name; c_type := t;
     c_is_anonymous := false; c_is_definition := true;
     c_semantic_parent := 0; c_underlying_typedef_type := underlying;
     c_get_definition := self; c_get_children := []; c_get_arguments := [];
     c_get_tokens := []; c_enum_value := 0 |}.

Definition cursor_table (c : Cursor) : CursorData :=
  match c with
  | 1%nat => typedef "INT32" 1 2 1
  | 2%nat => typedef "size_t" 3 4 2
  | 3%nat => typedef "ODD" 5 0 3
  | 4%nat => typedef "W" 6 7 4
  | _ => no_decl
  end.

Definition type_table (t : CType) : TypeData :=
  match t with
  | 1%nat => plain TYPEDEF "INT32"
  | 2%nat => plain INT "int"
  | 3%nat => plain TYPEDEF "size_t"
  | 4%nat => plain OTHER_TYPE_KIND "__unaligned FOO"
  | 5%nat => plain TYPEDEF "ODD"
  | 6%nat => plain TYPEDEF "W"
  | 7%nat => plain OTHER_TYPE_KIND "ODD thing"
  | _ => invalid_type
  end.

Definition tu : TranslationUnit :=
  {| cursors := cursor_table; ctypes := type_table; tu_cursor := 0 |}.

(** A stand-in whose parser refuses a lone [FOO] with a syntax error,
    fails in another way on anything starting with [ODD], and takes any
    other one or two words. *)
Definition picky_parse (known : gmap string BnType) (s : string)
  : Exception + (BnType * string) :=
  match PyStr.split s with
  | ["FOO"] => inl (SyntaxError "syntax error: unexpected end of input")
  | "ODD" :: _ => inl (OtherException "internal parser failure")
  | [ty] => inr (TNamedReference ty, "")
  | [ty; name] => inr (TNamedReference ty, name)
  | _ => inl (SyntaxError "syntax error")
  end.

Definition picky_bn : BinaryNinja :=
  {| bn_parse_type_string := picky_parse;
     bn_define_user_type_error := fun _ _ _ => None;
     bn_truth := fun _ => true |}.

End Typedefs.

(** What [is_recursive_field] answers, read off the AST. *)
Definition field_is_recursive (tu : TranslationUnit) (field : Cursor) : bool :=
  TypeKind_eqb (tkind tu (type tu field)) POINTER
  && String.eqb (tspelling tu (get_pointee tu (type tu field)))
                (tspelling tu (type tu (semantic_parent tu field))).

(** The name [struct_decl] gives the member it builds for [field]. *)
Definition member_name (tu : TranslationUnit) (field : Cursor) : string :=
  if field_is_recursive tu field
  then spelling tu (get_declaration tu (get_pointee tu (type tu field)))
  else spelling tu field.

(** [union U { int i; char c; };], the forward declaration [struct S;] and
    an anonymous union with the same members. *)
Module Aggregates.
Import Build.

Definition cursor_table (c : Cursor) : CursorData :=
  match c with
  | 1%nat => decl UNION_DECL "U" 1 1
  | 2%nat => field "i" 2 1 2
  | 3%nat => field "c" 3 1 3
  | 4%nat =>
      {| c_kind := STRUCT_DECL; c_spelling := "S"; c_type := 4;
         c_is_anonymous := false; c_is_definition := false;
         c_semantic_parent := 0; c_underlying_typedef_type := 0;
         c_get_definition := 0; c_get_children := []; c_get_arguments := [];
         c_get_tokens := []; c_enum_value := 0 |}
  | 5%nat =>
      {| c_kind := UNION_DECL; c_spelling := ""; c_type := 5;
         c_is_anonymous := true; c_is_definition := true;
         c_semantic_parent := 0; c_underlying_typedef_type := 0;
         c_get_definition := 5; c_get_children := []; c_get_arguments := [];
         c_get_tokens := []; c_enum_value := 0 |}
  | _ => no_decl
  end.

Definition type_table (t : CType) : TypeData :=
  match t with
  | 1%nat => record_type RECORD "union U" 1 [2%nat; 3%nat] 4 4 1
  | 2%nat => plain INT "int"
  | 3%nat => plain CHAR_S "char"
  | 4%nat => record_type RECORD "struct S" 4 [] (-2) (-2) 4
  | 5%nat => record_type ELABORATED "union (unnamed at u.h:3:1)" 5
                         [2%nat; 3%nat] 4 4 6
  | 6%nat => record_type RECORD "union (unnamed at u.h:3:1)" 5 [2%nat; 3%nat] 4 4 6
  | _ => invalid_type
  end.

Definition tu : TranslationUnit :=
  {| cursors := cursor_table; ctypes := type_table; tu_cursor := 0 |}.

(** A view that already holds a full [struct S] and types named like the
    members [i] and [c]. *)
Definition view : BinaryView :=
  {| types := <["S" := TStructure (Some 8) (Some 4) [(TBase "int", "a")]
                                   StructStructureType]>
                (<["i" := TBase "int"]> (<["c" := TBase "char"]> ∅));
     log := [] |}.

Definition member_type (f : Cursor) : BnType :=
  match f with
  | 2%nat => TBase "int"
  | _ => TBase "char"
  end.

End Aggregates.

(** A pointer to [const void] named [cookie], a pointer to the defined
    structure [_NODE] named [head], and a pointer named [old_style] to a
    function without prototype that returns [long]. *)
Module Pointers.
Import Build.

Definition cursor_table (c : Cursor) : CursorData :=
  match c with
  | 1%nat => decl VAR_DECL "cookie" 1 1
  | 2%nat => decl VAR_DECL "head" 3 2
  | 3%nat => decl STRUCT_DECL "_NODE" 5 3
  | 4%nat => decl VAR_DECL "old_style" 6 4
  | _ => no_decl
  end.

Definition type_table (t : CType) : TypeData :=
  match t with
  | 1%nat => pointer_to "const void *" 2
  | 2%nat => plain VOID "const void"
  | 3%nat => pointer_to "struct _NODE *" 4
  | 4%nat => record_type ELABORATED "struct _NODE" 3 [] 16 8 5
  | 5%nat => record_type RECORD "struct _NODE" 3 [] 16 8 5
  | 6%nat => pointer_to "long (*)()" 7
  | 7%nat =>
      {| t_kind := FUNCTIONNOPROTO; t_spelling := "long ()"; t_get_pointee := 0;
         t_get_declaration := 0; t_get_array_element_type := 0;
         t_get_array_size := -1; t_get_result := 8; t_argument_types := [];
         t_is_function_variadic := true; t_get_fields := [];
         t_get_size := 1; t_get_align := 4; t_get_named_type := 0 |}
  | 8%nat => plain LONG "long"
  | _ => invalid_type
  end.

Definition tu : TranslationUnit :=
  {| cursors := cursor_table; ctypes := type_table; tu_cursor := 0 |}.

Definition node_defined : BnType :=
  TStructure (Some 16) (Some 8) [(TBase "int", "val")] StructStructureType.

Definition view : BinaryView :=
  {| types := {[ "_NODE" := node_defined ]}; log := [] |}.

End Pointers.

(** A header with three top-level declarations: [int m[2][3];], [int x;]
    and the forward declaration [struct IRpcChannelBuffer;]. *)
Module Header.
Import Build.

Definition cursor_table (c : Cursor) : CursorData :=
  match c with
  | 1%nat => decl VAR_DECL "m" 1 1
  | 2%nat => decl VAR_DECL "x" 4 2
  | 3%nat =>
      {| c_kind := STRUCT_DECL; c_spelling := "IRpcChannelBuffer"; c_type := 3;
         c_is_anonymous := false; c_is_definition := false;
         c_semantic_parent := 0; c_underlying_typedef_type := 0;
         c_get_definition := 0; c_get_children := []; c_get_arguments := [];
         c_get_tokens := []; c_enum_value := 0 |}
  | 9%nat =>
      {| c_kind := TRANSLATION_UNIT; c_spelling := "ntdll.h"; c_type := 0;
         c_is_anonymous := false; c_is_definition := false;
         c_semantic_parent := 0; c_underlying_typedef_type := 0;
         c_get_definition := 0; c_get_children := [1%nat; 2%nat; 3%nat];
         c_get_arguments := []; c_get_tokens := []; c_enum_value := 0 |}
  | _ => no_decl
  end.

Definition type_table (t : CType) : TypeData :=
  match t with
  | 1%nat => array_of CONSTANTARRAY "int [2][3]" 2 2
  | 2%nat => array_of CONSTANTARRAY "int [3]" 4 3
  | 3%nat => record_type RECORD "struct IRpcChannelBuffer" 3 [] (-2) (-2) 3
  | 4%nat => plain INT "int"
  | _ => invalid_type
  end.

Definition tu : TranslationUnit :=
  {| cursors := cursor_table; ctypes := type_table; tu_cursor := 9 |}.

(** A view in which the element type of [m] is registered under its
    spelling. *)
Definition view : BinaryView :=
  {| types := {[ "int [3]" := TArray (TBase "int") 3 ]}; log := [] |}.

End Header.
(* ===================================================================== *)
(** * Properties *)
(* ===================================================================== *)

(** ** The monad *)

Lemma bind_Returns {A B} (m : Py A) (k : A -> Py B) bv b bv2 :
  bind m k bv = Returns b bv2 <->
  exists a bv1, m bv = Returns a bv1 /\ k a bv1 = Returns b bv2.
Proof.
  unfold bind. split.
  - destruct (m bv) as [a bv1 | e bv1 |] eqn:E; try discriminate.
    intros H. exists a, bv1. split; [reflexivity | exact H].
  - intros (a & bv1 & Hm & Hk). rewrite Hm. exact Hk.
Qed.

Lemma bind_eq_Returns {A B} (m : Py A) (k : A -> Py B) bv a bv1 :
  m bv = Returns a bv1 -> bind m k bv = k a bv1.
Proof. intros H. unfold bind. rewrite H. reflexivity. Qed.

Lemma log_debug_eq text args bv :
  log_debug text args bv = Returns tt (logged bv [Debug text args]).
Proof. reflexivity. Qed.

(** ** Kinds *)

Lemma CursorKind_eqb_false (a b : CursorKind) : a <> b -> CursorKind_eqb a b = false.
Proof. intros H. unfold CursorKind_eqb. apply bool_decide_eq_false_2. exact H. Qed.

Lemma CursorKind_eqb_true (a b : CursorKind) : a = b -> CursorKind_eqb a b = true.
Proof. intros H. unfold CursorKind_eqb. apply bool_decide_eq_true_2. exact H. Qed.

Lemma TypeKind_eqb_false (a b : TypeKind) : a <> b -> TypeKind_eqb a b = false.
Proof. intros H. unfold TypeKind_eqb. apply bool_decide_eq_false_2. exact H. Qed.

Lemma TypeKind_eqb_true (a b : TypeKind) : a = b -> TypeKind_eqb a b = true.
Proof. intros H. unfold TypeKind_eqb. apply bool_decide_eq_true_2. exact H. Qed.

(** ** [enum_decl] *)

(** [enum_value] answers for an enumerator and for nothing else. *)
Lemma enum_value_enumerator :
  forall (tu : TranslationUnit) (m : Cursor) (bv : BinaryView),
    kind tu m = ENUM_CONSTANT_DECL ->
    enum_value tu m bv = Returns (clang_getEnumConstantDeclValue tu m) bv.
Proof.
  intros tu m bv H. unfold enum_value, py_assert.
  rewrite (CursorKind_eqb_true _ _ H). reflexivity.
Qed.

Lemma enum_value_other :
  forall (tu : TranslationUnit) (m : Cursor) (bv : BinaryView),
    kind tu m <> ENUM_CONSTANT_DECL ->
    enum_value tu m bv = Raises (AssertionError "") bv.
Proof.
  intros tu m bv H. unfold enum_value, py_assert.
  rewrite (CursorKind_eqb_false _ _ H). reflexivity.
Qed.

(** The loop of [enum_decl] over the children of the declaration. *)
Lemma enum_decl_members_enumerators :
  forall (tu : TranslationUnit) (children : list Cursor) (bv : BinaryView),
    Forall (fun m => kind tu m = ENUM_CONSTANT_DECL) children ->
    for_list (fun enum_member =>
                let* value := enum_value tu enum_member in
                ret (spelling tu enum_member, value)) children bv =
      Returns (map (fun m => (spelling tu m, clang_getEnumConstantDeclValue tu m))
                   children) bv.
Proof.
  intros tu children bv H. induction H as [| m children Hm _ IH].
  - reflexivity.
  - cbn [for_list List.map].
    unfold bind at 1. unfold bind at 1.
    rewrite (enum_value_enumerator tu m bv Hm). unfold ret at 1.
    rewrite (bind_eq_Returns _ _ _ _ _ IH). reflexivity.
Qed.

Lemma enum_decl_members_other :
  forall (tu : TranslationUnit) (children : list Cursor) (bv : BinaryView),
    Exists (fun m => kind tu m <> ENUM_CONSTANT_DECL) children ->
    for_list (fun enum_member =>
                let* value := enum_value tu enum_member in
                ret (spelling tu enum_member, value)) children bv =
      Raises (AssertionError "") bv.
Proof.
  intros tu children bv. induction children as [| m children IH]; intros H.
  - inversion H.
  - cbn [for_list].
    destruct (decide (kind tu m = ENUM_CONSTANT_DECL)) as [Hm | Hm].
    + unfold bind at 1. unfold bind at 1.
      rewrite (enum_value_enumerator tu m bv Hm). unfold ret at 1.
      unfold bind at 1. rewrite IH; [reflexivity |].
      inversion H as [? ? Hhead | ? ? Htail]; subst; [contradiction | exact Htail].
    + unfold bind at 1. unfold bind at 1.
      rewrite (enum_value_other tu m bv Hm). reflexivity.
Qed.

(** C10, as the code has it: an enum declaration whose own spelling is
    empty and whose children are all enumerators is registered under its
    type's spelling, while the name [enum_decl] returns is the node's own,
    empty, spelling: nothing is registered under the returned name, which
    differs from the registered one. *)
Theorem enum_decl_unnamed_returns_empty_name :
  forall (tu : TranslationUnit) (bn : BinaryNinja) (node : Cursor) (bv : BinaryView),
    let enum :=
      TEnumeration (map (fun m => (spelling tu m, clang_getEnumConstantDeclValue tu m))
                        (get_children tu node)) in
    let registered_name := tspelling tu (type tu node) in
    spelling tu node = "" ->
    registered_name <> "" ->
    Forall (fun m => kind tu m = ENUM_CONSTANT_DECL) (get_children tu node) ->
    bn_define_user_type_error bn (types bv) registered_name enum = None ->
    exists bv',
      enum_decl tu bn node bv = Returns (Some ("", enum)) bv' /\
      types bv' = <[registered_name := enum]> (types bv) /\
      types bv' !! registered_name = Some enum /\
      types bv' !! "" = types bv !! "" /\
      "" <> registered_name.
Proof.
  intros tu bn node bv enum registered_name Hname Hty Hchildren Hok.
  unfold enum_decl. rewrite Hname. simpl PyStr.truthy. cbv iota.
  rewrite (bind_eq_Returns _ _ _ _ _ (log_debug_eq _ _ _)).
  rewrite (bind_eq_Returns _ _ _ _ _
             (enum_decl_members_enumerators tu _ _ Hchildren)).
  unfold try_except, bind, define_user_type.
  fold registered_name. fold enum. simpl types. rewrite Hok.
  simpl. eexists. split; [reflexivity |]. simpl.
  repeat split.
  - apply lookup_insert_eq.
  - apply lookup_insert_ne. exact Hty.
  - intros H. apply Hty. symmetry. exact H.
Qed.

Lemma enum_decl_unnamed_returns_empty_name_witness :
  exists bv',
    enum_decl UnnamedEnum.tu Build.example_bn 1 Build.empty_view =
      Returns (Some ("", TEnumeration [("Red", 0); ("Green", 5)])) bv' /\
    types bv' !! "enum (unnamed at colors.h:1:1)" =
      Some (TEnumeration [("Red", 0); ("Green", 5)]) /\
    types bv' !! "" = None.
Proof.
  destruct (enum_decl_unnamed_returns_empty_name
              UnnamedEnum.tu Build.example_bn 1 Build.empty_view)
    as (bv' & Hrun & _ & Hreg & Hempty & _).
  - reflexivity.
  - discriminate.
  - repeat constructor.
  - reflexivity.
  - exists bv'. split; [exact Hrun |]. split; [exact Hreg |]. exact Hempty.
Defined.

(** C10 fails as stated: a packed enumeration with no name of its own is
    an enum declaration whose spelling is empty; its first child is the
    attribute, [enum_value] asserts on it, and [enum_decl] raises
    [AssertionError] before it registers or returns anything. *)
Lemma enum_decl_unnamed_with_attribute_raises_counterexample :
  kind UnnamedEnum.tu 4 = ENUM_DECL /\
  spelling UnnamedEnum.tu 4 = "" /\
  result_of (enum_decl UnnamedEnum.tu Build.example_bn 4 Build.empty_view) =
    Some (inr (AssertionError "")) /\
  types (view_after (enum_decl UnnamedEnum.tu Build.example_bn 4 Build.empty_view)) !!
    "enum (unnamed at colors.h:3:1)" = None.
Proof. repeat split; vm_compute; reflexivity. Qed.

(** ** [define_type]: the already-defined branch *)

(** What [define_type] does for a named node whose type spelling names a
    type of the view. *)
Lemma define_type_already_defined :
  forall (tu : TranslationUnit) (bn : BinaryNinja) (fuel : nat) (node : Cursor)
         (bv : BinaryView) (t : BnType),
    spelling tu node <> "" ->
    types bv !! tspelling tu (type tu node) = Some t ->
    define_type tu bn (S fuel) node bv =
      Returns (Some (spelling tu node, t))
              (logged bv
                 [Debug "define_type: Dispatch for"
                        [tspelling tu (type tu node); spelling tu node];
                  Debug "define_type: type already defined, skipping re-definition."
                        [spelling tu node]]).
Proof.
  intros tu bn fuel node bv t Hname Hreg.
  simpl. unfold define_type_body.
  rewrite (bind_eq_Returns _ _ _ _ _ (log_debug_eq _ _ _)).
  destruct (spelling tu node) as [| c s] eqn:E; [congruence |].
  simpl PyStr.truthy. cbv iota.
  unfold bind at 1. unfold get_type_by_name. cbn [logged types]. rewrite Hreg.
  rewrite (bind_eq_Returns _ _ _ _ _ (log_debug_eq _ _ _)).
  unfold ret. unfold logged. cbn [types log]. rewrite <- app_assoc. reflexivity.
Qed.

(** C2, as the code has it: the key [define_type] looks up is the spelling
    of the node's type.  For a node with a non-empty spelling whose type
    spelling is present in the view, [define_type] returns the node's
    spelling with the entry found and changes no entry of the view; a
    second resolution does the same, so every entry is identical after
    both calls. *)
Theorem define_type_idempotent_on_defined_type_spelling :
  forall (tu : TranslationUnit) (bn : BinaryNinja) (fuel1 fuel2 : nat)
         (node : Cursor) (bv : BinaryView) (t : BnType),
    spelling tu node <> "" ->
    types bv !! tspelling tu (type tu node) = Some t ->
    exists bv1 bv2,
      define_type tu bn (S fuel1) node bv = Returns (Some (spelling tu node, t)) bv1 /\
      types bv1 = types bv /\
      define_type tu bn (S fuel2) node bv1 = Returns (Some (spelling tu node, t)) bv2 /\
      types bv2 = types bv /\
      (forall name, types bv1 !! name = types bv2 !! name).
Proof.
  intros tu bn fuel1 fuel2 node bv t Hname Hreg.
  eexists. eexists. split.
  - apply define_type_already_defined; assumption.
  - split; [reflexivity |]. split.
    + apply define_type_already_defined; [assumption | exact Hreg].
    + split; reflexivity.
Qed.

Lemma define_type_idempotent_on_defined_type_spelling_witness :
  exists bv1 bv2,
    define_type DllHandle.tu Build.example_bn 1 1 DllHandle.view =
      Returns (Some ("DllHandle", TPointer (TBase "void"))) bv1 /\
    types bv1 = types DllHandle.view /\
    define_type DllHandle.tu Build.example_bn 1 1 bv1 =
      Returns (Some ("DllHandle", TPointer (TBase "void"))) bv2 /\
    types bv2 = types DllHandle.view /\
    (forall name, types bv1 !! name = types bv2 !! name).
Proof.
  apply (define_type_idempotent_on_defined_type_spelling
           DllHandle.tu Build.example_bn 0 0 1 DllHandle.view
           (TPointer (TBase "void"))).
  - discriminate.
  - reflexivity.
Defined.

(** C2 fails as stated: the node's own name is in the view (the empty
    structure the pre-pass seeds for a forward declaration), yet
    [define_type] goes on to [struct_decl], returns a new type and
    replaces the entry. *)
Lemma define_type_registered_name_counterexample :
  spelling CriticalSection.tu 1 = "_RTL_CRITICAL_SECTION" /\
  types CriticalSection.seeded !! "_RTL_CRITICAL_SECTION" =
    Some (structure_type Structure_new) /\
  result_of (define_type CriticalSection.tu Build.example_bn 3 1
                         CriticalSection.seeded) =
    Some (inl (Some ("_RTL_CRITICAL_SECTION", CriticalSection.full))) /\
  registered_after (define_type CriticalSection.tu Build.example_bn 3 1
                                CriticalSection.seeded)
                   "_RTL_CRITICAL_SECTION" =
    Some CriticalSection.full /\
  CriticalSection.full <> structure_type Structure_new.
Proof.
  split; [reflexivity |]. split; [reflexivity |].
  split; [vm_compute; reflexivity |]. split; [vm_compute; reflexivity |].
  discriminate.
Qed.

(** Resolving one declaration twice need not leave its entry alone
    either: the first resolution of [struct A] registers the member [C]
    (a pointer) before [struct C] is registered under the same name; the
    second resolution finds [struct C] under the member's name and uses
    it as the member's type. *)
Example define_type_twice_changes_entry :
  let first := define_type MemberNamedLikeTag.tu Build.example_bn 6 3 Build.empty_view in
  let second :=
    define_type MemberNamedLikeTag.tu Build.example_bn 6 3 (view_after first) in
  registered_after first "A" =
    Some (TStructure (Some 16) (Some 8)
            [(TPointer MemberNamedLikeTag.B_declared, "C");
             (MemberNamedLikeTag.C_defined, "c2")] StructStructureType) /\
  registered_after second "A" =
    Some (TStructure (Some 16) (Some 8)
            [(MemberNamedLikeTag.C_defined, "C");
             (MemberNamedLikeTag.C_defined, "c2")] StructStructureType).
Proof. split; vm_compute; reflexivity. Qed.

(** ** [typedef_decl] *)

(** [typedef_decl] reaches the parse of the underlying type whenever the
    typedef's name is not in the view. *)
Lemma typedef_decl_not_yet_defined :
  forall (tu : TranslationUnit) (bn : BinaryNinja) (node : Cursor) (bv : BinaryView),
    types bv !! spelling tu node = None ->
    typedef_decl tu bn node bv =
      typedef_decl_undefined tu bn node
        (logged bv [Debug "typedef_decl:"
                          [tspelling tu (underlying_typedef_type tu node);
                           spelling tu node]]).
Proof.
  intros tu bn node bv Hnone.
  unfold typedef_decl.
  rewrite (bind_eq_Returns _ _ _ _ _ (log_debug_eq _ _ _)).
  unfold bind.
  destruct (PyStr.truthy (spelling tu node)).
  - unfold get_type_by_name. cbn [logged types]. rewrite Hnone. reflexivity.
  - reflexivity.
Qed.

(** C8, the "is not defined" recovery: the parse of the underlying type
    fails with a syntax error saying the identifier is not defined, and the
    typedef's name does not end in [_t].  The recovery calls
    [bv.define_user_type] with the type text alone, so [typedef_decl]
    raises [TypeError]: nothing is defined, and the node's resolution is
    not Absent either. *)
Theorem typedef_decl_not_defined_raises_TypeError :
  forall (tu : TranslationUnit) (bn : BinaryNinja) (node : Cursor) (bv : BinaryView)
         (msg : string),
    types bv !! spelling tu node = None ->
    tspelling tu (underlying_typedef_type tu node) <> "" ->
    bn_parse_type_string bn (types bv)
      (remove_compiler_directives (tspelling tu (underlying_typedef_type tu node)))
      = inl (SyntaxError msg) ->
    PyStr.contains "syntax error" msg = true ->
    PyStr.endswith "_t" (spelling tu node) = false ->
    PyStr.contains "is not defined" msg = true ->
    exists bv',
      typedef_decl tu bn node bv =
        Raises (TypeError
                  "define_user_type() missing 1 required positional argument: 'type_obj'")
               bv' /\
      types bv' = types bv.
Proof.
  intros tu bn node bv msg Hnone Hund Hparse Hsyn Hsuffix Hundef.
  rewrite typedef_decl_not_yet_defined by exact Hnone.
  unfold typedef_decl_undefined.
  destruct (tspelling tu (underlying_typedef_type tu node)) as [| c s] eqn:E;
    [congruence |].
  cbn [PyStr.truthy negb].
  unfold bind at 1. unfold try_except at 1. unfold bind at 1.
  unfold parse_type_string at 1. cbn [logged types]. rewrite Hparse.
  unfold typedef_decl_recover. rewrite Hsyn, Hsuffix, Hundef.
  unfold raise. eexists. split; reflexivity.
Qed.

Lemma typedef_decl_not_defined_raises_TypeError_witness :
  exists bv',
    typedef_decl UndefinedTypedef.tu Build.example_bn 1 Build.empty_view =
      Raises (TypeError
                "define_user_type() missing 1 required positional argument: 'type_obj'")
             bv' /\
    types bv' = types Build.empty_view.
Proof.
  apply (typedef_decl_not_defined_raises_TypeError
           UndefinedTypedef.tu Build.example_bn 1 Build.empty_view
           "syntax error: type 'FOO' is not defined").
  - reflexivity.
  - discriminate.
  - reflexivity.
  - reflexivity.
  - reflexivity.
  - reflexivity.
Defined.

(** The reserved-suffix recovery: one more parse, with the last character
    of the name turned into [T]; whatever that parse does is final. *)
Lemma typedef_decl_reserved_suffix_retries_once :
  forall (tu : TranslationUnit) (bn : BinaryNinja) (node : Cursor) (bv : BinaryView)
         (msg : string),
    types bv !! spelling tu node = None ->
    tspelling tu (underlying_typedef_type tu node) <> "" ->
    let text :=
      remove_compiler_directives (tspelling tu (underlying_typedef_type tu node)) in
    bn_parse_type_string bn (types bv) text = inl (SyntaxError msg) ->
    PyStr.contains "syntax error" msg = true ->
    PyStr.endswith "_t" (spelling tu node) = true ->
    typedef_decl tu bn node bv =
      (let* r := parse_type_string bn
                   (text +:+ " " +:+ PyStr.drop_last (spelling tu node) +:+ "T") in
       typedef_decl_define tu bn node (Some r))
        (logged bv [Debug "typedef_decl:"
                          [tspelling tu (underlying_typedef_type tu node);
                           spelling tu node]]).
Proof.
  intros tu bn node bv msg Hnone Hund text Hparse Hsyn Hsuffix.
  rewrite typedef_decl_not_yet_defined by exact Hnone.
  unfold typedef_decl_undefined.
  destruct (tspelling tu (underlying_typedef_type tu node)) as [| c s] eqn:E;
    [congruence |].
  cbn [PyStr.truthy negb]. fold text.
  unfold bind at 1. unfold try_except at 1. unfold bind at 1.
  unfold parse_type_string at 1. cbn [logged types]. rewrite Hparse.
  unfold typedef_decl_recover. rewrite Hsyn, Hsuffix.
  unfold bind.
  destruct (parse_type_string bn _ _) as [r bv1 | e bv1 |]; reflexivity.
Qed.

(** Any other syntax error is logged and the resolution is Absent. *)
Lemma typedef_decl_other_syntax_error_absent :
  forall (tu : TranslationUnit) (bn : BinaryNinja) (node : Cursor) (bv : BinaryView)
         (msg : string),
    types bv !! spelling tu node = None ->
    tspelling tu (underlying_typedef_type tu node) <> "" ->
    bn_parse_type_string bn (types bv)
      (remove_compiler_directives (tspelling tu (underlying_typedef_type tu node)))
      = inl (SyntaxError msg) ->
    PyStr.endswith "_t" (spelling tu node) = false ->
    PyStr.contains "is not defined" msg = false ->
    exists bv',
      typedef_decl tu bn node bv = Returns None bv' /\
      types bv' = types bv /\
      In (Debug "typedef_decl: Failed Processing"
                [tspelling tu (underlying_typedef_type tu node); spelling tu node])
         (log bv').
Proof.
  intros tu bn node bv msg Hnone Hund Hparse Hsuffix Hundef.
  rewrite typedef_decl_not_yet_defined by exact Hnone.
  unfold typedef_decl_undefined.
  destruct (tspelling tu (underlying_typedef_type tu node)) as [| c s] eqn:E;
    [congruence |].
  cbn [PyStr.truthy negb].
  unfold bind at 1. unfold try_except at 1. unfold bind at 1.
  unfold parse_type_string at 1. cbn [logged types]. rewrite Hparse.
  unfold typedef_decl_recover. rewrite Hsuffix, Hundef.
  destruct (PyStr.contains "syntax error" msg).
  - rewrite (bind_eq_Returns _ _ _ _ _ (log_debug_eq _ _ _)).
    unfold ret, typedef_decl_define, try_except, raise.
    rewrite (bind_eq_Returns _ _ _ _ _ (log_debug_eq _ _ _)).
    eexists. split; [reflexivity |]. split; [reflexivity |].
    cbn [logged log]. rewrite E. apply in_or_app. right. left. reflexivity.
  - unfold ret, typedef_decl_define, try_except, raise.
    rewrite (bind_eq_Returns _ _ _ _ _ (log_debug_eq _ _ _)).
    eexists. split; [reflexivity |]. split; [reflexivity |].
    cbn [logged log]. rewrite E. apply in_or_app. right. left. reflexivity.
Qed.

(** ** [struct_decl] *)

Lemma is_recursive_field_true :
  forall (tu : TranslationUnit) (field : Cursor) (bv : BinaryView),
    tkind tu (type tu field) = POINTER ->
    tspelling tu (get_pointee tu (type tu field)) =
      tspelling tu (type tu (semantic_parent tu field)) ->
    is_recursive_field tu field bv =
      Returns true
        (logged bv [Debug "is_recursive_field: Processing field"
                          [tspelling tu (type tu field); spelling tu field]]).
Proof.
  intros tu field bv Hkind Hsame.
  unfold is_recursive_field.
  rewrite (bind_eq_Returns _ _ _ _ _ (log_debug_eq _ _ _)).
  rewrite Hkind, Hsame. cbn [TypeKind_eqb].
  rewrite String.eqb_refl. reflexivity.
Qed.

(** A recursive field never reaches [define_type]: the member appended is
    the empty structure just defined under the pointee's name, under that
    name. *)
Lemma struct_decl_field_recursive :
  forall (tu : TranslationUnit) (bn : BinaryNinja) (dt : Cursor -> Py Result)
         (field : Cursor) (bv : BinaryView),
    tkind tu (type tu field) = POINTER ->
    tspelling tu (get_pointee tu (type tu field)) =
      tspelling tu (type tu (semantic_parent tu field)) ->
    (forall known name t, bn_define_user_type_error bn known name t = None) ->
    exists bv',
      struct_decl_field tu bn dt field bv =
        Returns (structure_type Structure_new,
                 spelling tu (get_declaration tu (get_pointee tu (type tu field))))
                bv'.
Proof.
  intros tu bn dt field bv Hkind Hsame Hok.
  unfold struct_decl_field.
  rewrite (bind_eq_Returns _ _ _ _ _ (log_debug_eq _ _ _)).
  rewrite (bind_eq_Returns _ _ _ _ _ (is_recursive_field_true _ _ _ Hkind Hsame)).
  cbv iota.
  unfold bind, define_user_type, get_type_by_name, ret, log_debug.
  rewrite Hok. cbn [types]. rewrite lookup_insert_eq.
  eexists. reflexivity.
Qed.

Lemma struct_decl_fields_recursive :
  forall (tu : TranslationUnit) (bn : BinaryNinja) (dt : Cursor -> Py Result)
         (fields : list Cursor) (bv : BinaryView),
    Forall (fun f =>
              tkind tu (type tu f) = POINTER /\
              tspelling tu (get_pointee tu (type tu f)) =
                tspelling tu (type tu (semantic_parent tu f))) fields ->
    (forall known name t, bn_define_user_type_error bn known name t = None) ->
    exists bv',
      for_list (struct_decl_field tu bn dt) fields bv =
        Returns (map (fun f =>
                        (structure_type Structure_new,
                         spelling tu (get_declaration tu (get_pointee tu (type tu f)))))
                     fields)
                bv'.
Proof.
  intros tu bn dt fields bv Hrec Hok. revert bv.
  induction Hrec as [| f fields [Hkind Hsame] _ IH]; intros bv.
  - eexists. reflexivity.
  - destruct (struct_decl_field_recursive tu bn dt f bv Hkind Hsame Hok) as [bv1 H1].
    destruct (IH bv1) as [bv2 H2].
    exists bv2. cbn [for_list map].
    rewrite (bind_eq_Returns _ _ _ _ _ H1).
    rewrite (bind_eq_Returns _ _ _ _ _ H2).
    reflexivity.
Qed.

(** The members come out one per field, each from one run of the loop
    body. *)
Lemma for_list_Returns_Forall2 {A B} (body : A -> Py B) (l : list A) :
  forall (bv : BinaryView) (ys : list B) (bv' : BinaryView),
    for_list body l bv = Returns ys bv' ->
    Forall2 (fun x y => exists b1 b2, body x b1 = Returns y b2) l ys.
Proof.
  induction l as [| x l IH]; intros bv ys bv' H.
  - cbn in H. injection H as <- <-. constructor.
  - cbn [for_list] in H.
    apply bind_Returns in H as (y & bv1 & Hy & H).
    apply bind_Returns in H as (ys' & bv2 & Hys & H).
    injection H as <- <-. constructor.
    + exists bv, bv1. exact Hy.
    + eapply IH. exact Hys.
Qed.

(** Whenever the loop body returns for a recursive field, what it returns
    is the placeholder under the pointee's name. *)
Lemma struct_decl_field_recursive_member :
  forall (tu : TranslationUnit) (bn : BinaryNinja) (dt : Cursor -> Py Result)
         (field : Cursor) (bv : BinaryView) (m : BnType * string) (bv' : BinaryView),
    tkind tu (type tu field) = POINTER ->
    tspelling tu (get_pointee tu (type tu field)) =
      tspelling tu (type tu (semantic_parent tu field)) ->
    struct_decl_field tu bn dt field bv = Returns m bv' ->
    m = (structure_type Structure_new,
         spelling tu (get_declaration tu (get_pointee tu (type tu field)))).
Proof.
  intros tu bn dt field bv m bv' Hkind Hsame H.
  unfold struct_decl_field in H.
  rewrite (bind_eq_Returns _ _ _ _ _ (log_debug_eq _ _ _)) in H.
  rewrite (bind_eq_Returns _ _ _ _ _ (is_recursive_field_true _ _ _ Hkind Hsame)) in H.
  cbv iota in H.
  apply bind_Returns in H as (member & bv1 & Hmember & H).
  unfold bind, log_debug, ret in H. injection H as <- <-.
  apply bind_Returns in Hmember as (u & bv2 & Hdefine & Hmember).
  unfold define_user_type in Hdefine.
  destruct (bn_define_user_type_error bn _ _ _); [discriminate |].
  injection Hdefine as <- <-.
  unfold bind, get_type_by_name in Hmember. cbn [types] in Hmember.
  rewrite lookup_insert_eq in Hmember.
  unfold ret in Hmember. injection Hmember as <- <-. reflexivity.
Qed.

(** For every structure definition, whatever else it contains: when
    [struct_decl] returns, the member built for each recursive field is
    the placeholder structure under the pointee's name, not a pointer
    under the field's name. *)
Lemma struct_decl_recursive_members :
  forall (tu : TranslationUnit) (bn : BinaryNinja) (dt : Cursor -> Py Result)
         (node : Cursor) (bv : BinaryView) (name : string) (t : BnType)
         (bv' : BinaryView),
    is_definition tu node = true ->
    struct_decl tu bn dt node bv = Returns (Some (name, t)) bv' ->
    exists members variant,
      t = TStructure (Some (get_size tu (type tu node)))
                     (Some (get_align tu (type tu node))) members variant /\
      Forall2 (fun f m =>
                 tkind tu (type tu f) = POINTER ->
                 tspelling tu (get_pointee tu (type tu f)) =
                   tspelling tu (type tu (semantic_parent tu f)) ->
                 m = (structure_type Structure_new,
                      spelling tu (get_declaration tu (get_pointee tu (type tu f)))))
              (get_fields tu (type tu node)) members.
Proof.
  intros tu bn dt node bv name t bv' Hdef H.
  unfold struct_decl in H. rewrite Hdef in H.
  apply bind_Returns in H as (u & bv1 & _ & H).
  apply bind_Returns in H as (u2 & bv2 & _ & H).
  apply bind_Returns in H as (members & bv3 & Hfields & H).
  exists members. eexists. split.
  - unfold try_except in H.
    match type of H with
    | match ?run with _ => _ end = _ => destruct run as [r b | e b |] eqn:E
    end; try discriminate.
    injection H as -> ->.
    apply bind_Returns in E as (u3 & bv4 & _ & E).
    unfold bind, log_debug, ret in E. injection E as _ <- _.
    reflexivity.
  - apply for_list_Returns_Forall2 in Hfields.
    eapply Forall2_impl; [exact Hfields |].
    intros f m (b1 & b2 & Hrun) Hkind Hsame.
    eapply struct_decl_field_recursive_member; eassumption.
Qed.

(** C1, what the code does with a self-referential structure: when every
    field of a structure definition is a pointer back to the structure,
    [struct_decl] returns without ever calling the dispatcher (the result
    is the same for every [dt]), and the type it registers has, for each
    such field, a member whose type is the empty placeholder structure
    itself, named after the structure: no member is a pointer. *)
Theorem struct_decl_self_reference_member_is_not_a_pointer :
  forall (tu : TranslationUnit) (bn : BinaryNinja) (dt : Cursor -> Py Result)
         (node : Cursor) (bv : BinaryView),
    is_definition tu node = true ->
    Forall (fun f =>
              tkind tu (type tu f) = POINTER /\
              tspelling tu (get_pointee tu (type tu f)) =
                tspelling tu (type tu (semantic_parent tu f)))
           (get_fields tu (type tu node)) ->
    (forall known name t, bn_define_user_type_error bn known name t = None) ->
    let struct_name :=
      if PyStr.truthy (spelling tu node) then spelling tu node
      else tspelling tu (type tu node) in
    let members :=
      map (fun f =>
             (structure_type Structure_new,
              spelling tu (get_declaration tu (get_pointee tu (type tu f)))))
          (get_fields tu (type tu node)) in
    let final :=
      TStructure (Some (get_size tu (type tu node)))
                 (Some (get_align tu (type tu node))) members
                 (if CursorKind_eqb (kind tu node) UNION_DECL
                  then UnionStructureType else StructStructureType) in
    exists bv',
      struct_decl tu bn dt node bv = Returns (Some (struct_name, final)) bv' /\
      types bv' !! struct_name = Some final /\
      Forall (fun m => forall target, fst m <> TPointer target) members.
Proof.
  intros tu bn dt node bv Hdef Hrec Hok struct_name members final.
  unfold struct_decl. fold struct_name.
  rewrite (bind_eq_Returns _ _ _ _ _ (log_debug_eq _ _ _)).
  unfold bind at 1. unfold define_user_type at 1. rewrite Hok.
  rewrite Hdef.
  match goal with
  | |- context [bind (for_list _ _) _ ?b] =>
      destruct (struct_decl_fields_recursive tu bn dt _ b Hrec Hok) as [bv1 H1]
  end.
  rewrite (bind_eq_Returns _ _ _ _ _ H1).
  fold members. unfold structure_type at 1 2. cbn [s_width s_alignment s_members s_type].
  fold final.
  unfold try_except, bind, define_user_type, log_debug, ret. rewrite Hok.
  eexists. split; [reflexivity |]. split.
  - cbn [types]. apply lookup_insert_eq.
  - unfold members. apply List.Forall_forall. intros m Hin.
    apply List.in_map_iff in Hin. destruct Hin as (f & <- & _).
    intros target. discriminate.
Qed.

Lemma struct_decl_self_reference_member_is_not_a_pointer_witness :
  exists bv',
    struct_decl SelfReference.tu Build.example_bn
                (define_type SelfReference.tu Build.example_bn 0) 4
                Build.empty_view =
      Returns (Some ("_LINK",
                     TStructure (Some 8) (Some 8)
                                [(SelfReference.placeholder, "_LINK")]
                                StructStructureType))
              bv' /\
    types bv' !! "_LINK" =
      Some (TStructure (Some 8) (Some 8) [(SelfReference.placeholder, "_LINK")]
                       StructStructureType).
Proof.
  destruct (struct_decl_self_reference_member_is_not_a_pointer
              SelfReference.tu Build.example_bn
              (define_type SelfReference.tu Build.example_bn 0) 4 Build.empty_view)
    as (bv' & Hrun & Hreg & _).
  - reflexivity.
  - repeat constructor.
  - reflexivity.
  - exists bv'. split; [exact Hrun | exact Hreg].
Defined.

(** The structure of the specification's own scenario: [_NODE] is entered
    once and comes out with the members [val : int] and
    [_NODE : struct {}], not [next : pointer to _NODE]. *)
Example struct_decl_NODE :
  let run := define_type SelfReference.tu Build.example_bn 2 1 Build.empty_view in
  let final :=
    TStructure (Some 16) (Some 8)
               [(TBase "int", "val"); (SelfReference.placeholder, "_NODE")]
               StructStructureType in
  result_of run = Some (inl (Some ("_NODE", final))) /\
  registered_after run "_NODE" = Some final /\
  count_debug "struct_decl: Processing struct" (log_after run) = 1%nat.
Proof. vm_compute. repeat split. Qed.

(** ** Handlers that register what they return *)

Section Registered.

Variable tu : TranslationUnit.
Variable bn : BinaryNinja.

(** The common last step: define, log, return the pair. *)
Lemma define_then_return_registered :
  forall (name : string) (t : BnType) (text : string) (args : list string)
         (bv : BinaryView) (r : Result) (bv' : BinaryView),
    (define_user_type bn name t >> log_debug text args >> ret (Some (name, t))) bv
      = Returns r bv' ->
    registered_result r bv'.
Proof.
  intros name t text args bv r bv'.
  unfold bind, define_user_type, log_debug, ret.
  destruct (bn_define_user_type_error bn (types bv) name t); [discriminate |].
  intros H. injection H as <- <-. cbn. apply lookup_insert_eq.
Qed.

Lemma try_define_then_return_registered :
  forall (name : string) (t : BnType) (text1 text2 : string)
         (args1 args2 : list string)
         (bv : BinaryView) (r : Result) (bv' : BinaryView),
    try_except
      (define_user_type bn name t >> log_debug text1 args1 >> ret (Some (name, t)))
      (fun e => log_debug text2 args2 >> ret None) bv
      = Returns r bv' ->
    registered_result r bv'.
Proof.
  intros name t text1 text2 args1 args2 bv r bv'.
  unfold try_except.
  destruct ((define_user_type bn name t >> _ >> _) bv) as [a bv1 | e bv1 |] eqn:E.
  - intros H. injection H as <- <-.
    eapply define_then_return_registered. exact E.
  - unfold bind, log_debug, ret. intros H. injection H as <- <-. exact I.
  - discriminate.
Qed.

Lemma pointer_type_registered :
  forall fuel dt node bv r bv',
    pointer_type tu bn fuel dt node bv = Returns r bv' -> registered_result r bv'.
Proof.
  intros fuel dt node bv r bv'. unfold pointer_type.
  intros H. apply bind_Returns in H as (u & bv1 & _ & H).
  apply bind_Returns in H as (pointee & bv2 & _ & H).
  destruct pointee as [pointee |].
  - apply bind_Returns in H as (pointer & bv3 & _ & H).
    eapply define_then_return_registered. exact H.
  - injection H as <- <-. exact I.
Qed.

Lemma constantarray_type_registered :
  forall dt node bv r bv',
    constantarray_type tu bn dt node bv = Returns r bv' -> registered_result r bv'.
Proof.
  intros dt node bv r bv'. unfold constantarray_type.
  intros H. apply bind_Returns in H as (u & bv1 & _ & H).
  apply bind_Returns in H as (u2 & bv2 & _ & H).
  apply bind_Returns in H as (el & bv3 & _ & H).
  apply bind_Returns in H as (array & bv4 & _ & H).
  eapply define_then_return_registered. exact H.
Qed.

Lemma typedef_decl_define_registered :
  forall node bound bv r bv',
    typedef_decl_define tu bn node bound bv = Returns r bv' ->
    registered_result r bv'.
Proof.
  intros node bound bv r bv'. unfold typedef_decl_define.
  destruct bound as [[var_type name] |].
  - apply try_define_then_return_registered.
  - unfold try_except, raise, bind, log_debug, ret.
    intros H. injection H as <- <-. exact I.
Qed.

Lemma typedef_decl_undefined_registered :
  forall node bv r bv',
    typedef_decl_undefined tu bn node bv = Returns r bv' ->
    registered_result r bv'.
Proof.
  intros node bv r bv'. unfold typedef_decl_undefined.
  destruct (negb _); intros H;
    apply bind_Returns in H as (bound & bv1 & _ & H);
    eapply typedef_decl_define_registered; exact H.
Qed.

Lemma typedef_decl_registered :
  forall node bv r bv',
    typedef_decl tu bn node bv = Returns r bv' -> registered_result r bv'.
Proof.
  intros node bv r bv'. unfold typedef_decl.
  intros H. apply bind_Returns in H as (u & bv1 & _ & H).
  apply bind_Returns in H as (defined & bv2 & Hdef & H).
  destruct defined as [t |].
  - destruct (bn_truth bn t).
    + destruct (PyStr.truthy (spelling tu node)).
      * unfold get_type_by_name in Hdef. injection Hdef as Hlook <-.
        unfold bind, log_debug, ret in H. injection H as <- <-.
        cbn. exact Hlook.
      * discriminate.
    + eapply typedef_decl_undefined_registered. exact H.
  - eapply typedef_decl_undefined_registered. exact H.
Qed.

Lemma var_decl_registered :
  forall node bv r bv',
    var_decl tu bn node bv = Returns r bv' -> registered_result r bv'.
Proof.
  intros node bv r bv'. unfold var_decl.
  intros H. apply bind_Returns in H as (u & bv1 & _ & H).
  apply bind_Returns in H as ([var_type name] & bv2 & _ & H).
  eapply try_define_then_return_registered. exact H.
Qed.

Lemma function_decl_registered :
  forall dt node bv r bv',
    function_decl tu bn dt node bv = Returns r bv' -> registered_result r bv'.
Proof.
  intros dt node bv r bv'. unfold function_decl.
  intros H. apply bind_Returns in H as (u & bv1 & _ & H).
  apply bind_Returns in H as ([[params result_type] variadic] & bv2 & _ & H).
  apply bind_Returns in H as ([return_type ret_name] & bv3 & _ & H).
  eapply try_define_then_return_registered. exact H.
Qed.

Lemma struct_decl_registered :
  forall dt node bv r bv',
    struct_decl tu bn dt node bv = Returns r bv' -> registered_result r bv'.
Proof.
  intros dt node bv r bv'. unfold struct_decl.
  intros H. apply bind_Returns in H as (u & bv1 & _ & H).
  apply bind_Returns in H as (u2 & bv2 & _ & H).
  apply bind_Returns in H as (members & bv3 & _ & H).
  eapply try_define_then_return_registered. exact H.
Qed.

Lemma enum_decl_named_registered :
  forall node bv r bv',
    spelling tu node <> "" ->
    enum_decl tu bn node bv = Returns r bv' -> registered_result r bv'.
Proof.
  intros node bv r bv' Hname. unfold enum_decl.
  intros H. apply bind_Returns in H as (u & bv1 & _ & H).
  destruct (spelling tu node) as [| c s] eqn:E; [congruence |].
  cbn [PyStr.truthy] in H.
  apply bind_Returns in H as (enum & bv2 & _ & H).
  eapply try_define_then_return_registered. exact H.
Qed.

End Registered.

(** C3, as the code has it: a pair returned by [pointer_type],
    [constantarray_type], [typedef_decl], [var_decl], [function_decl] or
    [struct_decl], or by [enum_decl] for a node with a name, is in the view
    under the returned name when the handler returns. *)
Theorem registering_handlers_register_what_they_return :
  forall (tu : TranslationUnit) (bn : BinaryNinja) (fuel : nat)
         (dt : Cursor -> Py Result) (node : Cursor)
         (bv : BinaryView) (r : Result) (bv' : BinaryView),
    pointer_type tu bn fuel dt node bv = Returns r bv' \/
    constantarray_type tu bn dt node bv = Returns r bv' \/
    typedef_decl tu bn node bv = Returns r bv' \/
    var_decl tu bn node bv = Returns r bv' \/
    function_decl tu bn dt node bv = Returns r bv' \/
    struct_decl tu bn dt node bv = Returns r bv' \/
    (spelling tu node <> "" /\ enum_decl tu bn node bv = Returns r bv') ->
    registered_result r bv'.
Proof.
  intros tu bn fuel dt node bv r bv' [H | [H | [H | [H | [H | [H | [Hn H]]]]]]].
  - eapply pointer_type_registered; exact H.
  - eapply constantarray_type_registered; exact H.
  - eapply typedef_decl_registered; exact H.
  - eapply var_decl_registered; exact H.
  - eapply function_decl_registered; exact H.
  - eapply struct_decl_registered; exact H.
  - eapply enum_decl_named_registered; [exact Hn | exact H].
Qed.

Lemma registering_handlers_register_what_they_return_witness :
  exists bv',
    var_decl Declarators.tu Build.example_bn 1 Build.empty_view =
      Returns (Some ("x", TBase "int")) bv' /\
    registered_result (Some ("x", TBase "int")) bv'.
Proof.
  eexists. split.
  - reflexivity.
  - apply (registering_handlers_register_what_they_return
             Declarators.tu Build.example_bn 0
             (define_type Declarators.tu Build.example_bn 0) 1 Build.empty_view).
    right. right. right. left. reflexivity.
Defined.

(** C3 fails as stated: for [int xs[]] [incompletearray_type] returns the
    pair [("xs", array of 4096 int)] and the view holds nothing under
    ["xs"]. *)
Lemma incompletearray_type_result_not_registered_counterexample :
  result_of (incompletearray_type Declarators.tu Build.example_bn
               (define_type Declarators.tu Build.example_bn 1) 2 Build.empty_view) =
    Some (inl (Some ("xs", TArray (TBase "int") 4096))) /\
  registered_after (incompletearray_type Declarators.tu Build.example_bn
                      (define_type Declarators.tu Build.example_bn 1) 2
                      Build.empty_view) "xs" = None.
Proof. split; vm_compute; reflexivity. Qed.

(** ** The null cursor *)

(** Decide the comparisons of kinds that are between constructors. *)
Ltac eval_kinds :=
  repeat match goal with
    | |- context [TypeKind_eqb ?a ?b] =>
        let v := eval vm_compute in (TypeKind_eqb a b) in
        match v with
        | true => change (TypeKind_eqb a b) with true
        | false => change (TypeKind_eqb a b) with false
        end
    | |- context [CursorKind_eqb ?a ?b] =>
        let v := eval vm_compute in (CursorKind_eqb a b) in
        match v with
        | true => change (CursorKind_eqb a b) with true
        | false => change (CursorKind_eqb a b) with false
        end
    end.

(** [define_type] on what [get_declaration] answers for a type with no
    declaration: no rule applies and the result is [None]. *)
Lemma define_type_no_declaration :
  forall (tu : TranslationUnit) (bn : BinaryNinja) (fuel : nat) (d : Cursor)
         (bv : BinaryView),
    kind tu d = NO_DECL_FOUND ->
    spelling tu d = "" ->
    tkind tu (type tu d) = INVALID ->
    is_anonymous tu d = false ->
    define_type tu bn (S fuel) d bv =
      Returns None
        (logged bv [Debug "define_type: Dispatch for" [tspelling tu (type tu d); ""];
                    Info "no handler for cursorKind" []]).
Proof.
  intros tu bn fuel d bv Hkind Hname Hty Hanon.
  cbn [define_type]. unfold define_type_body.
  rewrite Hname, Hanon, Hkind.
  unfold check_if_base_type, kind_in_base_types. rewrite Hty.
  cbn [existsb base_types]. eval_kinds. cbn.
  unfold logged. cbn. rewrite <- app_assoc. reflexivity.
Qed.

(** ** [check_if_base_type] *)

Lemma check_if_base_type_false :
  forall (tu : TranslationUnit) (t : CType) (bv : BinaryView),
    kind_in_base_types tu t = false ->
    check_if_base_type tu t bv = Returns false bv.
Proof. intros tu t bv H. unfold check_if_base_type. rewrite H. reflexivity. Qed.

Lemma check_if_base_type_true :
  forall (tu : TranslationUnit) (t : CType) (bv : BinaryView),
    kind_in_base_types tu t = true ->
    check_if_base_type tu t bv =
      Returns true
        (logged bv [Debug "check_if_base_type: is a base type." [tspelling tu t]]).
Proof. intros tu t bv H. unfold check_if_base_type. rewrite H. reflexivity. Qed.

Lemma constantarray_not_base :
  forall (tu : TranslationUnit) (t : CType),
    tkind tu t = CONSTANTARRAY -> kind_in_base_types tu t = false.
Proof. intros tu t H. unfold kind_in_base_types. rewrite H. reflexivity. Qed.

Lemma pointer_not_base :
  forall (tu : TranslationUnit) (t : CType),
    tkind tu t = POINTER -> kind_in_base_types tu t = false.
Proof. intros tu t H. unfold kind_in_base_types. rewrite H. reflexivity. Qed.

Lemma base_not_pointer :
  forall (tu : TranslationUnit) (t : CType),
    kind_in_base_types tu t = true -> TypeKind_eqb (tkind tu t) POINTER = false.
Proof.
  intros tu t H. unfold kind_in_base_types in H.
  destruct (tkind tu t); try reflexivity; discriminate H.
Qed.

(** ** [constantarray_type] *)

(** C6, what the code does from three dimensions on: the element of the
    element is again a fixed array, which is not a base type, so the
    handler asks [define_type] for that array type's declaration.  There is
    none; [define_type] answers [None], and unpacking it raises
    [TypeError].  Nothing is registered. *)
Theorem constantarray_type_three_dimensions_raises :
  forall (tu : TranslationUnit) (bn : BinaryNinja) (fuel : nat) (node : Cursor)
         (bv : BinaryView),
    let e1 := get_array_element_type tu (type tu node) in
    let e2 := get_array_element_type tu e1 in
    let d := get_declaration tu e2 in
    tkind tu e1 = CONSTANTARRAY ->
    tkind tu e2 = CONSTANTARRAY ->
    types bv !! tspelling tu e1 = None ->
    is_anonymous tu (get_declaration tu e1) = false ->
    kind tu d = NO_DECL_FOUND ->
    spelling tu d = "" ->
    tkind tu (type tu d) = INVALID ->
    is_anonymous tu d = false ->
    exists bv',
      constantarray_type tu bn (define_type tu bn (S fuel)) node bv =
        Raises (TypeError "cannot unpack non-iterable NoneType object") bv' /\
      types bv' = types bv.
Proof.
  intros tu bn fuel node bv e1 e2 d He1 He2 Hreg Hanon1 Hkind Hname Hty Hanon.
  unfold constantarray_type. fold e1.
  rewrite (bind_eq_Returns _ _ _ _ _ (log_debug_eq _ _ _)).
  rewrite (bind_eq_Returns _ _ _ _ _ (log_debug_eq _ _ _)).
  unfold bind at 1. unfold get_type_by_name at 1. cbn [logged types].
  rewrite Hreg.
  unfold constantarray_type_unregistered. fold e1. rewrite Hanon1.
  unfold bind at 1. unfold bind at 1.
  rewrite (check_if_base_type_false _ _ _ (constantarray_not_base _ _ He1)).
  unfold constantarray_type_declared. fold e1. rewrite He1. eval_kinds. cbv iota.
  fold e2. unfold bind at 1. unfold bind at 1.
  rewrite (check_if_base_type_false _ _ _ (constantarray_not_base _ _ He2)).
  unfold ret at 1. fold d.
  unfold define_type_or_None. unfold bind at 1. unfold bind at 1.
  rewrite (define_type_no_declaration tu bn fuel d _ Hkind Hname Hty Hanon).
  unfold unpack, raise.
  eexists. split; reflexivity.
Qed.

Lemma constantarray_type_three_dimensions_raises_witness :
  exists bv',
    constantarray_type Declarators.tu Build.example_bn
      (define_type Declarators.tu Build.example_bn 1) 6 Build.empty_view =
      Raises (TypeError "cannot unpack non-iterable NoneType object") bv' /\
    types bv' = types Build.empty_view.
Proof.
  apply (constantarray_type_three_dimensions_raises
           Declarators.tu Build.example_bn 0 6 Build.empty_view);
    reflexivity.
Defined.

(** Two dimensions over a base type come out as nested arrays, outer
    dimension first. *)
Example constantarray_type_two_dimensions :
  result_of (define_type Declarators.tu Build.example_bn 2 5 Build.empty_view) =
    Some (inl (Some ("m", TArray (TArray (TBase "int") 3) 2))).
Proof. vm_compute. reflexivity. Qed.

(** ** [incompletearray_type] *)



(** An array of pointers to a structure, [struct S *nodes[];]: the
    dispatcher defines [S], and the array is of pointers to it. *)
Example incompletearray_type_pointers_to_struct :
  let S := TStructure (Some 0) (Some 1) [] StructStructureType in
  let run :=
    incompletearray_type Declarators.tu Build.example_bn
      (define_type Declarators.tu Build.example_bn 3) 10 Build.empty_view in
  result_of run = Some (inl (Some ("nodes", TArray (TPointer S) 4096))) /\
  registered_after run "S" = Some S /\
  registered_after run "nodes" = None.
Proof. repeat split; vm_compute; reflexivity. Qed.


(** ** [pointer_type] *)

Lemma nested_pointer_walk_chain :
  forall (tu : TranslationUnit) (depth fuel count : nat) (t base : CType),
    pointer_chain tu depth t base ->
    kind_in_base_types tu base = true ->
    (depth <= fuel)%nat ->
    nested_pointer_walk tu fuel count t = Some ((count + depth)%nat, base).
Proof.
  intros tu depth. induction depth as [| depth IH]; intros fuel count t base Hchain Hbase Hfuel.
  - cbn in Hchain. subst t.
    destruct fuel; cbn [nested_pointer_walk];
      rewrite (base_not_pointer _ _ Hbase); rewrite Nat.add_0_r; reflexivity.
  - destruct Hchain as [Hptr Hchain].
    destruct fuel as [| fuel]; [lia |].
    cbn [nested_pointer_walk]. rewrite (TypeKind_eqb_true _ _ Hptr).
    rewrite (IH fuel (S count) _ base Hchain Hbase) by lia.
    f_equal. f_equal. lia.
Qed.

Lemma iter_TPointer_inside :
  forall (n : nat) (t : BnType),
    Nat.iter n TPointer (TPointer t) = TPointer (Nat.iter n TPointer t).
Proof.
  intros n t. induction n as [| n IH]; [reflexivity |].
  cbn [Nat.iter nat_rect]. unfold Nat.iter in IH. rewrite IH. reflexivity.
Qed.

(** C4, what the code does with a chain of three or more pointer levels
    over a base type: the walk counts one level less than the declaration
    has, and three more wrappers are put around the counted ones, so a
    declaration with [levels] stars is lowered to [levels + 2] nested
    pointers ([int ****] to six). *)
Theorem pointer_type_chain_has_two_levels_too_many :
  forall (tu : TranslationUnit) (bn : BinaryNinja) (fuel : nat)
         (dt : Cursor -> Py Result) (node : Cursor) (bv : BinaryView)
         (levels : nat) (base : CType) (tb : BnType) (nm : string),
    (3 <= levels)%nat ->
    pointer_chain tu levels (type tu node) base ->
    kind_in_base_types tu base = true ->
    kind tu (get_declaration tu (get_pointee tu (type tu node))) = NO_DECL_FOUND ->
    (levels <= fuel)%nat ->
    bn_parse_type_string bn (types bv) (tspelling tu base) = inr (tb, nm) ->
    bn_define_user_type_error bn (types bv) (spelling tu node)
      (Nat.iter (levels + 2) TPointer tb) = None ->
    exists bv',
      pointer_type tu bn fuel dt node bv =
        Returns (Some (spelling tu node, Nat.iter (levels + 2) TPointer tb)) bv' /\
      types bv' !! spelling tu node = Some (Nat.iter (levels + 2) TPointer tb).
Proof.
  intros tu bn fuel dt node bv levels base tb nm Hlevels Hchain Hbase Hnodecl
         Hfuel Hparse Hok.
  destruct levels as [| [| [| depth]]]; try lia.
  destruct Hchain as (Hp0 & Hp1 & Hp2 & Hchain).
  set (t1 := get_pointee tu (type tu node)) in *.
  set (t2 := get_pointee tu t1) in *.
  assert (Hwalk : nested_pointer_walk tu fuel 1 t2 = Some (S (S depth), base)).
  { rewrite (nested_pointer_walk_chain tu (S depth) fuel 1 t2 base).
    - reflexivity.
    - split; assumption.
    - exact Hbase.
    - lia. }
  assert (Hiter : TPointer (TPointer (Nat.iter (S (S depth)) TPointer (TPointer tb)))
                  = Nat.iter (S (S (S depth)) + 2) TPointer tb).
  { rewrite iter_TPointer_inside.
    replace (S (S (S depth)) + 2)%nat with (S (S (S (S (S depth))))) by lia.
    reflexivity. }
  unfold pointer_type.
  rewrite (bind_eq_Returns _ _ _ _ _ (log_debug_eq _ _ _)).
  rewrite Hp0. eval_kinds. cbv iota.
  unfold bind at 1. unfold ret at 1. fold t1.
  unfold pointer_type_pointer.
  unfold bind at 1. unfold bind at 1.
  rewrite (check_if_base_type_false _ _ _ (pointer_not_base _ _ Hp1)).
  rewrite Hnodecl. eval_kinds. cbv iota.
  rewrite (bind_eq_Returns _ _ _ _ _ (log_debug_eq _ _ _)).
  rewrite Hp1. eval_kinds. cbv iota.
  unfold pointer_to_pointer. fold t2.
  unfold bind at 1. unfold bind at 1.
  rewrite (check_if_base_type_false _ _ _ (pointer_not_base _ _ Hp2)).
  rewrite (TypeKind_eqb_true _ _ Hp2). rewrite Hwalk.
  unfold bind at 1. unfold bind at 1.
  rewrite (check_if_base_type_true _ _ _ Hbase).
  unfold bind at 1. unfold bind at 1. unfold parse_type_string.
  cbn [logged types]. rewrite Hparse.
  unfold ret at 1. unfold ret at 1. unfold ret at 1.
  rewrite Hiter.
  unfold bind, define_user_type, log_debug, ret. cbn [logged types]. rewrite Hok.
  eexists. split; [reflexivity |]. cbn [types]. apply lookup_insert_eq.
Qed.

Lemma pointer_type_chain_has_two_levels_too_many_witness :
  exists bv',
    pointer_type Declarators.tu Build.example_bn 4
                 (define_type Declarators.tu Build.example_bn 4) 7 Build.empty_view =
      Returns (Some ("q", TPointer (TPointer (TPointer (TPointer (TPointer (TPointer
                            (TBase "int")))))))) bv' /\
    types bv' !! "q" =
      Some (TPointer (TPointer (TPointer (TPointer (TPointer (TPointer
              (TBase "int"))))))).
Proof.
  apply (pointer_type_chain_has_two_levels_too_many
           Declarators.tu Build.example_bn 4
           (define_type Declarators.tu Build.example_bn 4) 7 Build.empty_view
           4 1 (TBase "int") "").
  - lia.
  - repeat split.
  - reflexivity.
  - reflexivity.
  - lia.
  - reflexivity.
  - reflexivity.
Defined.

(** Two levels come out one short: [int **] is registered as a pointer to
    [int]. *)
Example pointer_type_two_levels :
  result_of (pointer_type Declarators.tu Build.example_bn 4
               (define_type Declarators.tu Build.example_bn 4) 8 Build.empty_view) =
    Some (inl (Some ("r", TPointer (TBase "int")))).
Proof. vm_compute. reflexivity. Qed.

(** ** [pp] *)

Lemma for_list_app {A B} (body : A -> Py B) (l1 l2 : list A) (bv : BinaryView) :
  for_list body (l1 ++ l2) bv =
    (let* ys1 := for_list body l1 in
     let* ys2 := for_list body l2 in
     ret (ys1 ++ ys2)%list) bv.
Proof.
  revert bv. induction l1 as [| x l1 IH]; intros bv.
  - cbn [app for_list]. unfold bind, ret.
    destruct (for_list body l2 bv); reflexivity.
  - cbn [app for_list]. unfold bind.
    destruct (body x bv) as [y bv1 | e bv1 |]; try reflexivity.
    fold (bind (for_list body (l1 ++ l2)) (fun ys => ret (y :: ys)) bv1).
    unfold bind at 1. rewrite IH. unfold bind, ret.
    destruct (for_list body l1 bv1) as [ys1 bv2 | e bv2 |]; try reflexivity.
    destruct (for_list body l2 bv2) as [ys2 bv3 | e bv3 |]; reflexivity.
Qed.

Section TopLevelPass.

Variable tu : TranslationUnit.
Variable bn : BinaryNinja.
Variable fuel : nat.

Lemma pp_define_cons_Returns :
  forall node nodes bv r bv1,
    define_type tu bn fuel node (defining tu bv node) = Returns r bv1 ->
    pp_define tu bn fuel (node :: nodes) bv = pp_define tu bn fuel nodes bv1.
Proof.
  intros node nodes bv r bv1 H. unfold pp_define. cbn [for_list].
  unfold bind at 1. unfold bind at 1. unfold bind at 1.
  rewrite log_debug_eq. fold (defining tu bv node). rewrite H.
  unfold bind, ret.
  destruct (for_list _ nodes bv1); reflexivity.
Qed.

Lemma pp_define_cons_Raises :
  forall node nodes bv e bv1,
    define_type tu bn fuel node (defining tu bv node) = Raises e bv1 ->
    pp_define tu bn fuel (node :: nodes) bv = Raises e bv1.
Proof.
  intros node nodes bv e bv1 H. unfold pp_define. cbn [for_list].
  unfold bind at 1. unfold bind at 1. unfold bind at 1.
  rewrite log_debug_eq. fold (defining tu bv node). rewrite H. reflexivity.
Qed.

Lemma pp_define_app :
  forall pre post bv bv1,
    pp_define tu bn fuel pre bv = Returns tt bv1 ->
    pp_define tu bn fuel (pre ++ post) bv = pp_define tu bn fuel post bv1.
Proof.
  intros pre post bv bv1. unfold pp_define.
  unfold bind at 1. intros H.
  unfold bind at 1. rewrite for_list_app. unfold bind at 1.
  destruct (for_list _ pre bv) as [ys bv2 | e bv2 |]; try discriminate.
  injection H as <-. unfold bind, ret.
  destruct (for_list _ post bv2); reflexivity.
Qed.

End TopLevelPass.

(** C7, as the code has it.  [pp] hands the top-level nodes to
    [define_type] one after the other and drops what comes back: after a
    node whose resolution returns, a pair or [None] alike, the loop goes on
    with the next sibling.  Nothing in [pp] catches an exception: when
    [define_type] raises, [pp] raises the same exception to its caller and
    the remaining siblings are not visited. *)
Theorem pp_goes_on_after_absent_and_propagates_exceptions :
  forall (tu : TranslationUnit) (bn : BinaryNinja) (fuel : nat)
         (bv0 bv : BinaryView) (pre : list Cursor) (node : Cursor)
         (post : list Cursor) (bv1 : BinaryView),
    pre_define_types bn ntdll bv0 = Returns tt bv ->
    get_children tu (tu_cursor tu) = (pre ++ node :: post)%list ->
    pp_define tu bn fuel pre bv = Returns tt bv1 ->
    (forall r bv2,
        define_type tu bn fuel node (defining tu bv1 node) = Returns r bv2 ->
        pp tu bn fuel bv0 =
          (pp_define tu bn fuel post >> pp_export tu (pre ++ node :: post)%list) bv2)
    /\
    (forall e bv2,
        define_type tu bn fuel node (defining tu bv1 node) = Raises e bv2 ->
        pp tu bn fuel bv0 = Raises e bv2).
Proof.
  intros tu bn fuel bv0 bv pre node post bv1 Hpre Hchildren Hbefore.
  split.
  - intros r bv2 Hnode. unfold pp. rewrite Hchildren.
    rewrite (bind_eq_Returns _ _ _ _ _ Hpre).
    unfold bind at 1. rewrite (pp_define_app tu bn fuel pre _ bv bv1 Hbefore).
    rewrite (pp_define_cons_Returns tu bn fuel node post bv1 r bv2 Hnode).
    reflexivity.
  - intros e bv2 Hnode. unfold pp. rewrite Hchildren.
    rewrite (bind_eq_Returns _ _ _ _ _ Hpre).
    unfold bind at 1. rewrite (pp_define_app tu bn fuel pre _ bv bv1 Hbefore).
    rewrite (pp_define_cons_Raises tu bn fuel node post bv1 e bv2 Hnode).
    reflexivity.
Qed.

Lemma pp_goes_on_after_absent_and_propagates_exceptions_witness :
  exists bv2,
    pp TopLevel.tu Build.accepting_bn 3 Build.empty_view =
      Raises (TypeError "cannot unpack non-iterable NoneType object") bv2.
Proof.
  exists (view_after (define_type TopLevel.tu Build.accepting_bn 3 6
                        (defining TopLevel.tu TopLevel.prepared 6))).
  apply (proj2 (pp_goes_on_after_absent_and_propagates_exceptions
                  TopLevel.tu Build.accepting_bn 3 Build.empty_view
                  TopLevel.prepared [] 6%nat [5%nat] TopLevel.prepared
                  eq_refl eq_refl eq_refl)).
  vm_compute. reflexivity.
Defined.

(** C7 fails as stated: the header declares [a3] and then [m].  Resolving
    [a3] raises; [pp] lets the exception through, and [m], which resolves
    on its own, is never handed to the dispatcher. *)
Lemma pp_exception_reaches_caller_counterexample :
  get_children TopLevel.tu (tu_cursor TopLevel.tu) = [6%nat; 5%nat] /\
  result_of (pp TopLevel.tu Build.accepting_bn 3 Build.empty_view) =
    Some (inr (TypeError "cannot unpack non-iterable NoneType object")) /\
  count_debug "DEFINING NODE:"
              (log_after (pp TopLevel.tu Build.accepting_bn 3 Build.empty_view)) = 1%nat /\
  registered_after (pp TopLevel.tu Build.accepting_bn 3 Build.empty_view) "m" = None /\
  result_of (define_type TopLevel.tu Build.accepting_bn 3 5 TopLevel.prepared) =
    Some (inl (Some ("m", TArray (TArray (TNamedReference "int") 3) 2))).
Proof. repeat split; vm_compute; reflexivity. Qed.

(** ** [xxhash.xxh64_hexdigest] and [define_anonymous_type] *)

(** The library's published check values. *)
Example xxh64_hexdigest_empty : XXH64.xxh64_hexdigest "" = "ef46db3751d8e999".
Proof. vm_compute. reflexivity. Qed.

Example xxh64_hexdigest_a : XXH64.xxh64_hexdigest "a" = "d24ec4f1a98c6e5b".
Proof. vm_compute. reflexivity. Qed.

Example xxh64_hexdigest_abc : XXH64.xxh64_hexdigest "abc" = "44bc2cf5ad770999".
Proof. vm_compute. reflexivity. Qed.

Example xxh64_hexdigest_xxhash : XXH64.xxh64_hexdigest "xxhash" = "32dd38952c4bc720".
Proof. vm_compute. reflexivity. Qed.

Example xxh64_hexdigest_spammish :
  XXH64.xxh64_hexdigest "Nobody inspects the spammish repetition" = "fbcea83c8a378bf1".
Proof. vm_compute. reflexivity. Qed.

Lemma append_same_prefix (p a b : string) : p +:+ a = p +:+ b -> a = b.
Proof.
  induction p as [| c p IH]; intros H.
  - exact H.
  - cbn [String.append] in H. injection H as H. apply IH. exact H.
Qed.

Lemma anon_name_eq_iff (s1 s2 : string) :
  anon_name s1 = anon_name s2 <->
  XXH64.xxh64_hexdigest s1 = XXH64.xxh64_hexdigest s2.
Proof.
  unfold anon_name. split.
  - apply append_same_prefix.
  - intros H. rewrite H. reflexivity.
Qed.

Lemma define_anonymous_type_name :
  forall (tu : TranslationUnit) (bn : BinaryNinja) (dt : Cursor -> Py Result)
         (node : Cursor) (bv : BinaryView) (r : Result) (bv' : BinaryView),
    define_anonymous_type tu bn dt node bv = Returns r bv' ->
    exists t, r = Some (anon_name (tspelling tu (type tu node)), t).
Proof.
  intros tu bn dt node bv r bv' H. unfold define_anonymous_type in H.
  apply bind_Returns in H as (u & bv1 & _ & H).
  apply bind_Returns in H as (members & bv2 & _ & H).
  injection H as <- <-. eexists. reflexivity.
Qed.

(** An anonymous type without fields always gets its name. *)
Lemma define_anonymous_type_without_fields :
  forall (tu : TranslationUnit) (bn : BinaryNinja) (dt : Cursor -> Py Result)
         (node : Cursor) (bv : BinaryView),
    get_fields tu (type tu node) = [] ->
    exists t bv',
      define_anonymous_type tu bn dt node bv =
        Returns (Some (anon_name (tspelling tu (type tu node)), t)) bv' /\
      types bv' = types bv.
Proof.
  intros tu bn dt node bv Hfields. unfold define_anonymous_type.
  rewrite Hfields. eexists. eexists. split; reflexivity.
Qed.

(** C9, as the code has it: the name [define_anonymous_type] returns is
    ["anon_"] followed by the XXH64 hex digest of the node's type spelling.
    Two nodes with the same type spelling get the same name, and two nodes
    get different names exactly when the digests of their type spellings
    differ. *)
Theorem define_anonymous_type_names_by_digest :
  forall (tu : TranslationUnit) (bn : BinaryNinja) (dt : Cursor -> Py Result)
         (node1 node2 : Cursor) (bv1 bv2 : BinaryView)
         (r1 r2 : Result) (bv1' bv2' : BinaryView),
    define_anonymous_type tu bn dt node1 bv1 = Returns r1 bv1' ->
    define_anonymous_type tu bn dt node2 bv2 = Returns r2 bv2' ->
    exists name1 t1 name2 t2,
      r1 = Some (name1, t1) /\ r2 = Some (name2, t2) /\
      name1 = "anon_" +:+ XXH64.xxh64_hexdigest (tspelling tu (type tu node1)) /\
      name2 = "anon_" +:+ XXH64.xxh64_hexdigest (tspelling tu (type tu node2)) /\
      (tspelling tu (type tu node1) = tspelling tu (type tu node2) -> name1 = name2) /\
      (name1 <> name2 <->
       XXH64.xxh64_hexdigest (tspelling tu (type tu node1)) <>
       XXH64.xxh64_hexdigest (tspelling tu (type tu node2))).
Proof.
  intros tu bn dt node1 node2 bv1 bv2 r1 r2 bv1' bv2' H1 H2.
  apply define_anonymous_type_name in H1 as [t1 ->].
  apply define_anonymous_type_name in H2 as [t2 ->].
  exists (anon_name (tspelling tu (type tu node1))), t1,
         (anon_name (tspelling tu (type tu node2))), t2.
  repeat split; try reflexivity.
  - intros Hsame. rewrite Hsame. reflexivity.
  - intros Hne Hd. apply Hne. apply anon_name_eq_iff. exact Hd.
  - intros Hne Hn. apply Hne. apply anon_name_eq_iff. exact Hn.
Qed.

Lemma define_anonymous_type_names_by_digest_witness :
  exists name1 t1 name2 t2,
    result_of (define_anonymous_type Anonymous.tu Build.example_bn
                 (define_type Anonymous.tu Build.example_bn 2) 1 Build.empty_view)
      = Some (inl (Some (name1, t1))) /\
    result_of (define_anonymous_type Anonymous.tu Build.example_bn
                 (define_type Anonymous.tu Build.example_bn 2) 2 Build.empty_view)
      = Some (inl (Some (name2, t2))) /\
    (name1 <> name2 <->
     XXH64.xxh64_hexdigest Anonymous.spelling1 <>
     XXH64.xxh64_hexdigest Anonymous.spelling2).
Proof.
  destruct (define_anonymous_type_names_by_digest
              Anonymous.tu Build.example_bn
              (define_type Anonymous.tu Build.example_bn 2) 1 2
              Build.empty_view Build.empty_view
              (Some (anon_name Anonymous.spelling1,
                     TStructure (Some 4) (Some 4) [(TBase "int", "a")]
                                StructStructureType))
              (Some (anon_name Anonymous.spelling2,
                     TStructure (Some 1) (Some 1) [(TBase "char", "b")]
                                StructStructureType))
              (view_after (define_anonymous_type Anonymous.tu Build.example_bn
                             (define_type Anonymous.tu Build.example_bn 2) 1
                             Build.empty_view))
              (view_after (define_anonymous_type Anonymous.tu Build.example_bn
                             (define_type Anonymous.tu Build.example_bn 2) 2
                             Build.empty_view)))
    as (name1 & t1 & name2 & t2 & E1 & E2 & _ & _ & _ & Hiff).
  - vm_compute. reflexivity.
  - vm_compute. reflexivity.
  - exists name1, t1, name2, t2.
    injection E1 as <- <-. injection E2 as <- <-.
    split; [vm_compute; reflexivity |]. split; [vm_compute; reflexivity |].
    exact Hiff.
Defined.

(** C9 fails as stated: the two nodes have different type spellings (and
    different members), and [define_anonymous_type] gives both the name
    [anon_0a2ae66ff1648d32]. *)
Lemma define_anonymous_type_distinct_spellings_same_name_counterexample :
  tspelling Anonymous.tu (type Anonymous.tu 1) <>
    tspelling Anonymous.tu (type Anonymous.tu 2) /\
  result_of (define_anonymous_type Anonymous.tu Build.example_bn
               (define_type Anonymous.tu Build.example_bn 2) 1 Build.empty_view) =
    Some (inl (Some ("anon_0a2ae66ff1648d32",
                     TStructure (Some 4) (Some 4) [(TBase "int", "a")]
                                StructStructureType))) /\
  result_of (define_anonymous_type Anonymous.tu Build.example_bn
               (define_type Anonymous.tu Build.example_bn 2) 2 Build.empty_view) =
    Some (inl (Some ("anon_0a2ae66ff1648d32",
                     TStructure (Some 1) (Some 1) [(TBase "char", "b")]
                                StructStructureType))).
Proof.
  split; [vm_compute; discriminate |].
  split; vm_compute; reflexivity.
Qed.

(* ===================================================================== *)
(** * Further properties of the handlers *)
(* ===================================================================== *)

(** ** No name is ever dropped from the view *)

Lemma keeps_names_ret {A} (a : A) : keeps_names (ret a).
Proof. intros bv name H. exact H. Qed.

Lemma keeps_names_raise {A} (e : Exception) : keeps_names (@raise A e).
Proof. intros bv name H. exact H. Qed.

Lemma keeps_names_out_of_fuel {A} : keeps_names (@out_of_fuel A).
Proof. intros bv. exact I. Qed.

Lemma keeps_names_bind {A B} (m : Py A) (k : A -> Py B) :
  keeps_names m -> (forall a, keeps_names (k a)) -> keeps_names (bind m k).
Proof.
  intros Hm Hk bv. unfold bind. specialize (Hm bv).
  destruct (m bv) as [a bv1 | e bv1 |]; cbn in *; try exact Hm; try exact I.
  specialize (Hk a bv1).
  destruct (k a bv1) as [b bv2 | e bv2 |]; cbn in *; try exact I;
    intros name H; apply Hk, Hm, H.
Qed.

Lemma keeps_names_try_except {A} (m : Py A) (h : Exception -> Py A) :
  keeps_names m -> (forall e, keeps_names (h e)) -> keeps_names (try_except m h).
Proof.
  intros Hm Hh bv. unfold try_except. specialize (Hm bv).
  destruct (m bv) as [a bv1 | e bv1 |]; cbn in *; try exact Hm; try exact I.
  specialize (Hh e bv1).
  destruct (h e bv1) as [b bv2 | e2 bv2 |]; cbn in *; try exact I;
    intros name H; apply Hh, Hm, H.
Qed.

Lemma keeps_names_log_debug text args : keeps_names (log_debug text args).
Proof. intros bv name H. exact H. Qed.

Lemma keeps_names_log_info text args : keeps_names (log_info text args).
Proof. intros bv name H. exact H. Qed.

Lemma keeps_names_unpack r : keeps_names (unpack r).
Proof. destruct r; [apply keeps_names_ret | apply keeps_names_raise]. Qed.

Lemma keeps_names_for_list {A B} (body : A -> Py B) (l : list A) :
  (forall x, keeps_names (body x)) -> keeps_names (for_list body l).
Proof.
  intros Hbody. induction l as [| x l IH]; cbn [for_list].
  - apply keeps_names_ret.
  - apply keeps_names_bind; [apply Hbody | intros y].
    apply keeps_names_bind; [exact IH | intros ys]. apply keeps_names_ret.
Qed.

Section KeepsNames.

Variable tu : TranslationUnit.
Variable bn : BinaryNinja.

Lemma keeps_names_get_type_by_name name : keeps_names (get_type_by_name name).
Proof. intros bv n H. exact H. Qed.

Lemma keeps_names_define_user_type name t : keeps_names (define_user_type bn name t).
Proof.
  intros bv. unfold define_user_type.
  destruct (bn_define_user_type_error bn (types bv) name t); cbn.
  - intros n H. exact H.
  - intros n H. destruct (decide (name = n)) as [-> | Hne].
    + rewrite lookup_insert_eq. eexists. reflexivity.
    + rewrite lookup_insert_ne by exact Hne. exact H.
Qed.

Lemma keeps_names_parse_type_string s : keeps_names (parse_type_string bn s).
Proof.
  intros bv. unfold parse_type_string.
  destruct (bn_parse_type_string bn (types bv) s); cbn; intros n H; exact H.
Qed.

Lemma keeps_names_check_if_base_type t : keeps_names (check_if_base_type tu t).
Proof.
  unfold check_if_base_type. destruct (kind_in_base_types tu t).
  - apply keeps_names_bind; [apply keeps_names_log_debug | intros _].
    apply keeps_names_ret.
  - apply keeps_names_ret.
Qed.

Lemma keeps_names_is_recursive_field f : keeps_names (is_recursive_field tu f).
Proof.
  unfold is_recursive_field.
  apply keeps_names_bind; [apply keeps_names_log_debug | intros _].
  destruct (TypeKind_eqb _ _); [destruct (String.eqb _ _) |]; apply keeps_names_ret.
Qed.

Lemma keeps_names_py_assert condition : keeps_names (py_assert condition).
Proof.
  unfold py_assert. destruct condition;
    [apply keeps_names_ret | apply keeps_names_raise].
Qed.

Lemma keeps_names_enum_value n : keeps_names (enum_value tu n).
Proof.
  unfold enum_value.
  apply keeps_names_bind; [apply keeps_names_py_assert | intros _].
  apply keeps_names_ret.
Qed.

Lemma keeps_names_argument_types t : keeps_names (argument_types tu t).
Proof.
  unfold argument_types.
  apply keeps_names_bind; [apply keeps_names_py_assert | intros _].
  apply keeps_names_ret.
Qed.

Lemma keeps_names_is_function_variadic t : keeps_names (is_function_variadic tu t).
Proof.
  unfold is_function_variadic.
  apply keeps_names_bind; [apply keeps_names_py_assert | intros _].
  apply keeps_names_ret.
Qed.

End KeepsNames.

(** Break a goal [keeps_names m] down along the structure of [m]. *)
Ltac keeps_names_step :=
  match goal with
  | |- keeps_names (bind _ _) => apply keeps_names_bind; [| intros ?]
  | |- keeps_names (try_except _ _) => apply keeps_names_try_except; [| intros ?]
  | |- keeps_names (ret _) => apply keeps_names_ret
  | |- keeps_names (raise _) => apply keeps_names_raise
  | |- keeps_names out_of_fuel => apply keeps_names_out_of_fuel
  | |- keeps_names (log_debug _ _) => apply keeps_names_log_debug
  | |- keeps_names (log_info _ _) => apply keeps_names_log_info
  | |- keeps_names (unpack _) => apply keeps_names_unpack
  | |- keeps_names (get_type_by_name _) => apply keeps_names_get_type_by_name
  | |- keeps_names (define_user_type _ _ _) => apply keeps_names_define_user_type
  | |- keeps_names (parse_type_string _ _) => apply keeps_names_parse_type_string
  | |- keeps_names (check_if_base_type _ _) => apply keeps_names_check_if_base_type
  | |- keeps_names (is_recursive_field _ _) => apply keeps_names_is_recursive_field
  | |- keeps_names (enum_value _ _) => apply keeps_names_enum_value
  | |- keeps_names (argument_types _ _) => apply keeps_names_argument_types
  | |- keeps_names (is_function_variadic _ _) =>
      apply keeps_names_is_function_variadic
  | |- keeps_names (for_list _ _) => apply keeps_names_for_list; intros ?
  | H : forall n, keeps_names (?dt n) |- keeps_names (?dt _) => apply H
  | |- keeps_names (if ?b then _ else _) => destruct b
  | |- keeps_names (match ?x with _ => _ end) => destruct x
  end.

Ltac keeps_names_auto := repeat keeps_names_step.

Section KeepsNamesHandlers.

Variable tu : TranslationUnit.
Variable bn : BinaryNinja.
Variable dt : Cursor -> Py Result.
Hypothesis dt_keeps : forall n, keeps_names (dt n).

Lemma keeps_names_define_anonymous_type node :
  keeps_names (define_anonymous_type tu bn dt node).
Proof. unfold define_anonymous_type. keeps_names_auto. Qed.

Lemma keeps_names_function_decl node : keeps_names (function_decl tu bn dt node).
Proof.
  unfold function_decl, function_decl_typedef_param, function_decl_pointee_param,
    function_decl_param.
  keeps_names_auto.
Qed.

Lemma keeps_names_functionproto_type node :
  keeps_names (functionproto_type tu bn dt node).
Proof.
  unfold functionproto_type.
  destruct (_ || _); keeps_names_auto; apply keeps_names_function_decl.
Qed.

Lemma keeps_names_pointer_type fuel node :
  keeps_names (pointer_type tu bn fuel dt node).
Proof.
  unfold pointer_type, pointer_type_pointer, pointer_to_pointer.
  keeps_names_auto; try apply keeps_names_function_decl.
Qed.

Lemma keeps_names_constantarray_type node :
  keeps_names (constantarray_type tu bn dt node).
Proof.
  unfold constantarray_type, constantarray_type_unregistered,
    constantarray_type_declared, define_type_or_None.
  keeps_names_auto; try apply keeps_names_define_anonymous_type.
Qed.

Lemma keeps_names_incompletearray_type node :
  keeps_names (incompletearray_type tu bn dt node).
Proof. unfold incompletearray_type. keeps_names_auto. Qed.

Lemma keeps_names_typedef_decl node : keeps_names (typedef_decl tu bn node).
Proof.
  unfold typedef_decl, typedef_decl_undefined, typedef_decl_define,
    typedef_decl_recover.
  keeps_names_auto.
Qed.

Lemma keeps_names_var_decl node : keeps_names (var_decl tu bn node).
Proof. unfold var_decl. keeps_names_auto. Qed.

Lemma keeps_names_enum_decl node : keeps_names (enum_decl tu bn node).
Proof. unfold enum_decl. keeps_names_auto. Qed.

Lemma keeps_names_struct_decl node : keeps_names (struct_decl tu bn dt node).
Proof. unfold struct_decl, struct_decl_field. keeps_names_auto. Qed.

Lemma keeps_names_field_decl node : keeps_names (field_decl tu bn dt node).
Proof. unfold field_decl. keeps_names_auto. Qed.

Lemma keeps_names_define_type_body fuel node :
  keeps_names (define_type_body tu bn fuel dt node).
Proof.
  unfold define_type_body.
  keeps_names_auto;
    first [ apply keeps_names_define_anonymous_type
          | apply keeps_names_constantarray_type
          | apply keeps_names_incompletearray_type
          | apply keeps_names_functionproto_type
          | apply keeps_names_pointer_type
          | apply keeps_names_function_decl
          | apply keeps_names_typedef_decl
          | apply keeps_names_var_decl
          | apply keeps_names_enum_decl
          | apply keeps_names_struct_decl
          | apply keeps_names_field_decl ].
Qed.

End KeepsNamesHandlers.

Lemma keeps_names_define_type :
  forall (tu : TranslationUnit) (bn : BinaryNinja) (fuel : nat) (node : Cursor),
    keeps_names (define_type tu bn fuel node).
Proof.
  intros tu bn fuel. induction fuel as [| fuel IH]; intros node; cbn [define_type].
  - apply keeps_names_out_of_fuel.
  - apply keeps_names_define_type_body. exact IH.
Qed.

Lemma keeps_names_pre_define_types :
  forall (bn : BinaryNinja) (library : Library),
    keeps_names (pre_define_types bn library).
Proof.
  intros bn library. unfold pre_define_types. keeps_names_auto.
Qed.

Lemma keeps_names_pp :
  forall (tu : TranslationUnit) (bn : BinaryNinja) (fuel : nat),
    keeps_names (pp tu bn fuel).
Proof.
  intros tu bn fuel. unfold pp, pp_define, pp_export.
  keeps_names_auto;
    first [ apply keeps_names_pre_define_types | apply keeps_names_define_type ].
Qed.

(** X1: resolution never drops a name.  Whatever node [define_type] is
    given, and whether it returns or raises, every name the view held
    before is still held afterwards (its entry may have been replaced). *)
Theorem define_type_never_drops_a_name :
  forall (tu : TranslationUnit) (bn : BinaryNinja) (fuel : nat) (node : Cursor)
         (bv : BinaryView) (name : string),
    is_Some (types bv !! name) ->
    match define_type tu bn fuel node bv with
    | Returns _ bv' | Raises _ bv' => is_Some (types bv' !! name)
    | OutOfFuel => True
    end.
Proof.
  intros tu bn fuel node bv name H.
  pose proof (keeps_names_define_type tu bn fuel node bv) as Hkeeps.
  destruct (define_type tu bn fuel node bv); cbn in Hkeeps; try exact I;
    apply Hkeeps; exact H.
Qed.

Lemma define_type_never_drops_a_name_witness :
  match define_type CriticalSection.tu Build.example_bn 3 1 CriticalSection.seeded with
  | Returns _ bv' | Raises _ bv' => is_Some (types bv' !! "_RTL_CRITICAL_SECTION")
  | OutOfFuel => True
  end.
Proof.
  apply (define_type_never_drops_a_name
           CriticalSection.tu Build.example_bn 3 1 CriticalSection.seeded
           "_RTL_CRITICAL_SECTION").
  exists (structure_type Structure_new). reflexivity.
Defined.

(** X2: the whole pass never drops a name either: every name the view
    held when [pp] started is held when [pp] returns or raises. *)
Theorem pp_never_drops_a_name :
  forall (tu : TranslationUnit) (bn : BinaryNinja) (fuel : nat)
         (bv : BinaryView) (name : string),
    is_Some (types bv !! name) ->
    match pp tu bn fuel bv with
    | Returns _ bv' | Raises _ bv' => is_Some (types bv' !! name)
    | OutOfFuel => True
    end.
Proof.
  intros tu bn fuel bv name H.
  pose proof (keeps_names_pp tu bn fuel bv) as Hkeeps.
  destruct (pp tu bn fuel bv); cbn in Hkeeps; try exact I;
    apply Hkeeps; exact H.
Qed.

Lemma pp_never_drops_a_name_witness :
  match pp TopLevel.tu Build.accepting_bn 3 CriticalSection.seeded with
  | Returns _ bv' | Raises _ bv' => is_Some (types bv' !! "_RTL_CRITICAL_SECTION")
  | OutOfFuel => True
  end.
Proof.
  apply (pp_never_drops_a_name
           TopLevel.tu Build.accepting_bn 3 CriticalSection.seeded
           "_RTL_CRITICAL_SECTION").
  exists (structure_type Structure_new). reflexivity.
Defined.

(** ** [remove_compiler_directives] *)

Lemma string_app_assoc (a b c : string) : (a +:+ b) +:+ c = a +:+ (b +:+ c).
Proof.
  induction a as [| x a IH]; [reflexivity |].
  change (String x ((a +:+ b) +:+ c) = String x (a +:+ (b +:+ c))).
  rewrite IH. reflexivity.
Qed.

Lemma string_app_nil_r (a : string) : a +:+ "" = a.
Proof.
  induction a as [| x a IH]; [reflexivity |].
  change (String x (a +:+ "") = String x a).
  rewrite IH. reflexivity.
Qed.

Lemma no_space_app (a b : string) :
  no_space (a +:+ b) = no_space a && no_space b.
Proof.
  induction a as [| x a IH]; [reflexivity |].
  change (negb (PyStr.is_space x) && no_space (a +:+ b) =
          negb (PyStr.is_space x) && no_space a && no_space b).
  rewrite IH. apply andb_assoc.
Qed.

(** Reading a word: the characters pile up on the word in progress. *)
Lemma split_aux_word (w : string) :
  forall (cur rest : string),
    no_space w = true ->
    PyStr.split_aux cur (w +:+ rest) = PyStr.split_aux (cur +:+ w) rest.
Proof.
  induction w as [| c w IH]; intros cur rest Hw.
  - cbn [String.append]. rewrite string_app_nil_r. reflexivity.
  - cbn [no_space] in Hw. apply andb_true_iff in Hw as [Hc Hw].
    apply negb_true_iff in Hc.
    change (String c w +:+ rest) with (String c (w +:+ rest)).
    cbn [PyStr.split_aux]. rewrite Hc.
    rewrite IH by exact Hw.
    rewrite string_app_assoc. reflexivity.
Qed.

Lemma split_join_words (words : list string) :
  Forall is_word words ->
  PyStr.split (join_with_trailing_space words) = words.
Proof.
  unfold PyStr.split.
  induction 1 as [| w words [Hne Hw] _ IH]; [reflexivity |].
  cbn [join_with_trailing_space].
  rewrite split_aux_word by exact Hw.
  change ("" +:+ w) with w.
  change (" " +:+ join_with_trailing_space words)
    with (String " "%char (join_with_trailing_space words)).
  destruct w as [| c w]; [congruence |].
  cbn [PyStr.split_aux].
  change (PyStr.is_space " ") with true. cbv iota.
  rewrite IH. reflexivity.
Qed.

Lemma split_aux_words (s : string) :
  forall cur, no_space cur = true -> Forall is_word (PyStr.split_aux cur s).
Proof.
  induction s as [| c s IH]; intros cur Hcur; cbn [PyStr.split_aux].
  - destruct cur; [constructor |].
    constructor; [| constructor]. split; [discriminate | exact Hcur].
  - destruct (PyStr.is_space c) eqn:Hc.
    + destruct cur.
      * apply IH. reflexivity.
      * constructor; [split; [discriminate | exact Hcur] |].
        apply IH. reflexivity.
    + apply IH. rewrite no_space_app, Hcur. cbn [no_space]. rewrite Hc. reflexivity.
Qed.

Lemma split_words (s : string) : Forall is_word (PyStr.split s).
Proof. apply split_aux_words. reflexivity. Qed.

Lemma remove_compiler_directives_fold (words : list string) :
  forall acc,
    fold_left (fun sanitized_str str_token =>
                 if PyStr.mem str_token compiler_directives then sanitized_str
                 else sanitized_str +:+ str_token +:+ " ")
              words acc =
    acc +:+ join_with_trailing_space (List.filter not_a_directive words).
Proof.
  induction words as [| w words IH]; intros acc; cbn [fold_left List.filter].
  - cbn [join_with_trailing_space]. rewrite string_app_nil_r. reflexivity.
  - rewrite IH. unfold not_a_directive at 2.
    destruct (PyStr.mem w compiler_directives); cbn [negb].
    + reflexivity.
    + cbn [join_with_trailing_space]. rewrite !string_app_assoc. reflexivity.
Qed.

Lemma remove_compiler_directives_join (s : string) :
  remove_compiler_directives s =
    join_with_trailing_space (List.filter not_a_directive (PyStr.split s)).
Proof.
  unfold remove_compiler_directives. rewrite remove_compiler_directives_fold.
  reflexivity.
Qed.

Lemma Forall_filter_words (keep : string -> bool) (words : list string) :
  Forall is_word words -> Forall is_word (List.filter keep words).
Proof.
  induction 1 as [| w words Hw _ IH]; cbn [List.filter]; [constructor |].
  destruct (keep w); [constructor; assumption | assumption].
Qed.

(** X3: the words of what [remove_compiler_directives] returns are the
    words of its argument that are not compiler directives, in the same
    order: nothing else is removed, added or changed. *)
Theorem remove_compiler_directives_keeps_the_other_words :
  forall (type_str : string),
    PyStr.split (remove_compiler_directives type_str) =
      List.filter (fun str_token => negb (PyStr.mem str_token compiler_directives))
                  (PyStr.split type_str).
Proof.
  intros type_str. rewrite remove_compiler_directives_join.
  apply split_join_words. apply Forall_filter_words. apply split_words.
Qed.

Lemma filter_not_a_directive_twice (words : list string) :
  List.filter not_a_directive (List.filter not_a_directive words) =
    List.filter not_a_directive words.
Proof.
  induction words as [| w words IH]; cbn [List.filter]; [reflexivity |].
  destruct (not_a_directive w) eqn:E; cbn [List.filter]; [rewrite E, IH |];
    auto.
Qed.

(** X4: sanitizing is idempotent: a sanitized type string comes back
    unchanged, blanks included. *)
Theorem remove_compiler_directives_idempotent :
  forall (type_str : string),
    remove_compiler_directives (remove_compiler_directives type_str) =
      remove_compiler_directives type_str.
Proof.
  intros type_str.
  rewrite (remove_compiler_directives_join (remove_compiler_directives type_str)).
  rewrite (remove_compiler_directives_join type_str) at 1.
  rewrite split_join_words
    by (apply Forall_filter_words; apply split_words).
  rewrite filter_not_a_directive_twice.
  symmetry. apply remove_compiler_directives_join.
Qed.

(** The two directives are dropped wherever they stand. *)
Example remove_compiler_directives_unaligned :
  remove_compiler_directives "const __unaligned  struct _GUID *" =
    "const struct _GUID * ".
Proof. vm_compute. reflexivity. Qed.

(** ** The calling convention scan of [function_decl] *)

(** One step of the scan, as [scan_calling_convention] folds it. *)
Lemma scan_calling_convention_app (pre post : list Token) :
  scan_calling_convention (pre ++ post) =
    fold_left
      (fun cc token =>
         if TokenKind_eqb (tok_kind token) KEYWORD then
           if String.eqb (tok_spelling token) "__cdecl" then cdecl_calling_convention
           else if String.eqb (tok_spelling token) "__fastcall"
                then fastcall_calling_convention
           else if String.eqb (tok_spelling token) "__stdcall"
                then stdcall_calling_convention
           else cc
         else cc)
      post (scan_calling_convention pre).
Proof. unfold scan_calling_convention. apply fold_left_app. Qed.

Lemma scan_ignores_other_tokens (post : list Token) :
  Forall (fun token => is_convention_keyword token = false) post ->
  forall cc,
    fold_left
      (fun cc token =>
         if TokenKind_eqb (tok_kind token) KEYWORD then
           if String.eqb (tok_spelling token) "__cdecl" then cdecl_calling_convention
           else if String.eqb (tok_spelling token) "__fastcall"
                then fastcall_calling_convention
           else if String.eqb (tok_spelling token) "__stdcall"
                then stdcall_calling_convention
           else cc
         else cc)
      post cc = cc.
Proof.
  induction 1 as [| token post Hno _ IH]; intros cc; [reflexivity |].
  cbn [fold_left].
  unfold is_convention_keyword in Hno.
  destruct (TokenKind_eqb (tok_kind token) KEYWORD); [| apply IH].
  cbn [andb PyStr.mem existsb] in Hno.
  destruct (String.eqb (tok_spelling token) "__cdecl"); [discriminate |].
  destruct (String.eqb (tok_spelling token) "__fastcall"); [discriminate |].
  destruct (String.eqb (tok_spelling token) "__stdcall"); [discriminate |].
  apply IH.
Qed.

(** X5: the calling convention is that of the last convention keyword
    among the declaration's tokens, whatever precedes it, and the
    platform's default when there is none.  A token that spells a
    convention but is not of kind KEYWORD does not count. *)
Theorem scan_calling_convention_last_keyword_wins :
  forall (pre post : list Token) (token : Token),
    Forall (fun t => is_convention_keyword t = false) post ->
    (tok_kind token = KEYWORD ->
     tok_spelling token = "__cdecl" ->
     scan_calling_convention (pre ++ token :: post) = cdecl_calling_convention)
    /\
    (tok_kind token = KEYWORD ->
     tok_spelling token = "__fastcall" ->
     scan_calling_convention (pre ++ token :: post) = fastcall_calling_convention)
    /\
    (tok_kind token = KEYWORD ->
     tok_spelling token = "__stdcall" ->
     scan_calling_convention (pre ++ token :: post) = stdcall_calling_convention)
    /\
    scan_calling_convention post = default_calling_convention.
Proof.
  intros pre post token Hpost.
  repeat split.
  - intros Hk Hs. rewrite scan_calling_convention_app. cbn [fold_left].
    rewrite Hk, Hs. apply scan_ignores_other_tokens. exact Hpost.
  - intros Hk Hs. rewrite scan_calling_convention_app. cbn [fold_left].
    rewrite Hk, Hs. apply scan_ignores_other_tokens. exact Hpost.
  - intros Hk Hs. rewrite scan_calling_convention_app. cbn [fold_left].
    rewrite Hk, Hs. apply scan_ignores_other_tokens. exact Hpost.
  - unfold scan_calling_convention. apply scan_ignores_other_tokens. exact Hpost.
Qed.

Lemma scan_calling_convention_last_keyword_wins_witness :
  scan_calling_convention
    [ {| tok_kind := KEYWORD; tok_spelling := "__cdecl" |};
      {| tok_kind := KEYWORD; tok_spelling := "__stdcall" |};
      {| tok_kind := IDENTIFIER; tok_spelling := "__fastcall" |};
      {| tok_kind := PUNCTUATION; tok_spelling := "(" |} ]
  = stdcall_calling_convention.
Proof.
  apply (proj1 (proj2 (proj2
           (scan_calling_convention_last_keyword_wins
              [ {| tok_kind := KEYWORD; tok_spelling := "__cdecl" |} ]
              [ {| tok_kind := IDENTIFIER; tok_spelling := "__fastcall" |};
                {| tok_kind := PUNCTUATION; tok_spelling := "(" |} ]
              {| tok_kind := KEYWORD; tok_spelling := "__stdcall" |}
              ltac:(repeat constructor))))).
  - reflexivity.
  - reflexivity.
Defined.

(** ** [function_decl] *)

(** The end of [function_decl] once parameters and result are known. *)
Lemma function_decl_register :
  forall (bn : BinaryNinja) (name : string) (function_type : BnType)
         (bv : BinaryView),
    bn_define_user_type_error bn (types bv) name function_type = None ->
    try_except
      (define_user_type bn name function_type >>
       log_debug "function_decl: Successfully processed function" [name] >>
       ret (Some (name, function_type)))
      (fun e =>
         log_debug "function_decl: Failed Processing function" [name] >>
         ret None) bv =
    Returns (Some (name, function_type))
            {| types := <[name := function_type]> (types bv);
               log := log bv ++
                      [Debug "function_decl: Successfully processed function" [name]] |}.
Proof.
  intros bn name function_type bv Hok.
  unfold try_except, bind, define_user_type, log_debug, ret. rewrite Hok.
  reflexivity.
Qed.

(** X6: a function without a prototype ([T f()]) is lowered to a signature
    with no parameters that is not variadic, whatever libclang says about
    variadicity; its result is the parsed, sanitized result type and its
    convention the one the tokens give.  It is registered under the
    function's name. *)
Theorem function_decl_without_prototype :
  forall (tu : TranslationUnit) (bn : BinaryNinja) (dt : Cursor -> Py Result)
         (node : Cursor) (bv : BinaryView) (result_type : BnType) (ret_name : string),
    kind tu node <> TYPEDEF_DECL ->
    tkind tu (type tu node) = FUNCTIONNOPROTO ->
    bn_parse_type_string bn (types bv)
      (remove_compiler_directives (tspelling tu (get_result tu (type tu node))))
      = inr (result_type, ret_name) ->
    let function_type :=
      TFunction result_type []
                (Some (scan_calling_convention (get_tokens tu node))) false in
    bn_define_user_type_error bn (types bv) (spelling tu node) function_type = None ->
    exists bv',
      function_decl tu bn dt node bv =
        Returns (Some (spelling tu node, function_type)) bv' /\
      types bv' = <[spelling tu node := function_type]> (types bv).
Proof.
  intros tu bn dt node bv result_type ret_name Hkind Hty Hparse function_type Hok.
  unfold function_decl.
  rewrite (bind_eq_Returns _ _ _ _ _ (log_debug_eq _ _ _)).
  rewrite (CursorKind_eqb_false _ _ Hkind). rewrite Hty. eval_kinds. cbv iota.
  unfold bind at 1. unfold ret at 1.
  unfold bind at 1. unfold parse_type_string at 1. cbn [logged types].
  rewrite Hparse. fold function_type.
  rewrite function_decl_register by (cbn [logged types]; exact Hok).
  eexists. split; reflexivity.
Qed.

Lemma function_decl_without_prototype_witness :
  exists bv',
    function_decl Functions.tu Build.accepting_bn
                  (define_type Functions.tu Build.accepting_bn 1) 4 Functions.view =
      Returns (Some ("g", TFunction (TNamedReference "long") []
                                    (Some default_calling_convention) false)) bv' /\
    types bv' =
      <["g" := TFunction (TNamedReference "long") []
                         (Some default_calling_convention) false]>
        (types Functions.view).
Proof.
  apply (function_decl_without_prototype
           Functions.tu Build.accepting_bn
           (define_type Functions.tu Build.accepting_bn 1) 4 Functions.view
           (TNamedReference "long") "").
  - discriminate.
  - reflexivity.
  - reflexivity.
  - reflexivity.
Defined.

(** A named formal parameter whose type spelling is defined gets the
    defined type and its own name. *)
Lemma function_decl_param_of_defined_type :
  forall (tu : TranslationUnit) (bn : BinaryNinja) (fuel : nat) (p : Cursor)
         (bv : BinaryView) (t : BnType),
    spelling tu p <> "" ->
    types bv !! tspelling tu (type tu p) = Some t ->
    exists bv',
      function_decl_param tu (define_type tu bn (S fuel)) p bv =
        Returns (t, spelling tu p) bv' /\
      types bv' = types bv.
Proof.
  intros tu bn fuel p bv t Hname Hknown.
  unfold function_decl_param.
  rewrite (bind_eq_Returns _ _ _ _ _ (log_debug_eq _ _ _)).
  unfold bind at 1.
  rewrite (define_type_already_defined tu bn fuel p _ t Hname)
    by (cbn [logged types]; exact Hknown).
  unfold unpack, bind, ret, log_debug.
  eexists. split; reflexivity.
Qed.

(** The loop over the formal parameters when every parameter has a name
    and a type whose spelling is defined; the types of the view stay as
    they are. *)
Lemma function_decl_params_of_defined_types :
  forall (tu : TranslationUnit) (bn : BinaryNinja) (fuel : nat)
         (known : gmap string BnType) (param_type : Cursor -> BnType)
         (params : list Cursor),
    Forall (fun p =>
              spelling tu p <> "" /\
              known !! tspelling tu (type tu p) = Some (param_type p)) params ->
    forall bv,
      types bv = known ->
      exists bv',
        for_list (function_decl_param tu (define_type tu bn (S fuel))) params bv =
          Returns (map (fun p => (param_type p, spelling tu p)) params) bv' /\
        types bv' = known.
Proof.
  intros tu bn fuel known param_type params Hparams.
  induction Hparams as [| p params [Hname Hknown] _ IH]; intros bv Hbv.
  - eexists. split; [reflexivity | exact Hbv].
  - cbn [for_list map].
    destruct (function_decl_param_of_defined_type
                tu bn fuel p bv (param_type p) Hname)
      as (bv1 & Hp & Htypes1); [rewrite Hbv; exact Hknown |].
    destruct (IH bv1) as (bv' & Hrun & Htypes); [rewrite Htypes1; exact Hbv |].
    rewrite (bind_eq_Returns _ _ _ _ _ Hp).
    rewrite (bind_eq_Returns _ _ _ _ _ Hrun).
    exists bv'. split; [reflexivity | exact Htypes].
Qed.

(** [is_function_variadic] answers for a function prototype and for
    nothing else. *)
Lemma is_function_variadic_prototype :
  forall (tu : TranslationUnit) (t : CType) (bv : BinaryView),
    tkind tu t = FUNCTIONPROTO ->
    is_function_variadic tu t bv = Returns (clang_isFunctionTypeVariadic tu t) bv.
Proof.
  intros tu t bv H. unfold is_function_variadic, py_assert.
  rewrite (TypeKind_eqb_true _ _ H). reflexivity.
Qed.

Lemma argument_types_other :
  forall (tu : TranslationUnit) (t : CType) (bv : BinaryView),
    tkind tu t <> FUNCTIONPROTO ->
    argument_types tu t bv = Raises (AssertionError "") bv.
Proof.
  intros tu t bv H. unfold argument_types, py_assert.
  rewrite (TypeKind_eqb_false _ _ H). reflexivity.
Qed.

Lemma is_function_variadic_other :
  forall (tu : TranslationUnit) (t : CType) (bv : BinaryView),
    tkind tu t <> FUNCTIONPROTO ->
    is_function_variadic tu t bv = Raises (AssertionError "") bv.
Proof.
  intros tu t bv H. unfold is_function_variadic, py_assert.
  rewrite (TypeKind_eqb_false _ _ H). reflexivity.
Qed.

(** X7: a declared function with a prototype, all of whose parameters are
    named and have already defined types, is lowered to a signature with
    exactly the declared parameters, in order, each with the defined type
    and the parameter's own name; the signature is variadic exactly when
    libclang says the prototype is, and it is registered under the
    function's name. *)
Theorem function_decl_parameters_and_variadic_flag :
  forall (tu : TranslationUnit) (bn : BinaryNinja) (fuel : nat) (node : Cursor)
         (bv : BinaryView) (param_type : Cursor -> BnType)
         (result_type : BnType) (ret_name : string),
    kind tu node <> TYPEDEF_DECL ->
    tkind tu (type tu node) = FUNCTIONPROTO ->
    Forall (fun p =>
              spelling tu p <> "" /\
              types bv !! tspelling tu (type tu p) = Some (param_type p))
           (get_arguments tu node) ->
    bn_parse_type_string bn (types bv)
      (remove_compiler_directives (tspelling tu (get_result tu (type tu node))))
      = inr (result_type, ret_name) ->
    let function_type :=
      TFunction result_type
                (map (fun p => (param_type p, spelling tu p)) (get_arguments tu node))
                (Some (scan_calling_convention (get_tokens tu node)))
                (clang_isFunctionTypeVariadic tu (type tu node)) in
    bn_define_user_type_error bn (types bv) (spelling tu node) function_type = None ->
    exists bv',
      function_decl tu bn (define_type tu bn (S fuel)) node bv =
        Returns (Some (spelling tu node, function_type)) bv' /\
      types bv' = <[spelling tu node := function_type]> (types bv).
Proof.
  intros tu bn fuel node bv param_type result_type ret_name Hkind Hproto
         Hparams Hparse function_type Hok.
  unfold function_decl.
  rewrite (bind_eq_Returns _ _ _ _ _ (log_debug_eq _ _ _)).
  rewrite (CursorKind_eqb_false _ _ Hkind).
  rewrite (TypeKind_eqb_false (tkind tu (type tu node)) POINTER)
    by (rewrite Hproto; discriminate).
  rewrite (TypeKind_eqb_false (tkind tu (type tu node)) FUNCTIONNOPROTO)
    by (rewrite Hproto; discriminate).
  match goal with
  | |- context [for_list _ _] =>
      destruct (function_decl_params_of_defined_types
                  tu bn fuel (types bv) param_type _ Hparams
                  (logged bv [Debug "function_decl: Processing function"
                                    [spelling tu node]]) eq_refl)
        as (bv1 & Hrun & Htypes)
  end.
  unfold bind at 1. unfold bind at 1.
  rewrite (is_function_variadic_prototype _ _ _ Hproto).
  unfold bind at 1. rewrite Hrun. unfold ret at 1.
  unfold bind at 1. unfold parse_type_string at 1. rewrite Htypes, Hparse.
  fold function_type.
  rewrite function_decl_register by (rewrite Htypes; exact Hok).
  eexists. split; [reflexivity |]. cbn [types]. rewrite Htypes. reflexivity.
Qed.

Lemma function_decl_parameters_and_variadic_flag_witness :
  exists bv',
    function_decl Functions.tu Build.accepting_bn
                  (define_type Functions.tu Build.accepting_bn 1) 1 Functions.view =
      Returns (Some ("f",
                     TFunction (TNamedReference "int")
                               [(TPointer (TBase "void"), "DllHandle");
                                (TBase "unsigned long", "Reason")]
                               (Some stdcall_calling_convention) true)) bv' /\
    types bv' =
      <["f" := TFunction (TNamedReference "int")
                         [(TPointer (TBase "void"), "DllHandle");
                          (TBase "unsigned long", "Reason")]
                         (Some stdcall_calling_convention) true]>
        (types Functions.view).
Proof.
  apply (function_decl_parameters_and_variadic_flag
           Functions.tu Build.accepting_bn 0 1 Functions.view
           Functions.parameter_type (TNamedReference "int") "").
  - discriminate.
  - reflexivity.
  - repeat constructor; discriminate.
  - reflexivity.
  - reflexivity.
Defined.

(** X29: [function_decl] takes the signature from a function prototype
    or fails.  For a node that is not a typedef, when the type consulted
    (the pointee of a pointer, the node's type otherwise) is not a
    function prototype and the node's type is not a function without
    prototype either, the libclang binding's assertion fails before any
    parameter is processed: [AssertionError] reaches the caller, whatever
    the dispatcher, and no type of the view changes. *)
Theorem function_decl_asserts_a_function_prototype :
  forall (tu : TranslationUnit) (bn : BinaryNinja) (dt : Cursor -> Py Result)
         (node : Cursor) (bv : BinaryView),
    kind tu node <> TYPEDEF_DECL ->
    (tkind tu (type tu node) = POINTER ->
     tkind tu (get_pointee tu (type tu node)) <> FUNCTIONPROTO ->
     exists bv',
       function_decl tu bn dt node bv = Raises (AssertionError "") bv' /\
       types bv' = types bv)
    /\
    (tkind tu (type tu node) <> POINTER ->
     tkind tu (type tu node) <> FUNCTIONNOPROTO ->
     tkind tu (type tu node) <> FUNCTIONPROTO ->
     exists bv',
       function_decl tu bn dt node bv = Raises (AssertionError "") bv' /\
       types bv' = types bv).
Proof.
  intros tu bn dt node bv Hkind. split.
  - intros Hptr Hproto. unfold function_decl.
    rewrite (bind_eq_Returns _ _ _ _ _ (log_debug_eq _ _ _)).
    rewrite (CursorKind_eqb_false _ _ Hkind).
    rewrite (TypeKind_eqb_true _ _ Hptr).
    unfold bind at 1. unfold bind at 1.
    rewrite (argument_types_other _ _ _ Hproto).
    eexists. split; reflexivity.
  - intros Hptr Hnoproto Hproto. unfold function_decl.
    rewrite (bind_eq_Returns _ _ _ _ _ (log_debug_eq _ _ _)).
    rewrite (CursorKind_eqb_false _ _ Hkind).
    rewrite (TypeKind_eqb_false _ _ Hptr), (TypeKind_eqb_false _ _ Hnoproto).
    unfold bind at 1. unfold bind at 1.
    rewrite (is_function_variadic_other _ _ _ Hproto).
    eexists. split; reflexivity.
Qed.

Lemma function_decl_asserts_a_function_prototype_witness :
  exists bv',
    function_decl Functions.tu Build.accepting_bn
                  (define_type Functions.tu Build.accepting_bn 1) 7 Functions.view =
      Raises (AssertionError "") bv' /\
    types bv' = types Functions.view.
Proof.
  apply (proj2 (function_decl_asserts_a_function_prototype
                  Functions.tu Build.accepting_bn
                  (define_type Functions.tu Build.accepting_bn 1) 7 Functions.view
                  ltac:(discriminate))).
  - discriminate.
  - discriminate.
  - discriminate.
Defined.

(** ** [define_type]: dispatch *)

(** The dispatcher past its first test, for a node that is not already
    defined: what is left is the test for a base type. *)
Lemma define_type_not_yet_defined :
  forall (tu : TranslationUnit) (bn : BinaryNinja) (fuel : nat) (node : Cursor)
         (bv : BinaryView),
    types bv !! tspelling tu (type tu node) = None ->
    exists bv0,
      types bv0 = types bv /\
      define_type tu bn (S fuel) node bv =
        (let* is_base := check_if_base_type tu (type tu node) in
         if is_base then
           let* '(var_type, var_name) :=
             parse_type_string bn (tspelling tu (type tu node) +:+ " " +:+
                                   spelling tu node) in
           ret (Some (var_name, var_type))
         else if is_anonymous tu node then
           define_anonymous_type tu bn (define_type tu bn fuel) node
         else if TypeKind_eqb (tkind tu (type tu node)) ELABORATED then
           define_type tu bn fuel (get_declaration tu (type tu node))
         else if TypeKind_eqb (tkind tu (type tu node)) CONSTANTARRAY then
           constantarray_type tu bn (define_type tu bn fuel) node
         else if TypeKind_eqb (tkind tu (type tu node)) INCOMPLETEARRAY then
           incompletearray_type tu bn (define_type tu bn fuel) node
         else if TypeKind_eqb (tkind tu (type tu node)) FUNCTIONPROTO then
           functionproto_type tu bn (define_type tu bn fuel) node
         else if TypeKind_eqb (tkind tu (type tu node)) POINTER then
           pointer_type tu bn fuel (define_type tu bn fuel) node
         else if CursorKind_eqb (kind tu node) TYPEDEF_DECL then
           if TypeKind_eqb (tkind tu (type tu node)) TYPEDEF
              && TypeKind_eqb (tkind tu (underlying_typedef_type tu node)) FUNCTIONPROTO
           then function_decl tu bn (define_type tu bn fuel) node
           else if TypeKind_eqb (tkind tu (type tu node)) TYPEDEF
                   && TypeKind_eqb (tkind tu (underlying_typedef_type tu node)) POINTER
           then pointer_type tu bn fuel (define_type tu bn fuel) node
           else typedef_decl tu bn node
         else if CursorKind_eqb (kind tu node) PARM_DECL then
           if TypeKind_eqb (tkind tu (type tu node)) TYPEDEF then typedef_decl tu bn node
           else log_debug "define_type: Unhandled case -" [] >> ret None
         else if CursorKind_eqb (kind tu node) VAR_DECL then var_decl tu bn node
         else if CursorKind_eqb (kind tu node) FUNCTION_DECL then
           function_decl tu bn (define_type tu bn fuel) node
         else if CursorKind_eqb (kind tu node) ENUM_DECL then enum_decl tu bn node
         else if CursorKind_eqb (kind tu node) STRUCT_DECL then
           struct_decl tu bn (define_type tu bn fuel) node
         else if CursorKind_eqb (kind tu node) FIELD_DECL then
           field_decl tu bn (define_type tu bn fuel) node
         else if CursorKind_eqb (kind tu node) UNION_DECL then
           struct_decl tu bn (define_type tu bn fuel) node
         else log_info "no handler for cursorKind" [] >> ret None) bv0.
Proof.
  intros tu bn fuel node bv Hnone.
  exists (logged bv [Debug "define_type: Dispatch for"
                           [tspelling tu (type tu node); spelling tu node]]).
  split; [reflexivity |].
  cbn [define_type]. unfold define_type_body.
  rewrite (bind_eq_Returns _ _ _ _ _ (log_debug_eq _ _ _)).
  unfold bind at 1.
  destruct (PyStr.truthy (spelling tu node)).
  - unfold get_type_by_name. cbn [logged types]. rewrite Hnone. reflexivity.
  - reflexivity.
Qed.

(** X8: a function implementation found in a header is skipped.  A node
    with a function-prototype type that is a definition, and is neither a
    typedef nor a parameter, makes [define_type] return [None]; the types
    of the view are untouched. *)
Theorem define_type_skips_function_implementation :
  forall (tu : TranslationUnit) (bn : BinaryNinja) (fuel : nat) (node : Cursor)
         (bv : BinaryView),
    types bv !! tspelling tu (type tu node) = None ->
    is_anonymous tu node = false ->
    tkind tu (type tu node) = FUNCTIONPROTO ->
    kind tu node <> TYPEDEF_DECL ->
    kind tu node <> PARM_DECL ->
    is_definition tu node = true ->
    exists bv',
      define_type tu bn (S fuel) node bv = Returns None bv' /\
      types bv' = types bv.
Proof.
  intros tu bn fuel node bv Hnone Hanon Hty Htypedef Hparm Hdef.
  destruct (define_type_not_yet_defined tu bn fuel node bv Hnone)
    as (bv0 & Htypes & ->).
  unfold bind at 1.
  rewrite check_if_base_type_false
    by (unfold kind_in_base_types; rewrite Hty; reflexivity).
  rewrite Hanon, Hty. eval_kinds. cbv iota.
  unfold functionproto_type.
  rewrite (CursorKind_eqb_false _ _ Htypedef), (CursorKind_eqb_false _ _ Hparm), Hdef.
  cbn [orb negb]. unfold bind, log_debug, ret.
  eexists. split; [reflexivity | exact Htypes].
Qed.

Lemma define_type_skips_function_implementation_witness :
  exists bv',
    define_type Functions.tu Build.accepting_bn 1 5 Functions.view = Returns None bv' /\
    types bv' = types Functions.view.
Proof.
  apply (define_type_skips_function_implementation
           Functions.tu Build.accepting_bn 0 5 Functions.view).
  - reflexivity.
  - reflexivity.
  - reflexivity.
  - discriminate.
  - discriminate.
  - reflexivity.
Defined.

(** X9: a node of a base type is parsed, never registered.  When the
    spelling of its type is not a name of the view, [define_type] parses
    the type's spelling followed by the node's spelling and returns the
    parsed type under the parsed name; if the parser raises, so does
    [define_type].  Either way the types of the view are untouched. *)
Theorem define_type_base_type_is_not_registered :
  forall (tu : TranslationUnit) (bn : BinaryNinja) (fuel : nat) (node : Cursor)
         (bv : BinaryView),
    types bv !! tspelling tu (type tu node) = None ->
    kind_in_base_types tu (type tu node) = true ->
    exists bv',
      types bv' = types bv /\
      define_type tu bn (S fuel) node bv =
        match bn_parse_type_string bn (types bv)
                (tspelling tu (type tu node) +:+ " " +:+ spelling tu node) with
        | inr (var_type, var_name) => Returns (Some (var_name, var_type)) bv'
        | inl e => Raises e bv'
        end.
Proof.
  intros tu bn fuel node bv Hnone Hbase.
  destruct (define_type_not_yet_defined tu bn fuel node bv Hnone)
    as (bv0 & Htypes & ->).
  rewrite (bind_eq_Returns _ _ _ _ _ (check_if_base_type_true _ _ _ Hbase)).
  unfold bind, parse_type_string. cbn [logged types]. rewrite Htypes.
  eexists. split; [| destruct (bn_parse_type_string bn _ _) as [e | [t n]]; reflexivity].
  cbn [logged types]. exact Htypes.
Qed.

Lemma define_type_base_type_is_not_registered_witness :
  exists bv',
    types bv' = types Build.empty_view /\
    define_type Declarators.tu Build.example_bn 1 1 Build.empty_view =
      Returns (Some ("x", TBase "int")) bv'.
Proof.
  apply (define_type_base_type_is_not_registered
           Declarators.tu Build.example_bn 0 1 Build.empty_view).
  - reflexivity.
  - reflexivity.
Defined.

(** ** [typedef_decl] *)

(** X10: a typedef whose name is not in the view and whose underlying
    type parses is registered under the typedef's own name, with the type
    parsed from the underlying spelling once the compiler directives are
    taken out; the name the parser gives back is not used. *)
Theorem typedef_decl_registers_under_its_own_name :
  forall (tu : TranslationUnit) (bn : BinaryNinja) (node : Cursor) (bv : BinaryView)
         (var_type : BnType) (parsed_name : string),
    types bv !! spelling tu node = None ->
    tspelling tu (underlying_typedef_type tu node) <> "" ->
    bn_parse_type_string bn (types bv)
      (remove_compiler_directives (tspelling tu (underlying_typedef_type tu node)))
      = inr (var_type, parsed_name) ->
    bn_define_user_type_error bn (types bv) (spelling tu node) var_type = None ->
    exists bv',
      typedef_decl tu bn node bv = Returns (Some (spelling tu node, var_type)) bv' /\
      types bv' = <[spelling tu node := var_type]> (types bv).
Proof.
  intros tu bn node bv var_type parsed_name Hnone Hund Hparse Hok.
  rewrite typedef_decl_not_yet_defined by exact Hnone.
  unfold typedef_decl_undefined.
  destruct (tspelling tu (underlying_typedef_type tu node)) as [| c s] eqn:E;
    [congruence |].
  cbn [PyStr.truthy negb].
  unfold bind at 1. unfold try_except at 1. unfold bind at 1.
  unfold parse_type_string at 1. cbn [logged types]. rewrite Hparse.
  rewrite (bind_eq_Returns _ _ _ _ _ (log_debug_eq _ _ _)). unfold ret at 1.
  unfold typedef_decl_define, try_except, bind, define_user_type, log_debug, ret.
  cbn [logged types]. rewrite Hok.
  eexists. split; reflexivity.
Qed.

Lemma typedef_decl_registers_under_its_own_name_witness :
  exists bv',
    typedef_decl Typedefs.tu Typedefs.picky_bn 1 Build.empty_view =
      Returns (Some ("INT32", TNamedReference "int")) bv' /\
    types bv' = <["INT32" := TNamedReference "int"]> (types Build.empty_view).
Proof.
  apply (typedef_decl_registers_under_its_own_name
           Typedefs.tu Typedefs.picky_bn 1 Build.empty_view
           (TNamedReference "int") "").
  - reflexivity.
  - discriminate.
  - reflexivity.
  - reflexivity.
Defined.

(** X11: [typedef_decl] is idempotent on what it registered under the
    typedef's name.  After a call that returned the typedef's (non-empty)
    name with a type Python takes for true, a second call returns the
    same pair and changes no type of the view. *)
Theorem typedef_decl_second_call_returns_the_same :
  forall (tu : TranslationUnit) (bn : BinaryNinja) (node : Cursor)
         (bv bv' : BinaryView) (t : BnType),
    spelling tu node <> "" ->
    bn_truth bn t = true ->
    typedef_decl tu bn node bv = Returns (Some (spelling tu node, t)) bv' ->
    exists bv'',
      typedef_decl tu bn node bv' = Returns (Some (spelling tu node, t)) bv'' /\
      types bv'' = types bv'.
Proof.
  intros tu bn node bv bv' t Hname Htruth Hfirst.
  apply typedef_decl_registered in Hfirst. cbn in Hfirst.
  unfold typedef_decl.
  rewrite (bind_eq_Returns _ _ _ _ _ (log_debug_eq _ _ _)).
  destruct (spelling tu node) as [| c s] eqn:E; [congruence |].
  cbn [PyStr.truthy].
  unfold bind at 1. unfold get_type_by_name. cbn [logged types].
  rewrite Hfirst, Htruth.
  unfold bind, log_debug, ret. eexists. split; reflexivity.
Qed.

Lemma typedef_decl_second_call_returns_the_same_witness :
  exists bv'',
    typedef_decl Typedefs.tu Typedefs.picky_bn 1
                 (view_after (typedef_decl Typedefs.tu Typedefs.picky_bn 1
                                           Build.empty_view)) =
      Returns (Some ("INT32", TNamedReference "int")) bv'' /\
    types bv'' =
      types (view_after (typedef_decl Typedefs.tu Typedefs.picky_bn 1
                                      Build.empty_view)).
Proof.
  apply (typedef_decl_second_call_returns_the_same
           Typedefs.tu Typedefs.picky_bn 1 Build.empty_view
           (view_after (typedef_decl Typedefs.tu Typedefs.picky_bn 1
                                     Build.empty_view))
           (TNamedReference "int")).
  - discriminate.
  - reflexivity.
  - vm_compute. reflexivity.
Defined.

(** X12: the reserved-suffix recovery, to its end.  The parse of the
    underlying type fails with a syntax error and the typedef's name ends
    in [_t]; the text is parsed once more, followed by the name with its
    last character turned into [T], and the type is registered under the
    name this second parse gives back, not under the typedef's name. *)
Theorem typedef_decl_reserved_suffix_registers_parsed_name :
  forall (tu : TranslationUnit) (bn : BinaryNinja) (node : Cursor) (bv : BinaryView)
         (msg : string) (var_type : BnType) (name : string),
    types bv !! spelling tu node = None ->
    tspelling tu (underlying_typedef_type tu node) <> "" ->
    let text :=
      remove_compiler_directives (tspelling tu (underlying_typedef_type tu node)) in
    bn_parse_type_string bn (types bv) text = inl (SyntaxError msg) ->
    PyStr.contains "syntax error" msg = true ->
    PyStr.endswith "_t" (spelling tu node) = true ->
    bn_parse_type_string bn (types bv)
      (text +:+ " " +:+ PyStr.drop_last (spelling tu node) +:+ "T")
      = inr (var_type, name) ->
    bn_define_user_type_error bn (types bv) name var_type = None ->
    exists bv',
      typedef_decl tu bn node bv = Returns (Some (name, var_type)) bv' /\
      types bv' = <[name := var_type]> (types bv).
Proof.
  intros tu bn node bv msg var_type name Hnone Hund text Hparse Hsyn Hsuffix
         Hretry Hok.
  rewrite (typedef_decl_reserved_suffix_retries_once
             tu bn node bv msg Hnone Hund Hparse Hsyn Hsuffix).
  fold text.
  unfold bind at 1. unfold parse_type_string at 1. cbn [logged types].
  rewrite Hretry.
  unfold typedef_decl_define, try_except, bind, define_user_type, log_debug, ret.
  cbn [logged types]. rewrite Hok.
  eexists. split; reflexivity.
Qed.

Lemma typedef_decl_reserved_suffix_registers_parsed_name_witness :
  exists bv',
    typedef_decl Typedefs.tu Typedefs.picky_bn 2 Build.empty_view =
      Returns (Some ("size_T", TNamedReference "FOO")) bv' /\
    types bv' = <["size_T" := TNamedReference "FOO"]> (types Build.empty_view).
Proof.
  apply (typedef_decl_reserved_suffix_registers_parsed_name
           Typedefs.tu Typedefs.picky_bn 2 Build.empty_view
           "syntax error: unexpected end of input" (TNamedReference "FOO") "size_T").
  - reflexivity.
  - discriminate.
  - reflexivity.
  - reflexivity.
  - reflexivity.
  - reflexivity.
  - reflexivity.
Defined.

(** X13: only a [SyntaxError] is recovered from.  When the parse of a
    non-empty underlying spelling raises any other exception,
    [typedef_decl] raises it too; no type of the view changes. *)
Theorem typedef_decl_other_exception_propagates :
  forall (tu : TranslationUnit) (bn : BinaryNinja) (node : Cursor) (bv : BinaryView)
         (e : Exception),
    types bv !! spelling tu node = None ->
    tspelling tu (underlying_typedef_type tu node) <> "" ->
    bn_parse_type_string bn (types bv)
      (remove_compiler_directives (tspelling tu (underlying_typedef_type tu node)))
      = inl e ->
    (forall msg, e <> SyntaxError msg) ->
    exists bv',
      typedef_decl tu bn node bv = Raises e bv' /\
      types bv' = types bv.
Proof.
  intros tu bn node bv e Hnone Hund Hparse Hother.
  rewrite typedef_decl_not_yet_defined by exact Hnone.
  unfold typedef_decl_undefined.
  destruct (tspelling tu (underlying_typedef_type tu node)) as [| c s] eqn:E;
    [congruence |].
  cbn [PyStr.truthy negb].
  unfold bind at 1. unfold try_except at 1. unfold bind at 1.
  unfold parse_type_string at 1. cbn [logged types]. rewrite Hparse.
  unfold typedef_decl_recover.
  destruct e as [msg | msg | msg | msg | msg | msg];
    [exfalso; apply (Hother msg); reflexivity | | | | |];
    unfold raise; eexists; split; reflexivity.
Qed.

Lemma typedef_decl_other_exception_propagates_witness :
  exists bv',
    typedef_decl Typedefs.tu Typedefs.picky_bn 4 Build.empty_view =
      Raises (OtherException "internal parser failure") bv' /\
    types bv' = types Build.empty_view.
Proof.
  apply (typedef_decl_other_exception_propagates
           Typedefs.tu Typedefs.picky_bn 4 Build.empty_view
           (OtherException "internal parser failure")).
  - reflexivity.
  - discriminate.
  - reflexivity.
  - discriminate.
Defined.

(** X14: a typedef for which libclang gives no underlying spelling is
    parsed by its own type and name, and there every exception of the
    parser is caught: the resolution is Absent and no type of the view
    changes. *)
Theorem typedef_decl_without_underlying_spelling_absent :
  forall (tu : TranslationUnit) (bn : BinaryNinja) (node : Cursor) (bv : BinaryView)
         (e : Exception),
    types bv !! spelling tu node = None ->
    tspelling tu (underlying_typedef_type tu node) = "" ->
    bn_parse_type_string bn (types bv)
      (tspelling tu (type tu node) +:+ " " +:+ spelling tu node) = inl e ->
    exists bv',
      typedef_decl tu bn node bv = Returns None bv' /\
      types bv' = types bv.
Proof.
  intros tu bn node bv e Hnone Hund Hparse.
  rewrite typedef_decl_not_yet_defined by exact Hnone.
  unfold typedef_decl_undefined. rewrite Hund.
  cbn [PyStr.truthy negb].
  unfold bind at 1. unfold try_except at 1. unfold bind at 1.
  unfold parse_type_string at 1. cbn [logged types]. rewrite Hparse.
  unfold typedef_decl_define, try_except, raise, bind, log_debug, ret.
  eexists. split; reflexivity.
Qed.

Lemma typedef_decl_without_underlying_spelling_absent_witness :
  exists bv',
    typedef_decl Typedefs.tu Typedefs.picky_bn 3 Build.empty_view = Returns None bv' /\
    types bv' = types Build.empty_view.
Proof.
  apply (typedef_decl_without_underlying_spelling_absent
           Typedefs.tu Typedefs.picky_bn 3 Build.empty_view
           (OtherException "internal parser failure")).
  - reflexivity.
  - reflexivity.
  - reflexivity.
Defined.

(** ** [var_decl], [enum_decl], [field_decl] *)

(** X15: in [var_decl] the parse stands outside the [try]: a parser
    exception propagates.  The definition stands inside it: when Binary
    Ninja refuses the definition, [var_decl] returns [None].  Otherwise
    the type is registered under the name the parser gave back.  In the
    first two cases no type of the view changes. *)
Theorem var_decl_parse_raises_define_is_caught :
  forall (tu : TranslationUnit) (bn : BinaryNinja) (node : Cursor) (bv : BinaryView),
    let text := tspelling tu (type tu node) +:+ " " +:+ spelling tu node in
    (forall e,
        bn_parse_type_string bn (types bv) text = inl e ->
        exists bv', var_decl tu bn node bv = Raises e bv' /\ types bv' = types bv)
    /\
    (forall var_type name e,
        bn_parse_type_string bn (types bv) text = inr (var_type, name) ->
        bn_define_user_type_error bn (types bv) name var_type = Some e ->
        exists bv', var_decl tu bn node bv = Returns None bv' /\ types bv' = types bv)
    /\
    (forall var_type name,
        bn_parse_type_string bn (types bv) text = inr (var_type, name) ->
        bn_define_user_type_error bn (types bv) name var_type = None ->
        exists bv',
          var_decl tu bn node bv = Returns (Some (name, var_type)) bv' /\
          types bv' = <[name := var_type]> (types bv)).
Proof.
  intros tu bn node bv text.
  repeat split.
  - intros e Hparse. unfold var_decl. fold text.
    rewrite (bind_eq_Returns _ _ _ _ _ (log_debug_eq _ _ _)).
    unfold bind, parse_type_string. cbn [logged types]. rewrite Hparse.
    eexists. split; reflexivity.
  - intros var_type name e Hparse Hrefuse. unfold var_decl. fold text.
    rewrite (bind_eq_Returns _ _ _ _ _ (log_debug_eq _ _ _)).
    unfold bind at 1. unfold parse_type_string at 1. cbn [logged types].
    rewrite Hparse.
    unfold try_except, bind, define_user_type, log_debug, ret.
    cbn [logged types]. rewrite Hrefuse.
    eexists. split; reflexivity.
  - intros var_type name Hparse Hok. unfold var_decl. fold text.
    rewrite (bind_eq_Returns _ _ _ _ _ (log_debug_eq _ _ _)).
    unfold bind at 1. unfold parse_type_string at 1. cbn [logged types].
    rewrite Hparse.
    unfold try_except, bind, define_user_type, log_debug, ret.
    cbn [logged types]. rewrite Hok.
    eexists. split; reflexivity.
Qed.

Lemma var_decl_parse_raises_define_is_caught_witness :
  exists bv',
    var_decl Typedefs.tu Typedefs.picky_bn 3 Build.empty_view =
      Raises (OtherException "internal parser failure") bv' /\
    types bv' = types Build.empty_view.
Proof.
  apply (proj1 (var_decl_parse_raises_define_is_caught
                  Typedefs.tu Typedefs.picky_bn 3 Build.empty_view)
           (OtherException "internal parser failure")).
  reflexivity.
Defined.

(** X16: [enum_decl] raises exactly when a child of the declaration is
    not an enumerator.  When all children are enumerators it returns: the
    node's spelling with the enumeration of the children, name and value
    each, in source order, registered under the node's spelling (the
    type's spelling for a node without one); or, when Binary Ninja refuses
    the definition, [None] with the types of the view untouched.  When
    some child is not an enumerator, reading its value fails before the
    [try] is entered: [AssertionError] reaches the caller and no type of
    the view changes. *)
Theorem enum_decl_raises_only_on_a_child_that_is_no_enumerator :
  forall (tu : TranslationUnit) (bn : BinaryNinja) (node : Cursor) (bv : BinaryView),
    let enum :=
      TEnumeration (map (fun m => (spelling tu m, clang_getEnumConstantDeclValue tu m))
                        (get_children tu node)) in
    let enum_name :=
      if PyStr.truthy (spelling tu node) then spelling tu node
      else tspelling tu (type tu node) in
    (Forall (fun m => kind tu m = ENUM_CONSTANT_DECL) (get_children tu node) ->
     exists bv',
       match bn_define_user_type_error bn (types bv) enum_name enum with
       | None =>
           enum_decl tu bn node bv = Returns (Some (spelling tu node, enum)) bv' /\
           types bv' = <[enum_name := enum]> (types bv)
       | Some e =>
           enum_decl tu bn node bv = Returns None bv' /\
           types bv' = types bv
       end)
    /\
    (Exists (fun m => kind tu m <> ENUM_CONSTANT_DECL) (get_children tu node) ->
     exists bv',
       enum_decl tu bn node bv = Raises (AssertionError "") bv' /\
       types bv' = types bv).
Proof.
  intros tu bn node bv enum enum_name. split.
  - intros Hchildren. unfold enum_decl.
    rewrite (bind_eq_Returns _ _ _ _ _ (log_debug_eq _ _ _)).
    rewrite (bind_eq_Returns _ _ _ _ _
               (enum_decl_members_enumerators tu _ _ Hchildren)).
    fold enum. fold enum_name.
    unfold try_except, bind, define_user_type, log_debug, ret.
    cbn [logged types].
    destruct (bn_define_user_type_error bn (types bv) enum_name enum);
      eexists; split; reflexivity.
  - intros Hchild. unfold enum_decl.
    rewrite (bind_eq_Returns _ _ _ _ _ (log_debug_eq _ _ _)).
    unfold bind at 1.
    rewrite (enum_decl_members_other tu _ _ Hchild).
    eexists. split; reflexivity.
Qed.

Lemma enum_decl_raises_only_on_a_child_that_is_no_enumerator_witness :
  (exists bv',
      enum_decl UnnamedEnum.tu Build.example_bn 1 Build.empty_view =
        Returns (Some ("", TEnumeration [("Red", 0); ("Green", 5)])) bv' /\
      types bv' =
        <["enum (unnamed at colors.h:1:1)" :=
            TEnumeration [("Red", 0); ("Green", 5)]]> (types Build.empty_view))
  /\
  (exists bv',
      enum_decl UnnamedEnum.tu Build.example_bn 4 Build.empty_view =
        Raises (AssertionError "") bv' /\
      types bv' = types Build.empty_view).
Proof.
  split.
  - apply (proj1 (enum_decl_raises_only_on_a_child_that_is_no_enumerator
                    UnnamedEnum.tu Build.example_bn 1 Build.empty_view)).
    repeat constructor.
  - apply (proj2 (enum_decl_raises_only_on_a_child_that_is_no_enumerator
                    UnnamedEnum.tu Build.example_bn 4 Build.empty_view)).
    apply Exists_cons_hd. discriminate.
Defined.

(** X17: [field_decl] never raises: whatever the dispatcher it calls back
    does, an exception stays inside.  For a recursive field the result is
    [None] and the dispatcher is not called. *)
Theorem field_decl_never_raises :
  forall (tu : TranslationUnit) (bn : BinaryNinja) (dt : Cursor -> Py Result)
         (node : Cursor) (bv : BinaryView),
    (forall e bv', field_decl tu bn dt node bv <> Raises e bv')
    /\
    (tkind tu (type tu node) = POINTER ->
     tspelling tu (get_pointee tu (type tu node)) =
       tspelling tu (type tu (semantic_parent tu node)) ->
     exists bv', field_decl tu bn dt node bv = Returns None bv' /\
                 types bv' = types bv).
Proof.
  intros tu bn dt node bv. split.
  - intros e bv'. unfold field_decl.
    rewrite (bind_eq_Returns _ _ _ _ _ (log_debug_eq _ _ _)).
    unfold try_except.
    match goal with
    | |- match ?run with _ => _ end <> _ => destruct run as [r b | e0 b |]
    end; discriminate.
  - intros Hkind Hsame. unfold field_decl.
    rewrite (bind_eq_Returns _ _ _ _ _ (log_debug_eq _ _ _)).
    unfold try_except.
    rewrite (bind_eq_Returns _ _ _ _ _ (is_recursive_field_true _ _ _ Hkind Hsame)).
    cbn [negb]. unfold bind, log_debug, ret.
    eexists. split; reflexivity.
Qed.

Lemma field_decl_never_raises_witness :
  exists bv',
    field_decl SelfReference.tu Build.example_bn
               (define_type SelfReference.tu Build.example_bn 1) 3 Build.empty_view =
      Returns None bv' /\
    types bv' = types Build.empty_view.
Proof.
  apply (proj2 (field_decl_never_raises
                  SelfReference.tu Build.example_bn
                  (define_type SelfReference.tu Build.example_bn 1) 3
                  Build.empty_view)).
  - reflexivity.
  - reflexivity.
Defined.

(** ** [struct_decl] and [define_anonymous_type] *)

Lemma is_recursive_field_eq :
  forall (tu : TranslationUnit) (field : Cursor) (bv : BinaryView),
    is_recursive_field tu field bv =
      Returns (field_is_recursive tu field)
        (logged bv [Debug "is_recursive_field: Processing field"
                          [tspelling tu (type tu field); spelling tu field]]).
Proof.
  intros tu field bv. unfold is_recursive_field, field_is_recursive.
  rewrite (bind_eq_Returns _ _ _ _ _ (log_debug_eq _ _ _)).
  destruct (TypeKind_eqb _ _); [destruct (String.eqb _ _) |]; reflexivity.
Qed.

(** X18: a forward declaration replaces what the view holds.  For a
    structure or union node that is not a definition, [struct_decl]
    registers, under the node's name, a structure without members that has
    the size and alignment libclang reports, whatever the view held under
    that name before. *)
Theorem struct_decl_forward_declaration_replaces_entry :
  forall (tu : TranslationUnit) (bn : BinaryNinja) (dt : Cursor -> Py Result)
         (node : Cursor) (bv : BinaryView),
    is_definition tu node = false ->
    (forall known name t, bn_define_user_type_error bn known name t = None) ->
    let struct_name :=
      if PyStr.truthy (spelling tu node) then spelling tu node
      else tspelling tu (type tu node) in
    let empty :=
      TStructure (Some (get_size tu (type tu node)))
                 (Some (get_align tu (type tu node))) []
                 (if CursorKind_eqb (kind tu node) UNION_DECL
                  then UnionStructureType else StructStructureType) in
    exists bv',
      struct_decl tu bn dt node bv = Returns (Some (struct_name, empty)) bv' /\
      types bv' = <[struct_name := empty]> (types bv).
Proof.
  intros tu bn dt node bv Hdef Hok struct_name empty.
  unfold struct_decl. fold struct_name. rewrite Hdef.
  rewrite (bind_eq_Returns _ _ _ _ _ (log_debug_eq _ _ _)).
  unfold try_except, bind, define_user_type, log_debug, ret.
  rewrite !Hok. unfold structure_type. cbn [s_width s_alignment s_members s_type].
  fold empty.
  eexists. split; [reflexivity |]. cbn [types logged].
  apply insert_insert_eq.
Qed.

Lemma struct_decl_forward_declaration_replaces_entry_witness :
  exists bv',
    struct_decl Aggregates.tu Build.example_bn
                (define_type Aggregates.tu Build.example_bn 1) 4 Aggregates.view =
      Returns (Some ("S", TStructure (Some (-2)) (Some (-2)) [] StructStructureType))
              bv' /\
    types bv' =
      <["S" := TStructure (Some (-2)) (Some (-2)) [] StructStructureType]>
        (types Aggregates.view).
Proof.
  apply (struct_decl_forward_declaration_replaces_entry
           Aggregates.tu Build.example_bn
           (define_type Aggregates.tu Build.example_bn 1) 4 Aggregates.view).
  - reflexivity.
  - reflexivity.
Defined.

(** Whenever the loop body of [struct_decl] returns, the member's name is
    the field's own, or the pointee declaration's for a recursive field. *)
Lemma struct_decl_field_member_name :
  forall (tu : TranslationUnit) (bn : BinaryNinja) (dt : Cursor -> Py Result)
         (field : Cursor) (bv : BinaryView) (m : BnType * string) (bv' : BinaryView),
    struct_decl_field tu bn dt field bv = Returns m bv' ->
    snd m = member_name tu field.
Proof.
  intros tu bn dt field bv m bv' H.
  unfold struct_decl_field in H.
  rewrite (bind_eq_Returns _ _ _ _ _ (log_debug_eq _ _ _)) in H.
  rewrite (bind_eq_Returns _ _ _ _ _ (is_recursive_field_eq _ _ _)) in H.
  unfold member_name.
  apply bind_Returns in H as (member & bv1 & Hmember & H).
  unfold bind, log_debug, ret in H. injection H as <- <-.
  destruct (field_is_recursive tu field).
  - apply bind_Returns in Hmember as (u & bv2 & _ & Hmember).
    apply bind_Returns in Hmember as (t & bv3 & _ & Hmember).
    destruct t; [| discriminate]. injection Hmember as <- <-. reflexivity.
  - apply bind_Returns in Hmember as (var_type & bv2 & _ & Hmember).
    destruct var_type as [t |]; [destruct (bn_truth bn t) |].
    + injection Hmember as <- <-. reflexivity.
    + apply bind_Returns in Hmember as (r & bv3 & _ & Hmember).
      apply bind_Returns in Hmember as ([n ty] & bv4 & _ & Hmember).
      injection Hmember as <- <-. reflexivity.
    + apply bind_Returns in Hmember as (r & bv3 & _ & Hmember).
      apply bind_Returns in Hmember as ([n ty] & bv4 & _ & Hmember).
      injection Hmember as <- <-. reflexivity.
Qed.

Lemma Forall2_map_snd {A} (f : A -> string) (l : list A)
      (members : list (BnType * string)) :
  Forall2 (fun x m => snd m = f x) l members -> map snd members = map f l.
Proof.
  induction 1 as [| x m l members Hm _ IH]; [reflexivity |].
  cbn [map]. rewrite Hm, IH. reflexivity.
Qed.

(** X19: the shape of what [struct_decl] returns for a definition.  The
    name is the node's spelling, or the spelling of its type when the node
    has none; the type has the size and alignment libclang reports, is a
    union exactly when the node is a union declaration, and has one member
    per field, in declaration order, named like the field (like the
    pointee's declaration for a recursive field).  It is what the view
    holds under the name. *)
Theorem struct_decl_members_follow_the_fields :
  forall (tu : TranslationUnit) (bn : BinaryNinja) (dt : Cursor -> Py Result)
         (node : Cursor) (bv : BinaryView) (name : string) (t : BnType)
         (bv' : BinaryView),
    is_definition tu node = true ->
    struct_decl tu bn dt node bv = Returns (Some (name, t)) bv' ->
    exists members,
      name = (if PyStr.truthy (spelling tu node) then spelling tu node
              else tspelling tu (type tu node)) /\
      t = TStructure (Some (get_size tu (type tu node)))
                     (Some (get_align tu (type tu node))) members
                     (if CursorKind_eqb (kind tu node) UNION_DECL
                      then UnionStructureType else StructStructureType) /\
      map snd members = map (member_name tu) (get_fields tu (type tu node)) /\
      types bv' !! name = Some t.
Proof.
  intros tu bn dt node bv name t bv' Hdef H.
  pose proof (struct_decl_registered tu bn dt node bv _ bv' H) as Hreg.
  cbn in Hreg.
  unfold struct_decl in H. rewrite Hdef in H.
  apply bind_Returns in H as (u & bv1 & _ & H).
  apply bind_Returns in H as (u2 & bv2 & _ & H).
  apply bind_Returns in H as (members & bv3 & Hfields & H).
  exists members.
  unfold try_except in H.
  match type of H with
  | match ?run with _ => _ end = _ => destruct run as [r b | e b |] eqn:E
  end; try discriminate.
  injection H as -> ->.
  apply bind_Returns in E as (u3 & bv4 & _ & E).
  unfold bind, log_debug, ret in E. injection E as <- <- _.
  repeat split.
  - apply Forall2_map_snd.
    apply for_list_Returns_Forall2 in Hfields.
    eapply Forall2_impl; [exact Hfields |].
    intros f m (b1 & b2 & Hrun).
    eapply struct_decl_field_member_name. exact Hrun.
  - exact Hreg.
Qed.

Lemma struct_decl_members_follow_the_fields_witness :
  exists members,
    "U" = "U" /\
    TStructure (Some 4) (Some 4) [(TBase "int", "i"); (TBase "char", "c")]
               UnionStructureType =
      TStructure (Some 4) (Some 4) members UnionStructureType /\
    map snd members = ["i"; "c"] /\
    types (view_after (struct_decl Aggregates.tu Build.example_bn
                         (define_type Aggregates.tu Build.example_bn 2) 1
                         Build.empty_view)) !! "U" =
      Some (TStructure (Some 4) (Some 4) [(TBase "int", "i"); (TBase "char", "c")]
                       UnionStructureType).
Proof.
  apply (struct_decl_members_follow_the_fields
           Aggregates.tu Build.example_bn
           (define_type Aggregates.tu Build.example_bn 2) 1 Build.empty_view
           "U"
           (TStructure (Some 4) (Some 4) [(TBase "int", "i"); (TBase "char", "c")]
                       UnionStructureType)
           (view_after (struct_decl Aggregates.tu Build.example_bn
                          (define_type Aggregates.tu Build.example_bn 2) 1
                          Build.empty_view))).
  - reflexivity.
  - vm_compute. reflexivity.
Defined.

Lemma define_anonymous_type_fields_defined :
  forall (tu : TranslationUnit) (bn : BinaryNinja) (dt : Cursor -> Py Result)
         (known : gmap string BnType) (member_type : Cursor -> BnType)
         (fields : list Cursor),
    Forall (fun f =>
              known !! spelling tu f = Some (member_type f) /\
              bn_truth bn (member_type f) = true) fields ->
    forall bv,
      types bv = known ->
      exists bv',
        for_list
          (fun field =>
             let* bn_field_type := get_type_by_name (spelling tu field) in
             let* '(field_name, bn_field_type) :=
               match bn_field_type with
               | Some t =>
                   if bn_truth bn t then ret (spelling tu field, t)
                   else let* r := dt (get_definition tu field) in unpack r
               | None => let* r := dt (get_definition tu field) in unpack r
               end in
             log_debug "define_anonymous_type: Appending field -" [field_name] >>
             ret (bn_field_type, field_name))
          fields bv =
          Returns (map (fun f => (member_type f, spelling tu f)) fields) bv' /\
        types bv' = known.
Proof.
  intros tu bn dt known member_type fields Hfields.
  induction Hfields as [| f fields [Hknown Htruth] _ IH]; intros bv Hbv.
  - eexists. split; [reflexivity | exact Hbv].
  - cbn [for_list map].
    unfold bind at 1. unfold bind at 1. unfold get_type_by_name at 1.
    rewrite Hbv, Hknown, Htruth.
    unfold bind at 1. unfold ret at 1. unfold bind at 1.
    rewrite log_debug_eq. unfold ret at 1.
    match goal with
    | |- context [bind (for_list _ fields) _ ?b] =>
        destruct (IH b) as (bv' & Hrun & Htypes); [cbn [logged types]; exact Hbv |]
    end.
    rewrite (bind_eq_Returns _ _ _ _ _ Hrun).
    exists bv'. split; [reflexivity | exact Htypes].
Qed.

(** X20: an anonymous aggregate whose members are all named like types of
    the view (types Python takes for true) is built from those types
    without calling the dispatcher: one member per field, in order, with
    the type found under the field's name and the field's name.  It is a
    union exactly when the node's type is elaborated and names a union
    declaration.  The result is returned, not registered: no type of the
    view changes. *)
Theorem define_anonymous_type_reuses_types_named_like_members :
  forall (tu : TranslationUnit) (bn : BinaryNinja) (dt : Cursor -> Py Result)
         (node : Cursor) (bv : BinaryView) (member_type : Cursor -> BnType),
    Forall (fun f =>
              types bv !! spelling tu f = Some (member_type f) /\
              bn_truth bn (member_type f) = true)
           (get_fields tu (type tu node)) ->
    exists bv',
      define_anonymous_type tu bn dt node bv =
        Returns
          (Some ("anon_" +:+ XXH64.xxh64_hexdigest (tspelling tu (type tu node)),
                 TStructure
                   (Some (get_size tu (type tu node)))
                   (Some (get_align tu (type tu node)))
                   (map (fun f => (member_type f, spelling tu f))
                        (get_fields tu (type tu node)))
                   (if TypeKind_eqb (tkind tu (type tu node)) ELABORATED
                       && CursorKind_eqb
                            (kind tu (get_declaration tu
                                        (get_named_type tu (type tu node))))
                            UNION_DECL
                    then UnionStructureType else StructStructureType)))
          bv' /\
      types bv' = types bv.
Proof.
  intros tu bn dt node bv member_type Hfields.
  unfold define_anonymous_type.
  rewrite (bind_eq_Returns _ _ _ _ _ (log_debug_eq _ _ _)).
  destruct (define_anonymous_type_fields_defined
              tu bn dt (types bv) member_type _ Hfields
              (logged bv [Debug "define_anonymous_type: Processing"
                                [tspelling tu (type tu node)]]) eq_refl)
    as (bv' & Hrun & Htypes).
  rewrite (bind_eq_Returns _ _ _ _ _ Hrun).
  exists bv'. split; [reflexivity | exact Htypes].
Qed.

Lemma define_anonymous_type_reuses_types_named_like_members_witness :
  exists bv',
    define_anonymous_type Aggregates.tu Build.example_bn
      (define_type Aggregates.tu Build.example_bn 0) 5 Aggregates.view =
      Returns (Some ("anon_2aa6ce396041ee0f",
                     TStructure (Some 4) (Some 4)
                                [(TBase "int", "i"); (TBase "char", "c")]
                                UnionStructureType)) bv' /\
    types bv' = types Aggregates.view.
Proof.
  apply (define_anonymous_type_reuses_types_named_like_members
           Aggregates.tu Build.example_bn
           (define_type Aggregates.tu Build.example_bn 0) 5 Aggregates.view
           Aggregates.member_type).
  repeat constructor.
Defined.

(** ** [pointer_type] *)

(** [pointer_type] on a node whose type is a pointer: once the pointer is
    built from the pointee, it is registered under the node's name and
    returned. *)
Lemma pointer_type_of_pointer :
  forall (tu : TranslationUnit) (bn : BinaryNinja) (fuel : nat)
         (dt : Cursor -> Py Result) (node : Cursor) (bv bv1 : BinaryView)
         (pointer : BnType),
    tkind tu (type tu node) = POINTER ->
    pointer_type_pointer tu bn fuel dt node (get_pointee tu (type tu node))
      (logged bv [Debug "pointer_type:"
                        [tspelling tu (type tu node); spelling tu node]])
      = Returns pointer bv1 ->
    bn_define_user_type_error bn (types bv1) (spelling tu node) pointer = None ->
    exists bv',
      pointer_type tu bn fuel dt node bv =
        Returns (Some (spelling tu node, pointer)) bv' /\
      types bv' = <[spelling tu node := pointer]> (types bv1).
Proof.
  intros tu bn fuel dt node bv bv1 pointer Hptr Hrun Hok. unfold pointer_type.
  rewrite (bind_eq_Returns _ _ _ _ _ (log_debug_eq _ _ _)).
  rewrite Hptr. eval_kinds. cbv iota.
  unfold bind at 1. unfold ret at 1.
  rewrite (bind_eq_Returns _ _ _ _ _ Hrun).
  unfold bind, define_user_type, log_debug, ret. rewrite Hok.
  eexists. split; reflexivity.
Qed.

(** Closes a goal on [pointer_type] from the run of [pointer_type_pointer]
    on a view with the same types. *)
Ltac pointer_type_from Hptr Hok Hrun :=
  let bv1 := fresh "bv1" in
  let Hrun1 := fresh "Hrun" in
  let Htypes := fresh "Htypes" in
  let bv' := fresh "bv'" in
  let Hret := fresh "Hret" in
  let Hty := fresh "Hty" in
  destruct Hrun as (bv1 & Hrun1 & Htypes);
  destruct (pointer_type_of_pointer _ _ _ _ _ _ bv1 _ Hptr Hrun1)
    as (bv' & Hret & Hty);
  [ rewrite Htypes; exact Hok
  | exists bv'; split; [exact Hret | rewrite Hty, Htypes; reflexivity] ].

(** X21: a pointer to a base type.  The pointee's spelling is parsed, the
    qualified spellings of [void] that Binary Ninja cannot parse
    ([const void] and the like) being parsed as plain [void]; the pointer
    to the parsed type is registered under the node's name. *)
Theorem pointer_type_to_base_type :
  forall (tu : TranslationUnit) (bn : BinaryNinja) (fuel : nat)
         (dt : Cursor -> Py Result) (node : Cursor) (bv : BinaryView)
         (pointee : BnType) (name : string),
    tkind tu (type tu node) = POINTER ->
    kind_in_base_types tu (get_pointee tu (type tu node)) = true ->
    bn_parse_type_string bn (types bv)
      (if PyStr.mem (tspelling tu (get_pointee tu (type tu node))) void_types
       then "void" else tspelling tu (get_pointee tu (type tu node)))
      = inr (pointee, name) ->
    bn_define_user_type_error bn (types bv) (spelling tu node) (TPointer pointee)
      = None ->
    exists bv',
      pointer_type tu bn fuel dt node bv =
        Returns (Some (spelling tu node, TPointer pointee)) bv' /\
      types bv' = <[spelling tu node := TPointer pointee]> (types bv).
Proof.
  intros tu bn fuel dt node bv pointee name Hptr Hbase Hparse Hok.
  assert (Hrun : exists bv1,
             pointer_type_pointer tu bn fuel dt node (get_pointee tu (type tu node))
               (logged bv [Debug "pointer_type:"
                                 [tspelling tu (type tu node); spelling tu node]])
               = Returns (TPointer pointee) bv1 /\ types bv1 = types bv).
  { unfold pointer_type_pointer.
    unfold bind at 1.
    rewrite (check_if_base_type_true _ _ _ Hbase).
    rewrite (bind_eq_Returns _ _ _ _ _ (log_debug_eq _ _ _)).
    unfold bind, parse_type_string, void_if_void_type, ret.
    cbn [logged types]. rewrite Hparse.
    eexists. split; reflexivity. }
  pointer_type_from Hptr Hok Hrun.
Qed.

Lemma pointer_type_to_base_type_witness :
  exists bv',
    pointer_type Pointers.tu Build.example_bn 1
                 (define_type Pointers.tu Build.example_bn 1) 1 Build.empty_view =
      Returns (Some ("cookie", TPointer (TBase "void"))) bv' /\
    types bv' = <["cookie" := TPointer (TBase "void")]> (types Build.empty_view).
Proof.
  apply (pointer_type_to_base_type
           Pointers.tu Build.example_bn 1
           (define_type Pointers.tu Build.example_bn 1) 1 Build.empty_view
           (TBase "void") "").
  - reflexivity.
  - reflexivity.
  - reflexivity.
  - reflexivity.
Defined.

(** X22: a pointer to a declared type that is already in the view.  The
    pointee is looked up under the spelling of its declaration; when the
    view has it, the pointer wraps the entry found and the dispatcher is
    not called (so a pointer to a structure still being built wraps its
    placeholder). *)
Theorem pointer_type_to_registered_declaration :
  forall (tu : TranslationUnit) (bn : BinaryNinja) (fuel : nat)
         (dt : Cursor -> Py Result) (node : Cursor) (bv : BinaryView)
         (pointee : BnType),
    tkind tu (type tu node) = POINTER ->
    kind_in_base_types tu (get_pointee tu (type tu node)) = false ->
    kind tu (get_declaration tu (get_pointee tu (type tu node))) <> NO_DECL_FOUND ->
    types bv !! spelling tu (get_declaration tu (get_pointee tu (type tu node)))
      = Some pointee ->
    bn_define_user_type_error bn (types bv) (spelling tu node) (TPointer pointee)
      = None ->
    exists bv',
      pointer_type tu bn fuel dt node bv =
        Returns (Some (spelling tu node, TPointer pointee)) bv' /\
      types bv' = <[spelling tu node := TPointer pointee]> (types bv).
Proof.
  intros tu bn fuel dt node bv pointee Hptr Hbase Hdecl Hknown Hok.
  assert (Hrun : exists bv1,
             pointer_type_pointer tu bn fuel dt node (get_pointee tu (type tu node))
               (logged bv [Debug "pointer_type:"
                                 [tspelling tu (type tu node); spelling tu node]])
               = Returns (TPointer pointee) bv1 /\ types bv1 = types bv).
  { unfold pointer_type_pointer.
    unfold bind at 1.
    rewrite (check_if_base_type_false _ _ _ Hbase).
    rewrite (CursorKind_eqb_false _ _ Hdecl).
    unfold bind, get_type_by_name, ret. cbn [logged types].
    rewrite Hknown.
    eexists. split; reflexivity. }
  pointer_type_from Hptr Hok Hrun.
Qed.

Lemma pointer_type_to_registered_declaration_witness :
  exists bv',
    pointer_type Pointers.tu Build.example_bn 0
                 (define_type Pointers.tu Build.example_bn 0) 2 Pointers.view =
      Returns (Some ("head", TPointer Pointers.node_defined)) bv' /\
    types bv' = <["head" := TPointer Pointers.node_defined]> (types Pointers.view).
Proof.
  apply (pointer_type_to_registered_declaration
           Pointers.tu Build.example_bn 0
           (define_type Pointers.tu Build.example_bn 0) 2 Pointers.view
           Pointers.node_defined).
  - reflexivity.
  - reflexivity.
  - discriminate.
  - reflexivity.
  - reflexivity.
Defined.

(** X23: a pointer to a pointer to a base type is registered as a pointer
    to the base type: the inner base type is parsed and wrapped once, so
    one of the two levels is lost. *)
Theorem pointer_type_two_levels_gives_one :
  forall (tu : TranslationUnit) (bn : BinaryNinja) (fuel : nat)
         (dt : Cursor -> Py Result) (node : Cursor) (bv : BinaryView)
         (base : BnType) (name : string),
    let pointee_type := get_pointee tu (type tu node) in
    tkind tu (type tu node) = POINTER ->
    tkind tu pointee_type = POINTER ->
    kind tu (get_declaration tu pointee_type) = NO_DECL_FOUND ->
    kind_in_base_types tu (get_pointee tu pointee_type) = true ->
    bn_parse_type_string bn (types bv)
      (void_if_void_type (tspelling tu (get_pointee tu pointee_type)))
      = inr (base, name) ->
    bn_define_user_type_error bn (types bv) (spelling tu node) (TPointer base)
      = None ->
    exists bv',
      pointer_type tu bn fuel dt node bv =
        Returns (Some (spelling tu node, TPointer base)) bv' /\
      types bv' = <[spelling tu node := TPointer base]> (types bv).
Proof.
  intros tu bn fuel dt node bv base name pointee_type Hptr Hptr1 Hnodecl Hbase
         Hparse Hok.
  assert (Hrun : exists bv1,
             pointer_type_pointer tu bn fuel dt node pointee_type
               (logged bv [Debug "pointer_type:"
                                 [tspelling tu (type tu node); spelling tu node]])
               = Returns (TPointer base) bv1 /\ types bv1 = types bv).
  { unfold pointer_type_pointer.
    unfold bind at 1.
    rewrite (check_if_base_type_false _ _ _ (pointer_not_base _ _ Hptr1)).
    rewrite Hnodecl. eval_kinds. cbv iota.
    rewrite (bind_eq_Returns _ _ _ _ _ (log_debug_eq _ _ _)).
    rewrite Hptr1. eval_kinds. cbv iota.
    unfold pointer_to_pointer.
    unfold bind at 1. unfold bind at 1.
    rewrite (check_if_base_type_true _ _ _ Hbase).
    unfold bind, parse_type_string, ret. cbn [logged types].
    rewrite Hparse.
    eexists. split; reflexivity. }
  pointer_type_from Hptr Hok Hrun.
Qed.

Lemma pointer_type_two_levels_gives_one_witness :
  exists bv',
    pointer_type Declarators.tu Build.example_bn 1
                 (define_type Declarators.tu Build.example_bn 1) 8 Build.empty_view =
      Returns (Some ("r", TPointer (TBase "int"))) bv' /\
    types bv' = <["r" := TPointer (TBase "int")]> (types Build.empty_view).
Proof.
  apply (pointer_type_two_levels_gives_one
           Declarators.tu Build.example_bn 1
           (define_type Declarators.tu Build.example_bn 1) 8 Build.empty_view
           (TBase "int") "").
  - reflexivity.
  - reflexivity.
  - reflexivity.
  - reflexivity.
  - reflexivity.
  - reflexivity.
Defined.

(** X24: a pointer to a function without prototype whose result is a base
    type is registered as a pointer to a function with no parameters; the
    function type carries no calling convention and is not variadic. *)
Theorem pointer_type_to_function_without_prototype :
  forall (tu : TranslationUnit) (bn : BinaryNinja) (fuel : nat)
         (dt : Cursor -> Py Result) (node : Cursor) (bv : BinaryView)
         (result : BnType) (name : string),
    let pointee_type := get_pointee tu (type tu node) in
    tkind tu (type tu node) = POINTER ->
    tkind tu pointee_type = FUNCTIONNOPROTO ->
    kind tu (get_declaration tu pointee_type) = NO_DECL_FOUND ->
    kind_in_base_types tu (get_result tu pointee_type) = true ->
    bn_parse_type_string bn (types bv)
      (void_if_void_type (tspelling tu (get_result tu pointee_type)))
      = inr (result, name) ->
    bn_define_user_type_error bn (types bv) (spelling tu node)
      (TPointer (TFunction result [] None false)) = None ->
    exists bv',
      pointer_type tu bn fuel dt node bv =
        Returns (Some (spelling tu node, TPointer (TFunction result [] None false)))
                bv' /\
      types bv' =
        <[spelling tu node := TPointer (TFunction result [] None false)]> (types bv).
Proof.
  intros tu bn fuel dt node bv result name pointee_type Hptr Hfn Hnodecl Hbase
         Hparse Hok.
  assert (Hrun : exists bv1,
             pointer_type_pointer tu bn fuel dt node pointee_type
               (logged bv [Debug "pointer_type:"
                                 [tspelling tu (type tu node); spelling tu node]])
               = Returns (TPointer (TFunction result [] None false)) bv1 /\
             types bv1 = types bv).
  { unfold pointer_type_pointer.
    unfold bind at 1.
    rewrite check_if_base_type_false
      by (unfold kind_in_base_types; rewrite Hfn; reflexivity).
    rewrite Hnodecl. eval_kinds. cbv iota.
    rewrite (bind_eq_Returns _ _ _ _ _ (log_debug_eq _ _ _)).
    rewrite Hfn. eval_kinds. cbv iota.
    unfold bind at 1. unfold bind at 1.
    rewrite (check_if_base_type_true _ _ _ Hbase).
    unfold bind, parse_type_string, ret. cbn [logged types].
    rewrite Hparse.
    eexists. split; reflexivity. }
  pointer_type_from Hptr Hok Hrun.
Qed.

Lemma pointer_type_to_function_without_prototype_witness :
  exists bv',
    pointer_type Pointers.tu Build.accepting_bn 1
                 (define_type Pointers.tu Build.accepting_bn 1) 4 Build.empty_view =
      Returns (Some ("old_style",
                     TPointer (TFunction (TNamedReference "long") [] None false)))
              bv' /\
    types bv' =
      <["old_style" := TPointer (TFunction (TNamedReference "long") [] None false)]>
        (types Build.empty_view).
Proof.
  apply (pointer_type_to_function_without_prototype
           Pointers.tu Build.accepting_bn 1
           (define_type Pointers.tu Build.accepting_bn 1) 4 Build.empty_view
           (TNamedReference "long") "").
  - reflexivity.
  - reflexivity.
  - reflexivity.
  - reflexivity.
  - reflexivity.
  - reflexivity.
Defined.

(** ** [constantarray_type] *)

(** The last step of [constantarray_type]: the array is registered under
    the node's name and returned. *)
Lemma constantarray_type_register :
  forall (tu : TranslationUnit) (bn : BinaryNinja) (node : Cursor)
         (array : BnType) (bv : BinaryView),
    bn_define_user_type_error bn (types bv) (spelling tu node) array = None ->
    exists bv',
      (define_user_type bn (spelling tu node) array >>
       log_debug "constantarray_type: Successfully defined:"
                 [tspelling tu (type tu node); spelling tu node] >>
       ret (Some (spelling tu node, array))) bv =
        Returns (Some (spelling tu node, array)) bv' /\
      types bv' = <[spelling tu node := array]> (types bv).
Proof.
  intros tu bn node array bv Hok.
  unfold bind, define_user_type, log_debug, ret. rewrite Hok.
  eexists. split; reflexivity.
Qed.

(** X25: an array whose element type is spelled like a (true) type of the
    view takes that entry as its element type: nothing is parsed and the
    dispatcher is not called. *)
Theorem constantarray_type_reuses_registered_element :
  forall (tu : TranslationUnit) (bn : BinaryNinja) (dt : Cursor -> Py Result)
         (node : Cursor) (bv : BinaryView) (element : BnType),
    let array := TArray element (get_array_size tu (type tu node)) in
    types bv !! tspelling tu (get_array_element_type tu (type tu node))
      = Some element ->
    bn_truth bn element = true ->
    bn_define_user_type_error bn (types bv) (spelling tu node) array = None ->
    exists bv',
      constantarray_type tu bn dt node bv =
        Returns (Some (spelling tu node, array)) bv' /\
      types bv' = <[spelling tu node := array]> (types bv).
Proof.
  intros tu bn dt node bv element array Hknown Htrue Hok.
  unfold constantarray_type.
  rewrite (bind_eq_Returns _ _ _ _ _ (log_debug_eq _ _ _)).
  rewrite (bind_eq_Returns _ _ _ _ _ (log_debug_eq _ _ _)).
  unfold bind at 1. unfold get_type_by_name at 1. cbn [logged types].
  rewrite Hknown.
  unfold bind at 1. rewrite Htrue.
  rewrite (bind_eq_Returns _ _ _ _ _ (log_debug_eq _ _ _)).
  unfold ret at 1.
  match goal with
  | |- exists bv', _ ?b = _ /\ _ =>
      destruct (constantarray_type_register tu bn node array b Hok)
        as (bv' & Hret & Hty)
  end.
  exists bv'. split; [exact Hret | exact Hty].
Qed.

Lemma constantarray_type_reuses_registered_element_witness :
  exists bv',
    constantarray_type Header.tu Build.example_bn
                       (define_type Header.tu Build.example_bn 0) 1 Header.view =
      Returns (Some ("m", TArray (TArray (TBase "int") 3) 2)) bv' /\
    types bv' = <["m" := TArray (TArray (TBase "int") 3) 2]> (types Header.view).
Proof.
  apply (constantarray_type_reuses_registered_element
           Header.tu Build.example_bn (define_type Header.tu Build.example_bn 0)
           1 Header.view (TArray (TBase "int") 3)).
  - reflexivity.
  - reflexivity.
  - reflexivity.
Defined.

(** X26: a two-dimensional array of a base type is registered as an array
    of arrays, outermost dimension first: the element type of the inner
    array is parsed, wrapped in the inner dimension and then in the
    outer one. *)
Theorem constantarray_type_matrix_of_base_type :
  forall (tu : TranslationUnit) (bn : BinaryNinja) (dt : Cursor -> Py Result)
         (node : Cursor) (bv : BinaryView) (base : BnType) (name : string),
    let row := get_array_element_type tu (type tu node) in
    let matrix :=
      TArray (TArray base (get_array_size tu row)) (get_array_size tu (type tu node)) in
    types bv !! tspelling tu row = None ->
    is_anonymous tu (get_declaration tu row) = false ->
    tkind tu row = CONSTANTARRAY ->
    kind_in_base_types tu (get_array_element_type tu row) = true ->
    bn_parse_type_string bn (types bv)
      (tspelling tu (get_array_element_type tu row)) = inr (base, name) ->
    bn_truth bn matrix = true ->
    bn_define_user_type_error bn (types bv) (spelling tu node) matrix = None ->
    exists bv',
      constantarray_type tu bn dt node bv =
        Returns (Some (spelling tu node, matrix)) bv' /\
      types bv' = <[spelling tu node := matrix]> (types bv).
Proof.
  intros tu bn dt node bv base name row matrix Hnew Hanon Hrow Hbase Hparse
         Htrue Hok.
  unfold constantarray_type. fold row.
  rewrite (bind_eq_Returns _ _ _ _ _ (log_debug_eq _ _ _)).
  rewrite (bind_eq_Returns _ _ _ _ _ (log_debug_eq _ _ _)).
  unfold bind at 1. unfold get_type_by_name at 1. cbn [logged types].
  rewrite Hnew.
  assert (Hrun : exists bv1,
             constantarray_type_unregistered tu bn dt node
               (logged (logged bv [Debug "constantarray_type:"
                                         [tspelling tu (type tu node); spelling tu node]])
                       [Debug "constantarray_type: element_type:" [tspelling tu row]])
               = Returns matrix bv1 /\ types bv1 = types bv).
  { unfold constantarray_type_unregistered. fold row. rewrite Hanon.
    unfold bind at 1.
    rewrite (check_if_base_type_false _ _ _ (constantarray_not_base _ _ Hrow)).
    unfold constantarray_type_declared. fold row. rewrite Hrow. eval_kinds.
    cbv iota.
    unfold bind at 1. unfold bind at 1.
    rewrite (check_if_base_type_true _ _ _ Hbase).
    unfold bind at 1. unfold parse_type_string at 1. cbn [logged types].
    rewrite Hparse. unfold ret at 1. fold matrix. rewrite Htrue.
    unfold ret. eexists. split; reflexivity. }
  destruct Hrun as (bv1 & Hrun & Htypes).
  rewrite (bind_eq_Returns _ _ _ _ _ Hrun).
  destruct (constantarray_type_register tu bn node matrix bv1) as (bv' & Hret & Hty).
  { rewrite Htypes. exact Hok. }
  exists bv'. split; [exact Hret | rewrite Hty, Htypes; reflexivity].
Qed.

Lemma constantarray_type_matrix_of_base_type_witness :
  exists bv',
    constantarray_type Header.tu Build.example_bn
                       (define_type Header.tu Build.example_bn 0) 1 Build.empty_view =
      Returns (Some ("m", TArray (TArray (TBase "int") 3) 2)) bv' /\
    types bv' = <["m" := TArray (TArray (TBase "int") 3) 2]> (types Build.empty_view).
Proof.
  apply (constantarray_type_matrix_of_base_type
           Header.tu Build.example_bn (define_type Header.tu Build.example_bn 0)
           1 Build.empty_view (TBase "int") "").
  - reflexivity.
  - reflexivity.
  - reflexivity.
  - reflexivity.
  - reflexivity.
  - reflexivity.
  - reflexivity.
Defined.

(** ** [pre_define_types] and [pp] *)




(** The export loop reads the view and leaves it as it is, but for the
    log. *)
Lemma pp_export_flat_map :
  forall (tu : TranslationUnit) (nodes : list Cursor) (bv : BinaryView),
    exists bv',
      pp_export tu nodes bv =
        Returns (flat_map (fun node =>
                             match types bv !! spelling tu node with
                             | Some t => [(spelling tu node, t)]
                             | None => []
                             end) nodes) bv' /\
      types bv' = types bv.
Proof.
  intros tu nodes. unfold pp_export.
  assert (Hloop : forall bv, exists bv',
             for_list
               (fun node =>
                  log_debug "EXPORTING NODE:"
                            [spelling tu node; tspelling tu (type tu node)] >>
                  let* var_type := get_type_by_name (spelling tu node) in
                  match var_type with
                  | Some t => ret [(spelling tu node, t)]
                  | None => ret []
                  end) nodes bv =
               Returns (map (fun node =>
                               match types bv !! spelling tu node with
                               | Some t => [(spelling tu node, t)]
                               | None => []
                               end) nodes) bv' /\
             types bv' = types bv).
  { induction nodes as [| node nodes IH]; intros bv.
    - exists bv. split; reflexivity.
    - cbn [for_list List.map].
      destruct (IH (logged bv [Debug "EXPORTING NODE:"
                                     [spelling tu node; tspelling tu (type tu node)]]))
        as (bv' & Hrun & Htypes).
      exists bv'. split; [| exact Htypes].
      unfold bind at 1.
      rewrite (bind_eq_Returns _ _ _ _ _ (log_debug_eq _ _ _)).
      unfold bind at 1. unfold get_type_by_name at 1. cbn [logged types] in *.
      destruct (types bv !! spelling tu node) as [t |]; unfold ret at 1;
        rewrite (bind_eq_Returns _ _ _ _ _ Hrun); reflexivity. }
  intros bv. destruct (Hloop bv) as (bv' & Hrun & Htypes).
  exists bv'. split; [| exact Htypes].
  rewrite (bind_eq_Returns _ _ _ _ _ Hrun). unfold ret.
  rewrite flat_map_concat_map. reflexivity.
Qed.

(** X28: what [pp] hands to the type library.  When [pp] returns, a pair
    [(name, t)] is exported exactly when [name] is the spelling of a
    top-level node and the final view holds [t] under it: what handlers
    registered under other names (members, pointees, anonymous types,
    pre-defined types) is not exported unless a top-level node is spelled
    like it. *)
Theorem pp_exports_registered_top_level_names :
  forall (tu : TranslationUnit) (bn : BinaryNinja) (fuel : nat)
         (bv bv' : BinaryView) (exported : list (string * BnType)),
    pp tu bn fuel bv = Returns exported bv' ->
    forall (name : string) (t : BnType),
      In (name, t) exported <->
      (In name (map (spelling tu) (get_children tu (tu_cursor tu))) /\
       types bv' !! name = Some t).
Proof.
  intros tu bn fuel bv bv' exported H name t. unfold pp in H.
  apply bind_Returns in H as (r1 & bv1 & _ & H).
  apply bind_Returns in H as (r2 & bv2 & _ & H).
  destruct (pp_export_flat_map tu (get_children tu (tu_cursor tu)) bv2)
    as (bv3 & Hrun & Htypes).
  rewrite Hrun in H. injection H as <- <-. rewrite Htypes.
  rewrite in_flat_map, List.in_map_iff. split.
  - intros (node & Hin & Hpair).
    destruct (types bv2 !! spelling tu node) as [t' |] eqn:E; [| destruct Hpair].
    destruct Hpair as [Hpair | []]. injection Hpair as <- <-.
    split; [exists node; split; [reflexivity | exact Hin] | exact E].
  - intros ((node & <- & Hin) & Hknown).
    exists node. split; [exact Hin |]. rewrite Hknown. left. reflexivity.
Qed.

Lemma pp_exports_registered_top_level_names_witness :
  In ("m", TArray (TArray (TNamedReference "int") 3) 2)
     (returned_or (pp Header.tu Build.accepting_bn 3 Build.empty_view) []) <->
  (In "m" (map (spelling Header.tu) (get_children Header.tu (tu_cursor Header.tu))) /\
   types (view_after (pp Header.tu Build.accepting_bn 3 Build.empty_view)) !! "m"
     = Some (TArray (TArray (TNamedReference "int") 3) 2)).
Proof.
  apply (pp_exports_registered_top_level_names
           Header.tu Build.accepting_bn 3 Build.empty_view
           (view_after (pp Header.tu Build.accepting_bn 3 Build.empty_view))
           (returned_or (pp Header.tu Build.accepting_bn 3 Build.empty_view) [])).
  vm_compute. reflexivity.
Defined.
